(** * AutoPR-AI: the refactor dispatcher and its workflow

    A shallow embedding of [llmprovider.py] (transport helper, response
    cleanup, the four provider adapters, the provider registry) and of
    [app.py] ([CodeRefactorAgent]: smell filter, retrying refactor call,
    per-file processing, pull-request publishing, cleanup, [run]).

    Conventions.
    - Text whose whitespace matters (file contents, model output) is a
      Python [str]: a sequence of Unicode code points, [list N].
    - Paths, dictionary keys and environment-variable names are only
      compared and concatenated; they are [string].
    - Effects are explicit: every effectful function is a computation in
      the monad [M], which appends the calls made to the outside world to a
      trace and either returns a value or raises a Python exception.
    - The outside world (network, file system, git, GitHub) is read from
      oracles that say how each call ends. *)

From Stdlib Require Import ZArith NArith List Ascii String Lia SpecFloat.
From stdpp Require Import base option list gmap strings.

#[local] Set Warnings "-register-all".

Open Scope Z_scope.
Open Scope list_scope.

(* ===================================================================== *)
(** ** Python strings                                                     *)
(* ===================================================================== *)

Module PyStr.

Definition pystr := list N.

(** A literal: the code points of an ASCII string. *)
Definition py (s : string) : pystr :=
  List.map N_of_ascii (list_ascii_of_string s).

(** [str.isspace] for one code point, the table [str.strip()] consults. *)
Definition isspace (c : N) : bool :=
  ((9 <=? c) && (c <=? 13) ||
   (28 <=? c) && (c <=? 32) ||
   (c =? 133) || (c =? 160) || (c =? 5760) ||
   (8192 <=? c) && (c <=? 8202) ||
   (c =? 8232) || (c =? 8233) || (c =? 8239) || (c =? 8287) ||
   (c =? 12288))%N.

Fixpoint lstrip (s : pystr) : pystr :=
  match s with
  | [] => []
  | c :: s' => if isspace c then lstrip s' else s
  end.

Definition rstrip (s : pystr) : pystr := rev (lstrip (rev s)).

(** [s.strip()] *)
Definition strip (s : pystr) : pystr := rstrip (lstrip s).

(** [s.startswith(p)] and [s.endswith(p)] *)
Definition startswith (s p : pystr) : bool := bool_decide (p `prefix_of` s).
Definition endswith (s p : pystr) : bool := bool_decide (p `suffix_of` s).

(** [s[n:]] for [n >= 0] and [s[:-n]] for [n > 0]. *)
Definition slice_from (n : nat) (s : pystr) : pystr := drop n s.
Definition slice_to_neg (n : nat) (s : pystr) : pystr :=
  take (length s - n) s.

End PyStr.
Import PyStr.

(* ===================================================================== *)
(** ** llmprovider.py: response cleanup                                   *)
(* ===================================================================== *)

Definition FENCE_PYTHON : pystr := py "```python".
Definition FENCE : pystr := py "```".

(** [_clean_response]: both tests and both slices are on the trimmed text;
    the two [if]s are sequential, the second sees the first's result. *)
Definition _clean_response (refactored_code : pystr) : pystr :=
  let refactored_code :=
    if startswith (strip refactored_code) FENCE_PYTHON
    then slice_from 9 (strip refactored_code)
    else refactored_code in
  let refactored_code :=
    if endswith (strip refactored_code) FENCE
    then slice_to_neg 3 (strip refactored_code)
    else refactored_code in
  strip refactored_code.


(* ===================================================================== *)
(** ** Python values, exceptions and the effect monad                     *)
(* ===================================================================== *)

(** What [response.json()] can produce. A dict is kept as its items, in
    order, with distinct keys. *)
Inductive pyval :=
  | PNone
  | PBool (b : bool)
  | PInt (z : Z)
  | PFloat (f : spec_float)
  | PStr (s : pystr)
  | PList (l : list pyval)
  | PDict (d : list (string * pyval)).

(** Exceptions, all below [Exception]. *)
Inductive exn :=
  | KeyError
  | IndexError
  | TypeError
  | AttributeError
  | ClientError
  | ContentTypeError
  | UnicodeDecodeError
  | OSError
  | CalledProcessError
  | GithubException (status : Z)
  | RuntimeError.

Inductive result (A : Type) :=
  | Ok (a : A)
  | Raise (e : exn).
Arguments Ok {A} a.
Arguments Raise {A} e.

Record request := {
  req_url : pystr;
  req_headers : list (string * pystr);
  req_json : pyval
}.

(** One HTTP response as the code reads it: the status, and how
    [response.json()] and [response.text()] end. *)
Record response := {
  status : Z;
  json : result pyval;
  text : result pystr
}.

Inductive post_outcome :=
  | PostRaises (e : exn)
  | PostResponds (r : response).

Inductive level := INFO | WARNING | ERROR.

Inductive method :=
  | m_clone_repository
  | m_find_python_files
  | m_analyze_for_code_smells
  | m_refactor_file_content
  | m_process_file
  | m_create_pull_request
  | m_cleanup.

Inductive gh_call :=
  | GetRepo (full_name : string)
  | GetBranch
  | GetGitRef (ref : string)
  | RefDelete
  | CreateGitRef (ref : string)
  | GetContents (path ref : string)
  | UpdateFile (path message : string) (content : pystr) (branch : string)
  | CreatePull (head : string).

(** Everything the program does to the outside world, and the entry of
    each agent method. *)
Inductive event :=
  | EvCall (m : method)
  | EvPost (r : request)
  | EvSleep (secs : Z)
  | EvLog (lvl : level) (msg : string)
  | EvExists (path : string)
  | EvRmtree (path : string)
  | EvGitClone (url path : string)
  | EvWalk (path : string)
  | EvOpen (path : string)
  | EvGithub (c : gh_call).

(** A computation: the trace it leaves and how it ends. *)
Definition M (A : Type) : Type := list event * result A.

Definition trace {A} (m : M A) : list event := fst m.
Definition outcome {A} (m : M A) : result A := snd m.

#[global] Instance M_ret : MRet M := fun A a => ([], Ok a).
#[global] Instance M_bind : MBind M := fun A B f m =>
  match m with
  | (t, Ok a) => let '(t', r) := f a in (t ++ t', r)
  | (t, Raise e) => (t, Raise e)
  end.

#[global] Instance M_fmap : FMap M := fun A B f m =>
  match m with
  | (t, Ok a) => (t, Ok (f a))
  | (t, Raise e) => (t, Raise e)
  end.

Definition emit (e : event) : M unit := ([e], Ok tt).
Definition raise {A} (e : exn) : M A := ([], Raise e).
Definition lift {A} (r : result A) : M A := ([], r).
Definition perform {A} (e : event) (r : result A) : M A := ([e], r).
Definition log (lvl : level) (msg : string) : M unit := emit (EvLog lvl msg).

(** [try: body except <classes selected by handles> as e: handler e] *)
Definition try_except {A} (body : M A) (handles : exn -> bool)
    (handler : exn -> M A) : M A :=
  match body with
  | (t, Raise e) =>
      if handles e then let '(t', r) := handler e in (t ++ t', r)
      else (t, Raise e)
  | done => done
  end.

(** [try: body finally: final]; an exception of [final] replaces the
    body's way of ending. *)
Definition try_finally {A} (body : M A) (final : M unit) : M A :=
  match body, final with
  | (t, r), (t', Ok _) => (t ++ t', r)
  | (t, _), (t', Raise e) => (t ++ t', Raise e)
  end.

Definition Exception (e : exn) : bool := true.

Fixpoint mapM {A B} (f : A -> M B) (l : list A) : M (list B) :=
  match l with
  | [] => mret []
  | x :: l' => y ← f x; ys ← mapM f l'; mret (y :: ys)
  end.

Module Py.

Definition float_truthy (f : spec_float) : bool :=
  match f with S754_zero _ => false | _ => true end.

Definition nonempty {A} (l : list A) : bool :=
  match l with [] => false | _ => true end.

(** [bool(v)] *)
Definition truthy (v : pyval) : bool :=
  match v with
  | PNone => false
  | PBool b => b
  | PInt z => negb (z =? 0)
  | PFloat f => float_truthy f
  | PStr s => nonempty s
  | PList l => nonempty l
  | PDict d => nonempty d
  end.

Fixpoint assoc {V} (k : string) (d : list (string * V)) : option V :=
  match d with
  | [] => None
  | (k', v) :: d' => if String.eqb k k' then Some v else assoc k d'
  end.

(** [v.get(k)]: only a dict has the method. *)
Definition get (v : pyval) (k : string) : result pyval :=
  match v with
  | PDict d => Ok (default PNone (assoc k d))
  | _ => Raise AttributeError
  end.

(** [v[k]] for a string key. *)
Definition getitem (v : pyval) (k : string) : result pyval :=
  match v with
  | PDict d => match assoc k d with Some x => Ok x | None => Raise KeyError end
  | _ => Raise TypeError
  end.

(** [v[0]]; a dict from JSON has string keys only. *)
Definition getitem0 (v : pyval) : result pyval :=
  match v with
  | PList (x :: _) => Ok x
  | PList [] => Raise IndexError
  | PStr (c :: _) => Ok (PStr [c])
  | PStr [] => Raise IndexError
  | PDict _ => Raise KeyError
  | _ => Raise TypeError
  end.

(** The receiver of [.strip()], [.startswith()]: a [str] or an
    [AttributeError]. *)
Definition as_str (v : pyval) : result pystr :=
  match v with
  | PStr s => Ok s
  | _ => Raise AttributeError
  end.

(** [dict[k] = v] on an insertion-ordered dict. *)
Fixpoint setitem {V} (k : string) (v : V) (d : list (string * V))
    : list (string * V) :=
  match d with
  | [] => [(k, v)]
  | (k', v') :: d' =>
      if String.eqb k k' then (k, v) :: d' else (k', v') :: setitem k v d'
  end.

End Py.

(* ===================================================================== *)
(** ** llmprovider.py: transport helper, adapters, registry               *)
(* ===================================================================== *)

Definition nl : string := String (ascii_of_nat 10) EmptyString.

(** [REFACTOR_PROMPT.format(file_content=...)]: the text before and after
    the one replacement field. *)
Definition PROMPT_HEAD : string :=
  "Please refactor the following Python code to be more readable, efficient, and adhere to PEP 8 standards." +:+ nl +:+
  "Add docstrings to all functions and classes. Add comments explaining complex logic." +:+ nl +:+
  "Ensure the refactored code maintains the exact original functionality." +:+ nl +:+
  "Only return the raw refactored Python code, without any markdown formatting or explanations." +:+ nl +:+ nl +:+
  "Original Code:" +:+ nl +:+
  "```python" +:+ nl.
Definition PROMPT_TAIL : string :=
  nl +:+ "```" +:+ nl +:+ nl +:+ "Refactored Code:".

Definition REFACTOR_PROMPT_format (file_content : pystr) : pystr :=
  py PROMPT_HEAD ++ file_content ++ py PROMPT_TAIL.

(** An [aiohttp.ClientSession] as the code uses it: how a POST ends. *)
Definition session := request -> post_outcome.

Definition post (s : session) (r : request) : M response :=
  match s r with
  | PostRaises e => perform (EvPost r) (Raise e)
  | PostResponds resp => perform (EvPost r) (Ok resp)
  end.

(** [_make_request]: the parsed body on status 200, [None] otherwise and
    on every exception. *)
Definition _make_request (s : session) (url : pystr)
    (headers : list (string * pystr)) (json_payload : pyval) : M pyval :=
  try_except
    (response ← post s {| req_url := url; req_headers := headers;
                          req_json := json_payload |};
     if status response =? 200 then
       lift (json response)
     else
       error_text ← lift (text response);
       log ERROR "API error";;
       mret PNone)
    Exception
    (fun e => log ERROR "Error calling API";; mret PNone).

(** [_clean_response] applied to a Python value: [.strip()] exists on
    [str] only. *)
Definition clean_value (v : pyval) : M pystr :=
  s ← lift (Py.as_str v);
  mret (_clean_response s).

(** The test [if result and result.get(key)]: [and] stops at a falsy
    [result]. *)
Definition result_and_get (result : pyval) (key : string) : M bool :=
  if Py.truthy result
  then v ← lift (Py.get result key); mret (Py.truthy v)
  else mret false.

Definition user_message (file_content : pystr) : pyval :=
  PDict [("role", PStr (py "user"));
         ("content", PStr (REFACTOR_PROMPT_format file_content))].

Definition refactor_with_gemini (s : session) (file_content api_key : pystr)
    : M pystr :=
  let api_url :=
    py "https://generativelanguage.googleapis.com/v1beta/models/gemini-1.5-flash:generateContent?key="
    ++ api_key in
  let headers := [("Content-Type", py "application/json")] in
  let payload :=
    PDict [("contents",
            PList [PDict [("parts",
              PList [PDict [("text",
                PStr (REFACTOR_PROMPT_format file_content))]])]])] in
  result ← _make_request s api_url headers payload;
  cond ← result_and_get result "candidates";
  if (cond : bool) then
    a ← lift (Py.getitem result "candidates");
    b ← lift (Py.getitem0 a);
    c ← lift (Py.getitem b "content");
    d ← lift (Py.getitem c "parts");
    e ← lift (Py.getitem0 d);
    f ← lift (Py.getitem e "text");
    clean_value f
  else mret file_content.

Definition refactor_with_openai (s : session) (file_content api_key : pystr)
    : M pystr :=
  let api_url := py "https://api.openai.com/v1/chat/completions" in
  let headers := [("Authorization", py "Bearer " ++ api_key);
                  ("Content-Type", py "application/json")] in
  let payload :=
    PDict [("model", PStr (py "gpt-4o"));
           ("messages", PList [user_message file_content])] in
  result ← _make_request s api_url headers payload;
  cond ← result_and_get result "choices";
  if (cond : bool) then
    a ← lift (Py.getitem result "choices");
    b ← lift (Py.getitem0 a);
    c ← lift (Py.getitem b "message");
    d ← lift (Py.getitem c "content");
    clean_value d
  else mret file_content.

Definition refactor_with_anthropic (s : session)
    (file_content api_key : pystr) : M pystr :=
  let api_url := py "https://api.anthropic.com/v1/messages" in
  let headers := [("x-api-key", api_key);
                  ("anthropic-version", py "2023-06-01");
                  ("Content-Type", py "application/json")] in
  let payload :=
    PDict [("model", PStr (py "claude-3-sonnet-20240229"));
           ("max_tokens", PInt 4096);
           ("messages", PList [user_message file_content])] in
  result ← _make_request s api_url headers payload;
  cond ← result_and_get result "content";
  if (cond : bool) then
    a ← lift (Py.getitem result "content");
    b ← lift (Py.getitem0 a);
    c ← lift (Py.getitem b "text");
    clean_value c
  else mret file_content.

Definition refactor_with_deepseek (s : session)
    (file_content api_key : pystr) : M pystr :=
  let api_url := py "https://api.deepseek.com/v1/chat/completions" in
  let headers := [("Authorization", py "Bearer " ++ api_key);
                  ("Content-Type", py "application/json")] in
  let payload :=
    PDict [("model", PStr (py "deepseek-coder"));
           ("messages", PList [user_message file_content])] in
  result ← _make_request s api_url headers payload;
  cond ← result_and_get result "choices";
  if (cond : bool) then
    a ← lift (Py.getitem result "choices");
    b ← lift (Py.getitem0 a);
    c ← lift (Py.getitem b "message");
    d ← lift (Py.getitem c "content");
    clean_value d
  else mret file_content.

(** The provider dictionary. *)
Record provider := {
  function : session -> pystr -> pystr -> M pystr;
  api_key_name : string
}.

Definition MODEL_PROVIDERS : gmap string provider :=
  list_to_map [
    ("gemini", {| function := refactor_with_gemini;
                  api_key_name := "GEMINI_API_KEY" |});
    ("openai", {| function := refactor_with_openai;
                  api_key_name := "OPENAI_API_KEY" |});
    ("claude", {| function := refactor_with_anthropic;
                  api_key_name := "ANTHROPIC_API_KEY" |});
    ("deepseek", {| function := refactor_with_deepseek;
                    api_key_name := "DEEPSEEK_API_KEY" |})
  ].

(** [MODEL_PROVIDERS[name]] *)
Definition lookup_provider (name : string) : result provider :=
  match MODEL_PROVIDERS !! name with
  | Some p => Ok p
  | None => Raise KeyError
  end.

(* ===================================================================== *)
(** ** app.py: CodeRefactorAgent                                          *)
(* ===================================================================== *)

Module Path.

Definition chars (s : string) : list ascii := list_ascii_of_string s.

Definition str_startswith (s p : string) : bool :=
  bool_decide (chars p `prefix_of` chars s).
Definition str_endswith (s p : string) : bool :=
  bool_decide (chars p `suffix_of` chars s).

(** [os.path.join(a, b)] on POSIX. *)
Definition join (a b : string) : string :=
  if str_startswith b "/" then b
  else if String.eqb a "" || str_endswith a "/" then a +:+ b
  else a +:+ "/" +:+ b.

Fixpoint basename_from (last : string) (p : string) : string :=
  match p with
  | EmptyString => last
  | String c rest =>
      if Ascii.eqb c "/" then basename_from rest rest
      else basename_from last rest
  end.

(** [os.path.basename(p)]: what follows the last slash. *)
Definition basename (p : string) : string := basename_from p p.

End Path.

(** A directory as [os.walk] lists it. *)
Inductive dirent :=
  | Dir (name : string) (dirs : list dirent) (files : list string).

(** The state the constructor leaves in [self]. *)
Record agent := {
  repo_url : string;
  github_token : string;
  gemini_api_key : pystr;
  repo_name : string;
  repo_owner : string;
  clone_path : string
}.

(** How the outside world answers during one run. [read] is the decoded
    text of a file opened in text mode (newlines already translated) or
    the exception of [open]/the read. [http] is indexed by the file being
    processed and the attempt number. *)
Record world := {
  exists_before : bool;
  rmtree_before : result unit;
  git_clone : result unit;
  tree : dirent;
  read : string -> result pystr;
  http : string -> nat -> session;
  github : gh_call -> result unit;
  exists_after : bool;
  rmtree_after : result unit
}.

Definition is_CalledProcessError (e : exn) : bool :=
  match e with CalledProcessError => true | _ => false end.
Definition is_OSError (e : exn) : bool :=
  match e with OSError => true | _ => false end.
Definition is_GithubException (e : exn) : bool :=
  match e with GithubException _ => true | _ => false end.

Definition clone_repository (self : agent) (w : world) : M unit :=
  emit (EvCall m_clone_repository);;
  found ← perform (EvExists (clone_path self)) (Ok (exists_before w));
  (if (found : bool) then
     log INFO "Repository already exists. Removing it.";;
     perform (EvRmtree (clone_path self)) (rmtree_before w)
   else mret tt);;
  try_except
    (log INFO "Cloning repository";;
     perform (EvGitClone (repo_url self) (clone_path self)) (git_clone w);;
     log INFO "Repository cloned successfully.")
    is_CalledProcessError
    (fun e => log ERROR "Failed to clone repository";; raise e).

Definition excluded_dir (d : string) : bool :=
  bool_decide (d ∈ ["venv"; ".venv"; "env"; ".git"]).

Definition rel_join (rel name : string) : string :=
  if String.eqb rel "" then name else rel +:+ "/" +:+ name.

(** The relative paths [os.walk] leads to, top-down, pruned directories
    not entered. *)
Fixpoint walk (rel : string) (d : dirent) : list string :=
  match d with
  | Dir _ dirs files =>
      List.map (rel_join rel)
        (List.filter (fun file => Path.str_endswith file ".py") files)
      ++ (fix descend (ds : list dirent) : list string :=
            match ds with
            | [] => []
            | (Dir name _ _ as sub) :: ds' =>
                (if excluded_dir name then []
                 else walk (rel_join rel name) sub) ++ descend ds'
            end) dirs
  end.

Definition find_python_files (self : agent) (w : world) : M (list string) :=
  emit (EvCall m_find_python_files);;
  emit (EvWalk (clone_path self));;
  let python_files := walk "" (tree w) in
  log INFO "Found Python files to analyze.";;
  mret python_files.

(** [sum(1 for _ in f)]: the lines a text file iterates over, the last one
    counted also when no newline ends it. *)
Fixpoint count_lines (pending : bool) (s : pystr) : nat :=
  match s with
  | [] => if pending then 1%nat else 0%nat
  | c :: s' =>
      if (c =? 10)%N then S (count_lines false s') else count_lines true s'
  end.

Definition line_count (s : pystr) : Z := Z.of_nat (count_lines false s).

Definition DEFAULT_MIN_LINES : Z := 50.

Definition analyze_for_code_smells (self : agent) (w : world)
    (file_path : string) (min_lines : Z) : M bool :=
  emit (EvCall m_analyze_for_code_smells);;
  try_except
    (f ← perform (EvOpen file_path) (read w file_path);
     let line_count := line_count f in
     if line_count >? min_lines then
       log INFO "Code smell detected: File is long.";;
       mret true
     else mret false)
    Exception
    (fun e => log WARNING "Could not analyze file";; mret false).

(** How one pass through the body of the retry loop ends: with a
    [return], or by falling through to the next iteration. *)
Inductive flow (A : Type) :=
  | Return (a : A)
  | Fallthrough.
Arguments Return {A} a.
Arguments Fallthrough {A}.

Definition max_retries : nat := 3.

(** The [try] block of one attempt. *)
Definition attempt_body (s : session) (api_url : pystr)
    (headers : list (string * pystr)) (payload : pyval)
    (file_content : pystr) : M (flow pystr) :=
  response ← post s {| req_url := api_url; req_headers := headers;
                       req_json := payload |};
  if status response =? 200 then
    result ← lift (json response);
    candidates ← lift (Py.get result "candidates");
    if negb (Py.truthy candidates) then
      log WARNING "Gemini API returned no candidates.";;
      mret (Return file_content)
    else
      a ← lift (Py.getitem result "candidates");
      b ← lift (Py.getitem0 a);
      c ← lift (Py.getitem b "content");
      d ← lift (Py.getitem c "parts");
      e ← lift (Py.getitem0 d);
      f ← lift (Py.getitem e "text");
      refactored_code ← lift (Py.as_str f);
      let refactored_code :=
        if startswith (strip refactored_code) FENCE_PYTHON
        then slice_from 9 (strip refactored_code)
        else refactored_code in
      let refactored_code :=
        if endswith (strip refactored_code) FENCE
        then slice_to_neg 3 (strip refactored_code)
        else refactored_code in
      mret (Return (strip refactored_code))
  else
    error_text ← lift (text response);
    log ERROR "Gemini API error";;
    mret Fallthrough.

(** The [try] statement of one iteration: only the [except] branch
    sleeps. *)
Definition try_attempt (s : session) (api_url : pystr)
    (headers : list (string * pystr)) (payload : pyval)
    (file_content : pystr) (attempt : nat) : M (flow pystr) :=
  try_except
    (attempt_body s api_url headers payload file_content)
    Exception
    (fun e =>
       log ERROR "Error calling Gemini API";;
       emit (EvSleep (2 ^ Z.of_nat attempt));;
       mret Fallthrough).

(** [for attempt in range(max_retries): ...] and the two statements
    after the loop. *)
Fixpoint attempts_loop (net : nat -> session) (api_url : pystr)
    (headers : list (string * pystr)) (payload : pyval)
    (file_content : pystr) (attempts : list nat) : M pystr :=
  match attempts with
  | [] =>
      log WARNING
        "Failed to refactor code after multiple attempts. Returning original code.";;
      mret file_content
  | attempt :: rest =>
      r ← try_attempt (net attempt) api_url headers payload file_content
            attempt;
      match r with
      | Return v => mret v
      | Fallthrough =>
          attempts_loop net api_url headers payload file_content rest
      end
  end.

Definition refactor_file_content (self : agent) (net : nat -> session)
    (file_content : pystr) : M pystr :=
  emit (EvCall m_refactor_file_content);;
  let prompt := REFACTOR_PROMPT_format file_content in
  let api_url :=
    py "https://generativelanguage.googleapis.com/v1beta/models/gemini-2.0-flash:generateContent?key="
    ++ gemini_api_key self in
  let payload :=
    PDict [("contents",
            PList [PDict [("parts", PList [PDict [("text", PStr prompt)]])]])]
  in
  let headers := [("Content-Type", py "application/json")] in
  attempts_loop net api_url headers payload file_content (seq 0 max_retries).

Definition NEW_BRANCH : string := "ai-refactor-suggestions".

(** One call of the GitHub client. *)
Definition gh (w : world) (c : gh_call) : M unit :=
  perform (EvGithub c) (github w c).

(** The loop over [refactored_files.items()]; the [sha] argument is
    fetched before [update_file] is called. *)
Fixpoint update_files (w : world) (items : list (string * pystr)) : M unit :=
  match items with
  | [] => mret tt
  | (file_path, content) :: rest =>
      gh w (GetContents file_path NEW_BRANCH);;
      gh w (UpdateFile file_path
              ("feat: AI-powered refactoring for "
               +:+ Path.basename file_path)
              content NEW_BRANCH);;
      log INFO "Updated file";;
      update_files w rest
  end.

Definition create_pull_request (self : agent) (w : world)
    (refactored_files : list (string * pystr)) : M unit :=
  emit (EvCall m_create_pull_request);;
  if negb (Py.nonempty refactored_files) then
    log INFO "No files were refactored. Skipping pull request creation."
  else
    try_except
      (try_except
         (gh w (GetRepo (repo_owner self +:+ "/" +:+ repo_name self));;
          gh w GetBranch;;
          try_except
            (gh w (GetGitRef ("heads/" +:+ NEW_BRANCH));;
             gh w RefDelete;;
             log INFO "Deleted existing branch")
            is_GithubException
            (fun e =>
               match e with
               | GithubException st => if st =? 404 then mret tt else raise e
               | _ => raise e
               end);;
          gh w (CreateGitRef ("refs/heads/" +:+ NEW_BRANCH));;
          log INFO "Created new branch";;
          update_files w refactored_files;;
          gh w (CreatePull NEW_BRANCH);;
          log INFO "Successfully created pull request")
         is_GithubException
         (fun e => log ERROR "GitHub API Error"))
      Exception
      (fun e =>
         log ERROR "An unexpected error occurred during pull request creation").

Definition cleanup (self : agent) (w : world) : M unit :=
  emit (EvCall m_cleanup);;
  found ← perform (EvExists (clone_path self)) (Ok (exists_after w));
  if (found : bool) then
    try_except
      (perform (EvRmtree (clone_path self)) (rmtree_after w);;
       log INFO "Cleaned up local repository")
      is_OSError
      (fun e => log ERROR "Error cleaning up repository")
  else mret tt.

Definition process_file (self : agent) (w : world)
    (file_path absolute_path : string) : M (string * option pystr) :=
  emit (EvCall m_process_file);;
  log INFO "Processing file for refactoring.";;
  try_except
    (original_content ← perform (EvOpen absolute_path) (read w absolute_path);
     refactored_content ←
       refactor_file_content self (http w file_path) original_content;
     if bool_decide (refactored_content ≠ original_content) then
       log INFO "Successfully refactored.";;
       mret (file_path, Some refactored_content)
     else
       log INFO "No changes made after refactoring attempt.";;
       mret (file_path, None))
    Exception
    (fun e => log ERROR "Failed to process file";; mret (file_path, None)).

(** The first loop of [run]: the smell test of every file, in order; a
    flagged file becomes a task, which does not start yet. *)
Fixpoint flag_files (self : agent) (w : world) (python_files : list string)
    : M (list (string * string)) :=
  match python_files with
  | [] => mret []
  | file_path :: rest =>
      let absolute_path := Path.join (clone_path self) file_path in
      flagged ← analyze_for_code_smells self w absolute_path DEFAULT_MIN_LINES;
      tasks ← flag_files self w rest;
      mret (if (flagged : bool) then (file_path, absolute_path) :: tasks
            else tasks)
  end.

(** [if refactored_content:] on an [Optional[str]]. *)
Definition content_truthy (c : option pystr) : bool :=
  match c with
  | Some s => Py.nonempty s
  | None => false
  end.

(** The second loop of [run]: the batch, built in result order. *)
Definition collect (results : list (string * option pystr))
    : list (string * pystr) :=
  fold_left
    (fun refactored_files '(file_path, refactored_content) =>
       match refactored_content with
       | Some c =>
           if content_truthy refactored_content
           then Py.setitem file_path c refactored_files
           else refactored_files
       | None => refactored_files
       end)
    results [].

(** [asyncio.gather] on the tasks: every task runs to its end and the results
    come back in task order. The tasks share nothing, so the trace lists
    them one after the other; a real run may interleave their events. *)
Definition gather (self : agent) (w : world) (tasks : list (string * string))
    : M (list (string * option pystr)) :=
  mapM (fun '(file_path, absolute_path) =>
          process_file self w file_path absolute_path) tasks.

Definition run_body (self : agent) (w : world) : M unit :=
  clone_repository self w;;
  python_files ← find_python_files self w;
  tasks ← flag_files self w python_files;
  results ← gather self w tasks;
  let refactored_files := collect results in
  if Py.nonempty refactored_files
  then create_pull_request self w refactored_files
  else mret tt.

Definition run (self : agent) (w : world) : M unit :=
  try_finally (run_body self w) (cleanup self w).

(** *** The constructor and the HTTP trigger *)

Module Str.

(** [s.split('/')]: one piece more than there are slashes. *)
Fixpoint split_slash (s : string) : list string :=
  match s with
  | EmptyString => [EmptyString]
  | String c rest =>
      if Ascii.eqb c "/" then EmptyString :: split_slash rest
      else match split_slash rest with
           | piece :: pieces => String c piece :: pieces
           | [] => [String c EmptyString]
           end
  end.

Definition is_dot_git (c1 c2 c3 c4 : ascii) : bool :=
  Ascii.eqb c1 "." && Ascii.eqb c2 "g" && Ascii.eqb c3 "i" && Ascii.eqb c4 "t".

(** [s.replace('.git', '')]: every occurrence found scanning from the
    left goes, and the scan resumes after it. *)
Fixpoint remove_dot_git (s : string) : string :=
  match s with
  | EmptyString => EmptyString
  | String c1 rest =>
      match rest with
      | String c2 (String c3 (String c4 rest4)) =>
          if is_dot_git c1 c2 c3 c4 then remove_dot_git rest4
          else String c1 (remove_dot_git rest)
      | _ => String c1 (remove_dot_git rest)
      end
  end.

(** [l[-n]] for [n >= 1]. *)
Definition from_end {A} (n : nat) (l : list A) : option A :=
  if (length l <? n)%nat then None else l !! (length l - n)%nat.

Definition nonempty_str (s : string) : bool :=
  match s with EmptyString => false | _ => true end.

End Str.

(** How [CodeRefactorAgent(...)] ends. *)
Inductive constructed :=
  | Constructed (self : agent)
  | RaisesValueError
  | RaisesIndexError.

(** [__init__]; [cwd] is what [os.getcwd()] returns. *)
Definition __init__ (cwd : string) (repo_url github_token : string)
    (gemini_api_key : pystr) : constructed :=
  if negb (Str.nonempty_str repo_url && Str.nonempty_str github_token
           && Py.nonempty gemini_api_key)
  then RaisesValueError
  else
    match Str.from_end 1 (Str.split_slash repo_url) with
    | None => RaisesIndexError
    | Some last_piece =>
        let repo_name := Str.remove_dot_git last_piece in
        match Str.from_end 2 (Str.split_slash repo_url) with
        | None => RaisesIndexError
        | Some repo_owner =>
            Constructed {|
              repo_url := repo_url;
              github_token := github_token;
              gemini_api_key := gemini_api_key;
              repo_name := repo_name;
              repo_owner := repo_owner;
              clone_path := Path.join cwd repo_name
            |}
        end
    end.

Module Flask.

(** [p in s] for two [str]. *)
Fixpoint substring (p s : pystr) : bool :=
  startswith s p ||
  match s with
  | [] => false
  | _ :: s' => substring p s'
  end.

(** [key in v] for a [str] key. *)
Definition contains (key : string) (v : pyval) : result bool :=
  match v with
  | PDict d => Ok (bool_decide (is_Some (Py.assoc key d)))
  | PList l =>
      Ok (existsb (fun x => match x with
                            | PStr s => bool_decide (s = py key)
                            | _ => false
                            end) l)
  | PStr s => Ok (substring (py key) s)
  | _ => Raise TypeError
  end.

(** What [jsonify] is given. *)
Inductive body :=
  | ErrorBody (msg : string)
  | ErrorOccurred (e : exn)
  | StartedFor (repo_url : pyval).

(** The arguments the background thread will build the agent from. *)
Record job := {
  job_repo_url : pyval;
  job_github_token : pystr;
  job_gemini_api_key : pystr
}.

Definition env_truthy (v : option pystr) : bool :=
  match v with Some s => Py.nonempty s | None => false end.

(** [trigger_refactor]: [data] is how [request.get_json()] ends,
    [environ] is [os.environ.get], [thread_start] is how
    [thread.start()] ends. The result is the response and the thread
    started, if any. *)
Definition trigger_refactor (data : result pyval)
    (environ : string -> option pystr) (thread_start : result unit)
    : M (body * Z * option job) :=
  data ← lift data;
  missing ← (if negb (Py.truthy data) then mret true
             else negb <$> lift (contains "repo_url" data));
  if (missing : bool) then
    mret (ErrorBody "repo_url is required in JSON payload", 400, None)
  else
    repo_url ← lift (Py.getitem data "repo_url");
    let github_token := environ "GITHUB_TOKEN" in
    let gemini_api_key := environ "GEMINI_API_KEY" in
    match github_token, gemini_api_key with
    | Some token, Some key =>
        if negb (Py.nonempty token) || negb (Py.nonempty key) then
          mret (ErrorBody "API keys are not configured on the server",
                500, None)
        else
          try_except
            (lift thread_start;;
             mret (StartedFor repo_url, 202,
                   Some {| job_repo_url := repo_url;
                           job_github_token := token;
                           job_gemini_api_key := key |}))
            Exception
            (fun e =>
               log ERROR "Failed to start refactoring process";;
               mret (ErrorOccurred e, 500, None))
    | _, _ =>
        mret (ErrorBody "API keys are not configured on the server",
              500, None)
    end.

End Flask.

(** Trace observers used by the statements below. *)
Definition is_call (m : method) (e : event) : bool :=
  match e, m with
  | EvCall m_clone_repository, m_clone_repository
  | EvCall m_find_python_files, m_find_python_files
  | EvCall m_analyze_for_code_smells, m_analyze_for_code_smells
  | EvCall m_refactor_file_content, m_refactor_file_content
  | EvCall m_process_file, m_process_file
  | EvCall m_create_pull_request, m_create_pull_request
  | EvCall m_cleanup, m_cleanup => true
  | _, _ => false
  end.

Definition is_post (e : event) : bool :=
  match e with EvPost _ => true | _ => false end.

Definition is_github (e : event) : bool :=
  match e with EvGithub _ => true | _ => false end.

Definition count (p : event -> bool) (t : list event) : nat :=
  length (List.filter p t).

(** The delays slept, in order. *)
Fixpoint sleeps (t : list event) : list Z :=
  match t with
  | [] => []
  | EvSleep n :: t' => n :: sleeps t'
  | _ :: t' => sleeps t'
  end.

(* ===================================================================== *)
(** ** Sample agents and worlds                                           *)
(* ===================================================================== *)

Module Fixtures.

Definition demo_agent : agent := {|
  repo_url := "https://github.com/octo/demo.git";
  github_token := "token";
  gemini_api_key := py "key";
  repo_name := "demo";
  repo_owner := "octo";
  clone_path := "/work/demo"
|}.

(** A text of [n] lines. *)
Definition lines (n : nat) : pystr :=
  concat (repeat (py ("x = 1" +:+ nl)) n).

(** A Gemini body carrying [t]. *)
Definition candidates (t : pystr) : pyval :=
  PDict [("candidates",
          PList [PDict [("content",
            PDict [("parts", PList [PDict [("text", PStr t)]])])]])].

Definition answers (t : pystr) : session := fun _ =>
  PostResponds {| status := 200; json := Ok (candidates t); text := Ok [] |}.

Definition status_500 : session := fun _ =>
  PostResponds {| status := 500; json := Raise ContentTypeError;
                  text := Ok (py "Internal Server Error") |}.

Definition unreachable : session := fun _ => PostRaises ClientError.

(** A working copy with one Python file [big.py], a [.git] directory and
    a README; every GitHub call succeeds. *)
Definition demo_world (content : pystr) (s : session) (clone : result unit)
    : world := {|
  exists_before := false;
  rmtree_before := Ok tt;
  git_clone := clone;
  tree := Dir "demo" [Dir ".git" [] ["hook.py"]] ["big.py"; "README.md"];
  read := fun p =>
    if String.eqb p "/work/demo/big.py" then Ok content else Raise OSError;
  http := fun _ _ => s;
  github := fun _ => Ok tt;
  exists_after := true;
  rmtree_after := Ok tt
|}.

(** The world [w] with another GitHub. *)
Definition with_github (g : gh_call -> result unit) (w : world) : world := {|
  exists_before := exists_before w;
  rmtree_before := rmtree_before w;
  git_clone := git_clone w;
  tree := tree w;
  read := read w;
  http := http w;
  github := g;
  exists_after := exists_after w;
  rmtree_after := rmtree_after w
|}.

(** A GitHub on which the old branch does not exist. *)
Definition no_old_branch (c : gh_call) : result unit :=
  match c with
  | GetGitRef ref =>
      if String.eqb ref "heads/ai-refactor-suggestions"
      then Raise (GithubException 404) else Ok tt
  | _ => Ok tt
  end.

(** A GitHub whose ref lookup answers status 500. *)
Definition broken_refs (c : gh_call) : result unit :=
  match c with
  | GetGitRef _ => Raise (GithubException 500)
  | _ => Ok tt
  end.

(** A GitHub on which no file can be updated. *)
Definition read_only (c : gh_call) : result unit :=
  match c with
  | UpdateFile _ _ _ _ => Raise (GithubException 403)
  | _ => Ok tt
  end.

(** An environment with both credentials set. *)
Definition configured (name : string) : option pystr :=
  if String.eqb name "GITHUB_TOKEN" then Some (py "token")
  else if String.eqb name "GEMINI_API_KEY" then Some (py "key")
  else None.

End Fixtures.


(* ===================================================================== *)
(** ** Vocabulary of the statements                                       *)
(* ===================================================================== *)

(** Text made of whitespace only. *)
Definition blank (w : pystr) : Prop := forallb isspace w = true.

(** A computation that never raises. *)
Definition total {A} (m : M A) : Prop := exists a, outcome m = Ok a.

(** Every event of the trace satisfies [P]. *)
Definition emits_only (P : event -> Prop) {A} (m : M A) : Prop :=
  Forall P (trace m).

(** The ways a POST can fail to give a usable body. *)
Inductive transport_fails : post_outcome -> Prop :=
  | fails_raising e : transport_fails (PostRaises e)
  | fails_status r : status r <> 200 -> transport_fails (PostResponds r)
  | fails_body r e :
      status r = 200 -> json r = Raise e -> transport_fails (PostResponds r)
  | fails_null r :
      status r = 200 -> json r = Ok PNone -> transport_fails (PostResponds r).

(** The warning logged after the last attempt. *)
Definition exhausted_warning : event :=
  EvLog WARNING
    "Failed to refactor code after multiple attempts. Returning original code.".

(** The value is [None], or a dict without the key. *)
Definition lacks (key : string) (v : pyval) : Prop :=
  v = PNone \/ exists d, v = PDict d /\ Py.assoc key d = None.

(** Whatever is requested over [s], the transport helper returns a value
    satisfying [P]. *)
Definition helper_gives (s : session) (P : pyval -> Prop) : Prop :=
  forall url headers payload,
    exists v, outcome (_make_request s url headers payload) = Ok v /\ P v.

(** The four entries of the registry. *)
Definition gemini_entry : provider :=
  {| function := refactor_with_gemini; api_key_name := "GEMINI_API_KEY" |}.
Definition openai_entry : provider :=
  {| function := refactor_with_openai; api_key_name := "OPENAI_API_KEY" |}.
Definition claude_entry : provider :=
  {| function := refactor_with_anthropic;
     api_key_name := "ANTHROPIC_API_KEY" |}.
Definition deepseek_entry : provider :=
  {| function := refactor_with_deepseek;
     api_key_name := "DEEPSEEK_API_KEY" |}.

(** The key each adapter looks for in the body. *)
Definition expected_field (name : string) : string :=
  if decide (name = "gemini") then "candidates"
  else if decide (name = "claude") then "content"
  else "choices".

(** Events that are neither a method entry nor a GitHub call. *)
Definition plain (e : event) : bool :=
  match e with
  | EvCall _ | EvGithub _ => false
  | _ => true
  end.

(** The tasks, the results and the batch of the run in world [w]. *)
Definition tasks_of (self : agent) (w : world) : list (string * string) :=
  match outcome (flag_files self w (walk "" (tree w))) with
  | Ok tasks => tasks
  | Raise _ => []
  end.

Definition results_of (self : agent) (w : world)
    : list (string * option pystr) :=
  match outcome (gather self w (tasks_of self w)) with
  | Ok results => results
  | Raise _ => []
  end.

Definition batch_of (self : agent) (w : world) : list (string * pystr) :=
  collect (results_of self w).

(** The publish step of [run], given the batch. *)
Definition publish (self : agent) (w : world) : M unit :=
  if Py.nonempty (batch_of self w)
  then create_pull_request self w (batch_of self w)
  else mret tt.

(** One step on the way to a field of a body: a key, or the first
    element. *)
Inductive hop :=
  | Key (k : string)
  | First.

(** The value at the end of a path, as subscripting finds it. *)
Fixpoint follow (path : list hop) (v : pyval) : result pyval :=
  match path with
  | [] => Ok v
  | Key k :: path' =>
      match Py.getitem v k with
      | Ok x => follow path' x
      | Raise e => Raise e
      end
  | First :: path' =>
      match Py.getitem0 v with
      | Ok x => follow path' x
      | Raise e => Raise e
      end
  end.

(** Where each vendor's body holds the text. *)
Definition gemini_path : list hop :=
  [Key "candidates"; First; Key "content"; Key "parts"; First; Key "text"].
Definition openai_path : list hop :=
  [Key "choices"; First; Key "message"; Key "content"].
Definition anthropic_path : list hop := [Key "content"; First; Key "text"].

(** The session answers every request with status 200 and the body [v]. *)
Definition answers_with (s : session) (v : pyval) : Prop :=
  forall req, exists r,
    s req = PostResponds r /\ status r = 200 /\ json r = Ok v.

(** The smell test of [run] on a discovered file. *)
Definition flagged (self : agent) (w : world) (file_path : string) : bool :=
  match read w (Path.join (clone_path self) file_path) with
  | Ok content => line_count content >? DEFAULT_MIN_LINES
  | Raise _ => false
  end.

(** A tree without its excluded directories, at every depth. *)
Fixpoint prune (d : dirent) : dirent :=
  match d with
  | Dir name dirs files =>
      Dir name
        ((fix prune_all (ds : list dirent) : list dirent :=
            match ds with
            | [] => []
            | (Dir n _ _ as sub) :: ds' =>
                if excluded_dir n then prune_all ds'
                else prune sub :: prune_all ds'
            end) dirs)
        files
  end.

Definition dir_name (d : dirent) : string :=
  match d with Dir name _ _ => name end.

(** The paths found below the subdirectories [ds] of a directory whose
    relative path is [rel]. *)
Definition below (rel : string) (ds : list dirent) : list string :=
  flat_map
    (fun sub =>
       if excluded_dir (dir_name sub) then []
       else walk (rel_join rel (dir_name sub)) sub)
    ds.

(** The calls of the loop over the batch: for each entry, in order, the
    lookup of the blob and the update. *)
Definition update_calls (items : list (string * pystr)) : list gh_call :=
  flat_map
    (fun '(file_path, content) =>
       [GetContents file_path NEW_BRANCH;
        UpdateFile file_path
          ("feat: AI-powered refactoring for " +:+ Path.basename file_path)
          content NEW_BRANCH])
    items.

(** The number of slashes of a string. *)
Fixpoint slashes (s : string) : nat :=
  match s with
  | EmptyString => 0%nat
  | String c rest =>
      if Ascii.eqb c "/" then S (slashes rest) else slashes rest
  end.

(** Whether [.git] occurs somewhere in a string. *)
Fixpoint has_dot_git (s : string) : bool :=
  match s with
  | EmptyString => false
  | String c1 rest =>
      match rest with
      | String c2 (String c3 (String c4 _)) => Str.is_dot_git c1 c2 c3 c4
      | _ => false
      end || has_dot_git rest
  end.

(** Both credentials are set and not empty. *)
Definition credentials (environ : string -> option pystr)
    : option (pystr * pystr) :=
  match environ "GITHUB_TOKEN", environ "GEMINI_API_KEY" with
  | Some token, Some key =>
      if Py.nonempty token && Py.nonempty key then Some (token, key)
      else None
  | _, _ => None
  end.

Definition is_create_pull (e : event) : bool :=
  match e with EvGithub (CreatePull _) => true | _ => false end.
Definition is_git_clone (e : event) : bool :=
  match e with EvGitClone _ _ => true | _ => false end.
Definition is_rmtree (e : event) : bool :=
  match e with EvRmtree _ => true | _ => false end.

(** The two ways [create_pull_request] reports how publishing ended. *)
Definition is_error_log (e : event) : bool :=
  match e with EvLog ERROR _ => true | _ => false end.
Definition is_pull_created_log (e : event) : bool :=
  match e with
  | EvLog INFO msg => String.eqb msg "Successfully created pull request"
  | _ => false
  end.

(** The POSTs and the sleeps of a trace, in the order they happen. *)
Inductive tick : Type :=
  | Posted
  | Slept (seconds : Z).

Fixpoint schedule (t : list event) : list tick :=
  match t with
  | [] => []
  | EvPost _ :: t' => Posted :: schedule t'
  | EvSleep n :: t' => Slept n :: schedule t'
  | _ :: t' => schedule t'
  end.

(** The GitHub calls of a trace, in order. *)
Fixpoint github_calls (t : list event) : list gh_call :=
  match t with
  | [] => []
  | EvGithub c :: t' => c :: github_calls t'
  | _ :: t' => github_calls t'
  end.

(* ===================================================================== *)
(** * Properties                                                          *)
(* ===================================================================== *)

(** ** Trimming *)

Section Strip.

Implicit Types (s t u v w : pystr) (c : N).


Lemma lstrip_length s : (length (lstrip s) <= length s)%nat.
Proof.
  induction s as [|c s IH]; simpl; [lia|].
  destruct (isspace c); simpl; lia.
Qed.

Lemma lstrip_idem s : lstrip (lstrip s) = lstrip s.
Proof.
  induction s as [|c s IH]; simpl; [done|].
  destruct (isspace c) eqn:E; [done|]. simpl. by rewrite E.
Qed.

Lemma lstrip_head s :
  lstrip s = [] \/ exists c t, lstrip s = c :: t /\ isspace c = false.
Proof.
  induction s as [|c s IH]; simpl; [by left|].
  destruct (isspace c) eqn:E; [done|]. right. by exists c, s.
Qed.

Lemma lstrip_blank_app w s : blank w -> lstrip (w ++ s) = lstrip s.
Proof.
  unfold blank. induction w as [|c w IH]; simpl; [done|].
  intros [Hc Hw]%andb_prop. rewrite Hc. by apply IH.
Qed.

Lemma lstrip_app_solid u c v :
  isspace c = false -> lstrip (u ++ c :: v) = lstrip u ++ c :: v.
Proof.
  intros Hc. induction u as [|a u IH]; simpl; [by rewrite Hc|].
  by destruct (isspace a).
Qed.

Lemma blank_rev w : blank w -> blank (rev w).
Proof.
  unfold blank. rewrite !forallb_forall. intros H x Hx. apply H.
  by apply in_rev.
Qed.

Lemma rstrip_length s : (length (rstrip s) <= length s)%nat.
Proof.
  unfold rstrip. rewrite length_rev.
  etransitivity; [apply lstrip_length|]. by rewrite length_rev.
Qed.

Lemma rstrip_idem s : rstrip (rstrip s) = rstrip s.
Proof. unfold rstrip. by rewrite rev_involutive, lstrip_idem. Qed.

Lemma rstrip_app_blank s w : blank w -> rstrip (s ++ w) = rstrip s.
Proof.
  intros Hw. unfold rstrip. rewrite rev_app_distr.
  by rewrite lstrip_blank_app by by apply blank_rev.
Qed.

Lemma rstrip_app_solid u c v :
  isspace c = false -> rstrip (u ++ c :: v) = u ++ c :: rstrip v.
Proof.
  intros Hc. unfold rstrip. rewrite rev_app_distr. simpl.
  rewrite <- app_assoc. simpl. rewrite lstrip_app_solid by done.
  rewrite rev_app_distr. simpl. rewrite rev_involutive.
  by rewrite <- app_assoc.
Qed.

Lemma rstrip_cons_solid c v :
  isspace c = false -> rstrip (c :: v) = c :: rstrip v.
Proof. apply (rstrip_app_solid [] c v). Qed.

Lemma strip_length s : (length (strip s) <= length s)%nat.
Proof.
  unfold strip. etransitivity; [apply rstrip_length|apply lstrip_length].
Qed.

Lemma strip_idem s : strip (strip s) = strip s.
Proof.
  unfold strip. destruct (lstrip_head s) as [->|(c & t & -> & Hc)]; [done|].
  rewrite (rstrip_cons_solid c t Hc). simpl. rewrite Hc.
  rewrite (rstrip_cons_solid c _ Hc). by rewrite rstrip_idem.
Qed.

Lemma strip_lstrip s : strip (lstrip s) = strip s.
Proof. unfold strip. by rewrite lstrip_idem. Qed.

Lemma strip_blank_around w1 s w2 :
  blank w1 -> blank w2 -> strip (w1 ++ s ++ w2) = strip s.
Proof.
  intros H1 H2. unfold strip. rewrite lstrip_blank_app by done.
  destruct (lstrip_head s) as [E|(c & t & E & Hc)].
  - assert (Hs : blank s).
    { clear -E. unfold blank. induction s as [|a s IH]; simpl in *; [done|].
      destruct (isspace a); [by apply IH|done]. }
    rewrite E. rewrite <- (app_nil_r s) at 1. rewrite <- app_assoc.
    rewrite lstrip_blank_app by done. simpl.
    rewrite <- (app_nil_l (lstrip w2)).
    destruct (lstrip_head w2) as [->|(a & r & Ea & Ha)]; [done|].
    exfalso. clear -H2 Ea Ha. unfold blank in H2.
    induction w2 as [|b w2 IH]; simpl in *; [done|].
    apply andb_prop in H2 as [Hb Hw]. rewrite Hb in Ea. by apply IH.
  - assert (Hs : exists u, s = u ++ c :: t /\ blank u).
    { clear -E Hc. induction s as [|a s IH]; simpl in *; [done|].
      destruct (isspace a) eqn:Ea.
      - destruct (IH E) as (u & -> & Hu). exists (a :: u). split; [done|].
        unfold blank. simpl. by rewrite Ea.
      - injection E as -> ->. by exists []. }
    destruct Hs as (u & -> & Hu). rewrite E, <- app_assoc. simpl.
    rewrite lstrip_blank_app by done. simpl. rewrite Hc.
    rewrite !(rstrip_cons_solid c _ Hc). f_equal.
    by apply rstrip_app_blank.
Qed.

Lemma strip_solid_ends a m b :
  isspace a = false -> isspace b = false ->
  strip (a :: m ++ [b]) = a :: m ++ [b].
Proof.
  intros Ha Hb. unfold strip. simpl. rewrite Ha.
  exact (rstrip_app_solid (a :: m) b [] Hb).
Qed.

End Strip.

(** ** Response cleanup *)

Section Clean.

Implicit Types (x s c w : pystr).

Lemma clean_trimmed x : strip (_clean_response x) = _clean_response x.
Proof. unfold _clean_response. apply strip_idem. Qed.

(** On a trimmed text with neither marker, cleanup changes nothing. *)
Lemma clean_fixed s :
  strip s = s ->
  startswith s FENCE_PYTHON = false -> endswith s FENCE = false ->
  _clean_response s = s.
Proof.
  intros Hs Hp Hf. unfold _clean_response. rewrite Hs, Hp, Hs, Hf. done.
Qed.

Lemma clean_shrinks_open s :
  startswith (strip s) FENCE_PYTHON = true ->
  (length (_clean_response s) + 9 <= length (strip s))%nat.
Proof.
  intros Hp. unfold _clean_response. rewrite Hp.
  apply bool_decide_eq_true, prefix_length in Hp.
  change (length FENCE_PYTHON) with 9%nat in Hp.
  set (s1 := slice_from 9 (strip s)).
  assert (H1 : (length s1 + 9 = length (strip s))%nat).
  { unfold s1, slice_from. rewrite length_drop. lia. }
  assert (H2 : (length (strip s1) <= length s1)%nat) by apply strip_length.
  destruct (endswith (strip s1) FENCE).
  - pose proof (strip_length (slice_to_neg 3 (strip s1))) as H3.
    unfold slice_to_neg in *. rewrite length_take in H3. lia.
  - lia.
Qed.

Lemma clean_shrinks_close s :
  startswith (strip s) FENCE_PYTHON = false ->
  endswith (strip s) FENCE = true ->
  (length (_clean_response s) + 3 <= length (strip s))%nat.
Proof.
  intros Hp Hf. unfold _clean_response. rewrite Hp, Hf.
  apply bool_decide_eq_true, suffix_length in Hf.
  change (length FENCE) with 3%nat in Hf.
  pose proof (strip_length (slice_to_neg 3 (strip s))) as H3.
  unfold slice_to_neg in *. rewrite length_take in H3. lia.
Qed.

(** The shape of a text wrapped in a [python] fence. *)
Lemma wrapped_shape c :
  exists m, FENCE_PYTHON ++ c ++ FENCE = 96%N :: m ++ [96%N].
Proof.
  exists (tail FENCE_PYTHON ++ c ++ [96%N; 96%N]).
  change FENCE_PYTHON with (96%N :: tail FENCE_PYTHON).
  change FENCE with ([96%N; 96%N] ++ [96%N]).
  simpl. by rewrite <- !app_assoc.
Qed.

Lemma strip_before_fence c : strip (c ++ FENCE) = lstrip c ++ FENCE.
Proof.
  unfold strip. change FENCE with (96%N :: [96%N; 96%N]).
  rewrite lstrip_app_solid by done.
  replace (lstrip c ++ [96; 96; 96]%N)
    with ((lstrip c ++ [96; 96]%N) ++ [96%N]) by (by rewrite <- app_assoc).
  by apply (rstrip_app_solid _ 96%N []).
Qed.

End Clean.

(** C2, counterexample: with two opening markers, one call removes the
    first and a second call removes the next, so [clean (clean x)] and
    [clean x] differ. *)
Lemma clean_twice_differs :
  _clean_response (_clean_response (py "```python```python x"))
  <> _clean_response (py "```python```python x").
Proof. vm_compute. discriminate. Qed.

(** C2, as amended: [clean (clean x) = clean x] holds exactly for the
    inputs whose cleaned text neither starts with the [```python] marker
    nor ends with the [```] marker; a call removes one layer of fencing. *)
Theorem clean_idempotent_iff x :
  _clean_response (_clean_response x) = _clean_response x <->
  startswith (_clean_response x) FENCE_PYTHON = false /\
  endswith (_clean_response x) FENCE = false.
Proof.
  pose proof (clean_trimmed x) as Ht. set (y := _clean_response x) in *.
  split.
  - intros Hy.
    destruct (startswith y FENCE_PYTHON) eqn:Hp.
    { pose proof (clean_shrinks_open y) as H. rewrite Ht, Hy in H.
      specialize (H Hp). lia. }
    destruct (endswith y FENCE) eqn:Hf; [|done].
    pose proof (clean_shrinks_close y) as H. rewrite Ht, Hy in H.
    specialize (H Hp Hf). lia.
  - intros [Hp Hf]. by apply clean_fixed.
Qed.

Lemma clean_idempotent_iff_witness :
  _clean_response (_clean_response (py "  x = 1 "))
  = _clean_response (py "  x = 1 ").
Proof. apply clean_idempotent_iff. split; reflexivity. Defined.

(** C3, counterexample: a fence tagged [js] keeps its opening marker and
    tag; only the closing marker goes. The interior is not what comes
    back. *)
Lemma clean_js_fence_keeps_marker :
  _clean_response (py ("```js" +:+ nl +:+ "x" +:+ nl +:+ "```"))
    = py ("```js" +:+ nl +:+ "x") /\
  _clean_response (py ("```js" +:+ nl +:+ "x" +:+ nl +:+ "```"))
    <> strip (py (nl +:+ "x" +:+ nl)).
Proof. vm_compute. split; [reflexivity|discriminate]. Qed.

(** C3, as amended: for a text that is an interior [c] between the
    opening marker [```python] and the closing marker [```], with blank
    text allowed around the whole, cleanup returns [c] with the blanks at
    its two ends trimmed: the two markers go and nothing else of [c]. The
    opening marker is those nine characters and no more: what follows
    them, a [3] of [```python3] as well, is part of [c]. A text that ends
    with the closing marker and whose trimmed form does not start with
    [```python] (another tag such as [js], or none) keeps all that stands
    before the closing marker, opening fence and tag included: only the
    closing marker goes. *)
Theorem clean_python_fence w1 c w2 :
  blank w1 -> blank w2 ->
  _clean_response (w1 ++ FENCE_PYTHON ++ c ++ FENCE ++ w2) = strip c /\
  (forall h,
      startswith (strip (h ++ FENCE)) FENCE_PYTHON = false ->
      _clean_response (h ++ FENCE) = strip h).
Proof.
  intros H1 H2. split.
  - replace (w1 ++ FENCE_PYTHON ++ c ++ FENCE ++ w2)
      with (w1 ++ (FENCE_PYTHON ++ c ++ FENCE) ++ w2)
      by (by rewrite <- !app_assoc).
    unfold _clean_response. rewrite strip_blank_around by done.
    destruct (wrapped_shape c) as [m Hm].
    assert (Hs : strip (FENCE_PYTHON ++ c ++ FENCE)
                 = FENCE_PYTHON ++ c ++ FENCE).
    { rewrite Hm. by apply strip_solid_ends. }
    rewrite Hs.
    assert (Hp : startswith (FENCE_PYTHON ++ c ++ FENCE) FENCE_PYTHON = true).
    { apply bool_decide_eq_true. by exists (c ++ FENCE). }
    rewrite Hp. unfold slice_from.
    change 9%nat with (length FENCE_PYTHON). rewrite drop_app_length.
    rewrite strip_before_fence.
    assert (Hf : endswith (lstrip c ++ FENCE) FENCE = true).
    { apply bool_decide_eq_true. by exists (lstrip c). }
    rewrite Hf. unfold slice_to_neg.
    rewrite take_app_length' by (rewrite length_app; simpl; lia).
    apply strip_lstrip.
  - intros h Hp. unfold _clean_response. rewrite Hp, strip_before_fence.
    assert (Hf : endswith (lstrip h ++ FENCE) FENCE = true).
    { apply bool_decide_eq_true. by exists (lstrip h). }
    rewrite Hf. unfold slice_to_neg.
    rewrite take_app_length' by (rewrite length_app; simpl; lia).
    apply strip_lstrip.
Qed.

Lemma clean_python_fence_witness :
  _clean_response
    (py (" " +:+ nl) ++ FENCE_PYTHON ++ py (nl +:+ "x = 1" +:+ nl)
     ++ FENCE ++ py nl)
  = strip (py (nl +:+ "x = 1" +:+ nl)) /\
  _clean_response
    (py (" " +:+ nl) ++ FENCE_PYTHON ++ py ("3" +:+ nl +:+ "x = 1" +:+ nl)
     ++ FENCE ++ py nl)
  = py ("3" +:+ nl +:+ "x = 1") /\
  _clean_response (py ("```js" +:+ nl +:+ "x" +:+ nl) ++ FENCE)
  = py ("```js" +:+ nl +:+ "x").
Proof.
  split_and!.
  - destruct (clean_python_fence (py (" " +:+ nl))
                (py (nl +:+ "x = 1" +:+ nl)) (py nl)) as [H _];
      [reflexivity|reflexivity|exact H].
  - destruct (clean_python_fence (py (" " +:+ nl))
                (py ("3" +:+ nl +:+ "x = 1" +:+ nl)) (py nl)) as [H _];
      [reflexivity|reflexivity|].
    etransitivity; [exact H|]. vm_compute. reflexivity.
  - destruct (clean_python_fence [] [] []) as [_ H];
      [reflexivity|reflexivity|].
    etransitivity;
      [apply (H (py ("```js" +:+ nl +:+ "x" +:+ nl))); vm_compute;
       reflexivity|].
    vm_compute. reflexivity.
Defined.

(** ** Reasoning about computations *)

Section Monad.

Context {A B : Type}.
Implicit Types (m : M A) (k : A -> M B).

Lemma bind_ok m k a :
  outcome m = Ok a -> m ≫= k = (trace m ++ trace (k a), outcome (k a)).
Proof.
  destruct m as [t r]. simpl. intros ->. unfold mbind, M_bind.
  by destruct (k a).
Qed.

Lemma bind_raise m k e :
  outcome m = Raise e -> m ≫= k = (trace m, Raise e).
Proof. destruct m as [t r]. simpl. by intros ->. Qed.

Lemma try_except_ok (body : M A) handles handler a :
  outcome body = Ok a -> try_except body handles handler = body.
Proof. destruct body as [t r]. simpl. by intros ->. Qed.

Lemma try_except_caught (body : M A) handles handler e :
  outcome body = Raise e -> handles e = true ->
  try_except body handles handler
  = (trace body ++ trace (handler e), outcome (handler e)).
Proof.
  destruct body as [t r]. simpl. intros -> ->. by destruct (handler e).
Qed.

Lemma try_finally_trace (body : M A) final :
  trace (try_finally body final) = trace body ++ trace final.
Proof. destruct body as [t r], final as [t' [[]|e]]; done. Qed.

Lemma try_finally_outcome (body : M A) final :
  outcome final = Ok tt -> outcome (try_finally body final) = outcome body.
Proof. destruct body as [t r], final as [t' r']. simpl. by intros ->. Qed.

End Monad.

Lemma trace_pair {A} t (r : result A) : trace (t, r) = t.
Proof. reflexivity. Qed.

Lemma outcome_pair {A} t (r : result A) : outcome (t, r) = r.
Proof. reflexivity. Qed.

Section EmitsOnly.

Variable P : event -> Prop.

Lemma only_ret {A} (a : A) : emits_only P (mret a).
Proof. constructor. Qed.

Lemma only_lift {A} (r : result A) : emits_only P (lift r).
Proof. constructor. Qed.

Lemma only_raise {A} e : emits_only P (raise e : M A).
Proof. constructor. Qed.

Lemma only_perform {A} ev (r : result A) : P ev -> emits_only P (perform ev r).
Proof. intros H. by repeat constructor. Qed.

Lemma only_emit ev : P ev -> emits_only P (emit ev).
Proof. intros H. by repeat constructor. Qed.

Lemma only_bind {A B} (m : M A) (k : A -> M B) :
  emits_only P m -> (forall a, emits_only P (k a)) -> emits_only P (m ≫= k).
Proof.
  unfold emits_only. destruct m as [t [a|e]]; simpl; intros Hm Hk; [|done].
  specialize (Hk a). unfold mbind, M_bind. destruct (k a) as [t' r].
  simpl in *. by apply Forall_app.
Qed.

Lemma only_fmap {A B} (f : A -> B) (m : M A) :
  emits_only P m -> emits_only P (f <$> m).
Proof. unfold emits_only. by destruct m as [t [a|e]]. Qed.

Lemma only_try_except {A} (body : M A) handles handler :
  emits_only P body -> (forall e, emits_only P (handler e)) ->
  emits_only P (try_except body handles handler).
Proof.
  unfold emits_only. destruct body as [t [a|e]]; simpl; intros Hm Hk; [done|].
  destruct (handles e); [|done]. specialize (Hk e).
  destruct (handler e) as [t' r]. simpl in *. by apply Forall_app.
Qed.

Lemma only_try_finally {A} (body : M A) final :
  emits_only P body -> emits_only P final ->
  emits_only P (try_finally body final).
Proof.
  unfold emits_only. rewrite try_finally_trace. intros. by apply Forall_app.
Qed.

Lemma only_mapM {A B} (f : A -> M B) (l : list A) :
  (forall a, emits_only P (f a)) -> emits_only P (mapM f l).
Proof.
  intros Hf. induction l as [|x l IH]; simpl; [apply only_ret|].
  apply only_bind; [done|]. intros y. apply only_bind; [done|].
  intros ys. apply only_ret.
Qed.

End EmitsOnly.

Lemma count_app p t1 t2 : count p (t1 ++ t2) = (count p t1 + count p t2)%nat.
Proof. unfold count. by rewrite List.filter_app, length_app. Qed.

Lemma count_none p t : Forall (fun e => p e = false) t -> count p t = 0%nat.
Proof.
  unfold count. induction 1 as [|e t He _ IH]; simpl; [done|]. by rewrite He.
Qed.

(** Breaks a goal [emits_only P m] along the structure of [m]; what is
    left are the events themselves. *)
Ltac only_step :=
  first
    [ apply only_ret | apply only_lift | apply only_raise
    | apply only_bind; [|intros ?]
    | apply only_fmap
    | apply only_try_except; [|intros ?]
    | apply only_try_finally
    | apply only_perform | apply only_emit
    | match goal with
      | |- emits_only _ (if ?b then _ else _) => destruct b
      | |- emits_only _ (match ?x with _ => _ end) => destruct x
      | |- emits_only _ (let '(_, _) := ?x in _) => destruct x
      end ].
Ltac only_auto := repeat only_step; try done.

(** Unfolds the monad's plumbing, leaving the tests on the oracles. *)
Ltac run_m :=
  cbv [mbind M_bind fmap M_fmap mret M_ret emit log perform lift raise
       try_except try_finally Exception outcome trace fst snd].

(** ** The smell filter *)

Section Smell.

Variables (self : agent) (w : world).

Lemma analyze_readable file_path min_lines content :
  read w file_path = Ok content ->
  outcome (analyze_for_code_smells self w file_path min_lines)
  = Ok (bool_decide (min_lines < line_count content)).
Proof.
  intros Hr. unfold analyze_for_code_smells. run_m. rewrite Hr.
  destruct (Z.gtb_spec (line_count content) min_lines) as [H|H].
  - by rewrite bool_decide_true by lia.
  - by rewrite bool_decide_false by lia.
Qed.

Lemma analyze_unreadable file_path min_lines e :
  read w file_path = Raise e ->
  outcome (analyze_for_code_smells self w file_path min_lines) = Ok false.
Proof.
  intros Hr. unfold analyze_for_code_smells. run_m. by rewrite Hr.
Qed.

Lemma analyze_total file_path min_lines :
  total (analyze_for_code_smells self w file_path min_lines).
Proof.
  destruct (read w file_path) as [content|e] eqn:Hr.
  - eexists. by apply analyze_readable.
  - eexists. by eapply analyze_unreadable.
Qed.

End Smell.

(** C6. For a readable file the smell filter answers [True] exactly when
    the line count is strictly above the threshold: at or below it the
    file is excluded (so also with exactly [min_lines] lines), above it the
    file is included. The threshold is the parameter [min_lines], whose
    default is 50. *)
Theorem smell_filter_threshold self w file_path min_lines content :
  read w file_path = Ok content ->
  (line_count content <= min_lines ->
   outcome (analyze_for_code_smells self w file_path min_lines) = Ok false)
  /\ (line_count content > min_lines ->
      outcome (analyze_for_code_smells self w file_path min_lines) = Ok true)
  /\ (line_count content = min_lines ->
      outcome (analyze_for_code_smells self w file_path min_lines) = Ok false)
  /\ DEFAULT_MIN_LINES = 50.
Proof.
  intros Hr. rewrite (analyze_readable self w _ min_lines _ Hr).
  repeat split; intros H.
  - by rewrite bool_decide_false by lia.
  - by rewrite bool_decide_true by lia.
  - by rewrite bool_decide_false by lia.
Qed.

(** ** The retry loop of [refactor_file_content] *)

Lemma sleeps_app t1 t2 : sleeps (t1 ++ t2) = sleeps t1 ++ sleeps t2.
Proof.
  induction t1 as [|e t1 IH]; simpl; [done|]. destruct e; simpl; congruence.
Qed.

Section Retry.

Variables (api_url : pystr) (headers : list (string * pystr))
  (payload : pyval) (file_content : pystr).

Let req : request :=
  {| req_url := api_url; req_headers := headers; req_json := payload |}.

Abbreviation step s attempt :=
  (try_attempt s api_url headers payload file_content attempt).

Lemma step_total s attempt : total (step s attempt).
Proof.
  unfold total, try_attempt.
  destruct (attempt_body s api_url headers payload file_content)
    as [t [a|e]]; simpl; eauto.
Qed.

(** Every attempt posts once, however it ends. *)
Lemma step_posts_once s attempt :
  count is_post (trace (step s attempt)) = 1%nat.
Proof.
  unfold try_attempt, attempt_body, post. fold req.
  destruct (s req) as [e|r]; [reflexivity|]. run_m.
  destruct (status r =? 200); [|by destruct (text r)].
  destruct (json r) as [v|e]; [|reflexivity]. simpl.
  destruct (Py.get v "candidates") as [c|e]; [|reflexivity]. simpl.
  destruct (negb (Py.truthy c)); [reflexivity|].
  repeat match goal with
         | |- context [match ?x with Ok _ => _ | Raise _ => _ end] =>
             destruct x; simpl; try reflexivity
         end.
Qed.

Lemma step_raising s attempt e :
  s req = PostRaises e ->
  step s attempt
  = ([EvPost req; EvLog ERROR "Error calling Gemini API";
      EvSleep (2 ^ Z.of_nat attempt)], Ok Fallthrough).
Proof. intros H. unfold try_attempt, attempt_body, post. fold req. by rewrite H. Qed.

Lemma step_error_status s attempt r t :
  s req = PostResponds r -> status r <> 200 -> text r = Ok t ->
  step s attempt
  = ([EvPost req; EvLog ERROR "Gemini API error"], Ok Fallthrough).
Proof.
  intros H Hs Ht. unfold try_attempt, attempt_body, post. fold req.
  rewrite H. run_m. apply Z.eqb_neq in Hs. by rewrite Hs, Ht.
Qed.

Lemma step_fails s attempt :
  transport_fails (s req) -> outcome (step s attempt) = Ok Fallthrough.
Proof.
  unfold try_attempt, attempt_body, post. fold req.
  inversion 1 as [e He|r Hs He|r e Hs Hj He|r Hs Hj He]; run_m.
  - done.
  - apply Z.eqb_neq in Hs. rewrite Hs. by destruct (text r).
  - by rewrite Hs, Hj.
  - by rewrite Hs, Hj.
Qed.

Variable net : nat -> session.

Abbreviation loop attempts :=
  (attempts_loop net api_url headers payload file_content attempts).

(** When every attempt falls through, the loop runs them all and the
    original content comes back. *)
Lemma loop_all_fall attempts :
  (forall a, a ∈ attempts -> outcome (step (net a) a) = Ok Fallthrough) ->
  loop attempts
  = (concat (List.map (fun a => trace (step (net a) a)) attempts)
       ++ [exhausted_warning],
     Ok file_content).
Proof.
  induction attempts as [|a attempts IH]; intros H; [reflexivity|].
  simpl attempts_loop. rewrite (bind_ok _ _ Fallthrough).
  - rewrite IH; [|intros; apply H; by right]. simpl.
    by rewrite <- app_assoc.
  - apply H. by left.
Qed.

End Retry.

Section RefactorFileContent.

Variables (self : agent) (net : nat -> session) (file_content : pystr).

Abbreviation m := (refactor_file_content self net file_content).

(** The part of C1 that holds: when every transport interaction fails,
    there are exactly three attempts and the original content is
    returned. *)
Lemma refactor_all_fail :
  (forall attempt req, transport_fails (net attempt req)) ->
  count is_post (trace m) = 3%nat /\ outcome m = Ok file_content.
Proof.
  intros H. unfold refactor_file_content. cbv zeta.
  rewrite (bind_ok _ _ tt) by done.
  rewrite loop_all_fall by (intros; by apply step_fails).
  rewrite !trace_pair, outcome_pair. split; [|done].
  change (seq 0 max_retries) with [0; 1; 2]%nat. cbn [concat List.map].
  rewrite !count_app, !step_posts_once. reflexivity.
Qed.

(** When every POST raises, each attempt, the last one too, is followed
    by a sleep of [2^attempt]. *)
Lemma refactor_all_raise :
  (forall attempt req, exists e, net attempt req = PostRaises e) ->
  count is_post (trace m) = 3%nat /\
  sleeps (trace m) = [1; 2; 4] /\
  outcome m = Ok file_content.
Proof.
  intros H.
  assert (Hf : forall attempt req, transport_fails (net attempt req)).
  { intros a r. destruct (H a r) as [e ->]. constructor. }
  destruct (refactor_all_fail Hf) as [Hp Ho]. repeat split; [done| |done].
  unfold refactor_file_content. cbv zeta.
  rewrite (bind_ok _ _ tt) by done.
  rewrite loop_all_fall by (intros; by apply step_fails).
  rewrite !trace_pair.
  change (seq 0 max_retries) with [0; 1; 2]%nat. cbn [concat List.map].
  repeat match goal with
         | |- context [try_attempt (net ?a) ?u ?h ?p ?c ?a] =>
             destruct (H a {| req_url := u; req_headers := h;
                              req_json := p |}) as [? He];
             rewrite (step_raising u h p c (net a) a _ He); clear He
         end.
  reflexivity.
Qed.

End RefactorFileContent.

(** C1, the divergence: when every POST comes back with a status other
    than 200, the three attempts follow each other with no sleep between
    them; the original content is returned. The sleep is in the [except]
    branch only. *)
Theorem backoff_skipped_on_error_status self net file_content :
  (forall attempt req, exists r t,
      net attempt req = PostResponds r /\ status r <> 200 /\ text r = Ok t) ->
  count is_post (trace (refactor_file_content self net file_content)) = 3%nat
  /\ sleeps (trace (refactor_file_content self net file_content)) = []
  /\ outcome (refactor_file_content self net file_content) = Ok file_content.
Proof.
  intros H.
  assert (Hf : forall attempt req, transport_fails (net attempt req)).
  { intros a r. destruct (H a r) as (resp & t & -> & Hs & _).
    by constructor. }
  destruct (refactor_all_fail self net file_content Hf) as [Hp Ho].
  repeat split; [done| |done].
  unfold refactor_file_content. cbv zeta.
  rewrite (bind_ok _ _ tt) by done.
  rewrite loop_all_fall by (intros; by apply step_fails).
  rewrite !trace_pair.
  change (seq 0 max_retries) with [0; 1; 2]%nat. cbn [concat List.map].
  repeat match goal with
         | |- context [try_attempt (net ?a) ?u ?h ?p ?c ?a] =>
             destruct (H a {| req_url := u; req_headers := h;
                              req_json := p |}) as (? & ? & He & Hs & Ht);
             rewrite (step_error_status u h p c (net a) a _ _ He Hs Ht);
             clear He Hs Ht
         end.
  reflexivity.
Qed.

(** ** The provider adapters and the registry *)

Lemma make_request_total s url headers payload :
  total (_make_request s url headers payload).
Proof.
  unfold total, _make_request, post.
  destruct (s _) as [e|r]; [by eexists|]. run_m.
  destruct (status r =? 200).
  - destruct (json r); by eexists.
  - destruct (text r); by eexists.
Qed.

Lemma guard_lacks key v :
  lacks key v -> result_and_get v key = ([], Ok false).
Proof.
  intros [->|(d & -> & Hd)]; [done|]. unfold result_and_get, Py.get.
  rewrite Hd. simpl. by destruct (Py.nonempty d).
Qed.

Ltac adapter_noop H :=
  cbv zeta;
  match goal with
  | |- outcome (_make_request ?s ?u ?h ?p ≫= _) = _ =>
      destruct (H u h p) as (v & Hv & Hl);
      rewrite (bind_ok _ _ v Hv), outcome_pair; cbv beta;
      rewrite (guard_lacks _ _ Hl); reflexivity
  end.

Section Adapters.

Variables (s : session) (file_content api_key : pystr).

Lemma gemini_noop :
  helper_gives s (lacks "candidates") ->
  outcome (refactor_with_gemini s file_content api_key) = Ok file_content.
Proof. intros H. unfold refactor_with_gemini. adapter_noop H. Qed.

Lemma openai_noop :
  helper_gives s (lacks "choices") ->
  outcome (refactor_with_openai s file_content api_key) = Ok file_content.
Proof. intros H. unfold refactor_with_openai. adapter_noop H. Qed.

Lemma anthropic_noop :
  helper_gives s (lacks "content") ->
  outcome (refactor_with_anthropic s file_content api_key) = Ok file_content.
Proof. intros H. unfold refactor_with_anthropic. adapter_noop H. Qed.

Lemma deepseek_noop :
  helper_gives s (lacks "choices") ->
  outcome (refactor_with_deepseek s file_content api_key) = Ok file_content.
Proof. intros H. unfold refactor_with_deepseek. adapter_noop H. Qed.

End Adapters.

Lemma registry_lookup name :
  MODEL_PROVIDERS !! name =
    if decide (name = "gemini") then Some gemini_entry
    else if decide (name = "openai") then Some openai_entry
    else if decide (name = "claude") then Some claude_entry
    else if decide (name = "deepseek") then Some deepseek_entry
    else None.
Proof.
  unfold MODEL_PROVIDERS. cbn [list_to_map foldr uncurry fst snd].
  repeat (rewrite lookup_insert; case_decide; subst;
          [by repeat (case_decide; try done)|]).
  rewrite lookup_empty. by repeat (case_decide; try done).
Qed.

(** C4, counterexample: a body of status 200 that has the top-level key
    but lacks a field further down the path to the text (a candidate
    without [content], a choice without [message], a content block
    without [text]) makes each adapter raise [KeyError]; the original
    content is not returned. *)
Lemma adapters_raise_on_nested_absence :
  let answer (v : pyval) : session := fun _ =>
    PostResponds {| status := 200; json := Ok v; text := Ok [] |} in
  outcome (refactor_with_gemini
             (answer (PDict [("candidates",
                PList [PDict [("finishReason", PStr (py "SAFETY"))]])]))
             (py "x = 1") (py "key")) = Raise KeyError /\
  outcome (refactor_with_openai
             (answer (PDict [("choices", PList [PDict [("index", PInt 0)]])]))
             (py "x = 1") (py "key")) = Raise KeyError /\
  outcome (refactor_with_anthropic
             (answer (PDict [("content",
                PList [PDict [("type", PStr (py "tool_use"))]])]))
             (py "x = 1") (py "key")) = Raise KeyError /\
  outcome (refactor_with_deepseek
             (answer (PDict [("choices", PList [PDict [("index", PInt 0)]])]))
             (py "x = 1") (py "key")) = Raise KeyError.
Proof. vm_compute. done. Qed.

(** C4, as amended. For each entry of the registry: when the transport
    helper returns [None], or a dict in which the top-level key the
    adapter tests ([candidates] for Gemini, [choices] for OpenAI and
    DeepSeek, [content] for Anthropic) is absent, the adapter returns the
    original file content; it does not raise. *)
Theorem adapters_noop_without_result name p s file_content api_key :
  MODEL_PROVIDERS !! name = Some p ->
  helper_gives s (lacks (expected_field name)) ->
  outcome (function p s file_content api_key) = Ok file_content.
Proof.
  rewrite registry_lookup. unfold expected_field.
  repeat case_decide; subst; try done; intros [= <-] Hgives; simpl.
  - by apply gemini_noop.
  - by apply openai_noop.
  - by apply anthropic_noop.
  - by apply deepseek_noop.
Qed.

Lemma adapters_differ :
  refactor_with_anthropic <> refactor_with_gemini /\
  refactor_with_anthropic <> refactor_with_openai /\
  refactor_with_anthropic <> refactor_with_deepseek.
Proof.
  repeat split; intros Heq;
    apply (f_equal (fun f => trace (f Fixtures.unreachable [] []))) in Heq;
    vm_compute in Heq; discriminate Heq.
Qed.

(** C10. The registry has exactly the four keys [gemini], [openai],
    [claude] and [deepseek]; each maps to its adapter and to the name of
    its credential variable; the Anthropic adapter is under [claude] only,
    and looking up [anthropic], or any key other than the four, raises
    [KeyError]. *)
Theorem registry_four_keys :
  dom MODEL_PROVIDERS
    = ({["gemini"; "openai"; "claude"; "deepseek"]} : gset string) /\
  lookup_provider "gemini"
    = Ok {| function := refactor_with_gemini;
            api_key_name := "GEMINI_API_KEY" |} /\
  lookup_provider "openai"
    = Ok {| function := refactor_with_openai;
            api_key_name := "OPENAI_API_KEY" |} /\
  lookup_provider "claude"
    = Ok {| function := refactor_with_anthropic;
            api_key_name := "ANTHROPIC_API_KEY" |} /\
  lookup_provider "deepseek"
    = Ok {| function := refactor_with_deepseek;
            api_key_name := "DEEPSEEK_API_KEY" |} /\
  lookup_provider "anthropic" = Raise KeyError /\
  (forall name,
      name ∉ ["gemini"; "openai"; "claude"; "deepseek"] ->
      lookup_provider name = Raise KeyError) /\
  (forall name p,
      lookup_provider name = Ok p ->
      function p = refactor_with_anthropic -> name = "claude").
Proof.
  unfold lookup_provider.
  split_and!; try (by rewrite registry_lookup).
  - apply set_eq. intros k. rewrite elem_of_dom, registry_lookup.
    rewrite !elem_of_union, !elem_of_singleton.
    repeat case_decide; subst;
      (split; [intros [x Hx]|intros Hk]; first [done | by eexists | tauto]).
  - intros name Hn. rewrite registry_lookup.
    repeat case_decide; subst; try done; exfalso; apply Hn;
      rewrite !elem_of_cons; tauto.
  - intros name p. rewrite registry_lookup.
    destruct adapters_differ as (Hg & Ho & Hd).
    repeat case_decide; subst; try done; intros [= <-]; simpl; intros Hf;
      by first [destruct Hg | destruct Ho | destruct Hd].
Qed.

Lemma registry_four_keys_witness :
  lookup_provider "mistral" = Raise KeyError.
Proof.
  destruct registry_four_keys as (_ & _ & _ & _ & _ & _ & Hother & _).
  apply Hother. vm_compute. intros H.
  repeat (apply elem_of_cons in H as [H|H]; [discriminate H|]).
  by apply elem_of_nil in H.
Defined.

Lemma adapters_noop_without_result_witness :
  outcome (function claude_entry Fixtures.unreachable (py "x = 1") (py "key"))
  = Ok (py "x = 1").
Proof.
  apply (adapters_noop_without_result "claude").
  - by rewrite registry_lookup.
  - intros url headers payload. exists PNone. split; [reflexivity|by left].
Defined.

Lemma backoff_skipped_on_error_status_witness :
  count is_post
    (trace (refactor_file_content Fixtures.demo_agent
              (fun _ => Fixtures.status_500) (py "x = 1"))) = 3%nat
  /\ sleeps
       (trace (refactor_file_content Fixtures.demo_agent
                 (fun _ => Fixtures.status_500) (py "x = 1"))) = []
  /\ outcome
       (refactor_file_content Fixtures.demo_agent
          (fun _ => Fixtures.status_500) (py "x = 1")) = Ok (py "x = 1").
Proof.
  apply backoff_skipped_on_error_status. intros attempt req.
  eexists _, _. repeat split. simpl. lia.
Defined.

Lemma smell_filter_threshold_witness :
  outcome
    (analyze_for_code_smells Fixtures.demo_agent
       (Fixtures.demo_world (Fixtures.lines 50) Fixtures.unreachable (Ok tt))
       "/work/demo/big.py" 50) = Ok false /\
  outcome
    (analyze_for_code_smells Fixtures.demo_agent
       (Fixtures.demo_world (Fixtures.lines 51) Fixtures.unreachable (Ok tt))
       "/work/demo/big.py" 50) = Ok true.
Proof.
  split.
  - destruct (smell_filter_threshold Fixtures.demo_agent
                (Fixtures.demo_world (Fixtures.lines 50)
                   Fixtures.unreachable (Ok tt))
                "/work/demo/big.py" 50 (Fixtures.lines 50) eq_refl)
      as (Hle & _).
    apply Hle. vm_compute. discriminate.
  - destruct (smell_filter_threshold Fixtures.demo_agent
                (Fixtures.demo_world (Fixtures.lines 51)
                   Fixtures.unreachable (Ok tt))
                "/work/demo/big.py" 50 (Fixtures.lines 51) eq_refl)
      as (_ & Hgt & _).
    apply Hgt. vm_compute. reflexivity.
Defined.

(** ** What each method can emit *)

Section Emits.

Variable P : event -> Prop.
Hypothesis P_plain : forall e, plain e = true -> P e.
Variables (self : agent) (w : world).

Ltac leaf := first [assumption | by apply P_plain | by auto].
Ltac emits := repeat only_step; try leaf.

Lemma clone_emits :
  P (EvCall m_clone_repository) -> emits_only P (clone_repository self w).
Proof. intros H. unfold clone_repository. emits. Qed.

Lemma find_emits :
  P (EvCall m_find_python_files) -> emits_only P (find_python_files self w).
Proof. intros H. unfold find_python_files. cbv zeta. emits. Qed.

Lemma analyze_emits file_path min_lines :
  P (EvCall m_analyze_for_code_smells) ->
  emits_only P (analyze_for_code_smells self w file_path min_lines).
Proof. intros H. unfold analyze_for_code_smells. cbv zeta. emits. Qed.

Lemma flag_files_emits python_files :
  P (EvCall m_analyze_for_code_smells) ->
  emits_only P (flag_files self w python_files).
Proof.
  intros H. induction python_files as [|f fs IH]; simpl; [apply only_ret|].
  apply only_bind; [by apply analyze_emits|]. intros b.
  apply only_bind; [done|]. intros tasks. apply only_ret.
Qed.

Lemma post_emits s r : emits_only P (post s r).
Proof. unfold post. destruct (s r); emits. Qed.

Lemma attempt_emits s u h p fc attempt :
  emits_only P (try_attempt s u h p fc attempt).
Proof.
  unfold try_attempt, attempt_body. apply only_try_except.
  - apply only_bind; [apply post_emits|]. intros r. emits.
  - intros e. emits.
Qed.

Lemma loop_emits net u h p fc attempts :
  emits_only P (attempts_loop net u h p fc attempts).
Proof.
  induction attempts as [|a attempts IH]; simpl; [emits|].
  apply only_bind; [apply attempt_emits|]. intros [v|]; [apply only_ret|done].
Qed.

Lemma refactor_emits net fc :
  P (EvCall m_refactor_file_content) ->
  emits_only P (refactor_file_content self net fc).
Proof.
  intros H. unfold refactor_file_content. cbv zeta.
  apply only_bind; [by apply only_emit|]. intros _. apply loop_emits.
Qed.

Lemma process_file_emits file_path absolute_path :
  P (EvCall m_process_file) -> P (EvCall m_refactor_file_content) ->
  emits_only P (process_file self w file_path absolute_path).
Proof.
  intros H1 H2. unfold process_file.
  apply only_bind; [by apply only_emit|]. intros _.
  apply only_bind; [emits|]. intros _.
  apply only_try_except; [|intros e; emits].
  apply only_bind; [emits|]. intros original.
  apply only_bind; [by apply refactor_emits|]. intros refactored. emits.
Qed.

Lemma gather_emits tasks :
  P (EvCall m_process_file) -> P (EvCall m_refactor_file_content) ->
  emits_only P (gather self w tasks).
Proof.
  intros H1 H2. unfold gather. apply only_mapM.
  intros [fp ap]. by apply process_file_emits.
Qed.

Lemma cleanup_emits :
  P (EvCall m_cleanup) -> emits_only P (cleanup self w).
Proof. intros H. unfold cleanup. emits. Qed.

Lemma update_files_emits items :
  (forall c, P (EvGithub c)) -> emits_only P (update_files w items).
Proof.
  intros H. induction items as [|[fp c] items IH]; [apply only_ret|].
  cbn [update_files]. unfold gh. emits.
Qed.

Lemma create_pull_request_emits refactored_files :
  P (EvCall m_create_pull_request) -> (forall c, P (EvGithub c)) ->
  emits_only P (create_pull_request self w refactored_files).
Proof.
  intros H1 H2. unfold create_pull_request, gh.
  apply only_bind; [by apply only_emit|]. intros _.
  destruct (negb _); [emits|].
  apply only_try_except; [|intros e; emits].
  apply only_try_except; [|intros e; emits].
  repeat (apply only_bind; [|intros ?]); try (by emits).
  by apply update_files_emits.
Qed.

End Emits.

(** ** Totality of the stages *)

Lemma total_ok {A} (d : A) (m : M A) :
  total m -> outcome m = Ok (match outcome m with Ok a => a | Raise _ => d end).
Proof. intros [a Ha]. by rewrite Ha. Qed.

Lemma bind_total {A B} (m : M A) (k : A -> M B) :
  total m -> (forall a, total (k a)) -> total (m ≫= k).
Proof.
  intros [a Ha] Hk. destruct (Hk a) as [b Hb]. exists b.
  by rewrite (bind_ok _ _ a Ha), outcome_pair.
Qed.

Lemma mapM_total {A B} (f : A -> M B) l :
  (forall a, total (f a)) -> total (mapM f l).
Proof.
  intros Hf. induction l as [|x l IH]; [by eexists|]. cbn [mapM].
  apply bind_total; [done|]. intros y. apply bind_total; [done|].
  intros ys. by eexists.
Qed.

Lemma mapM_ok {A B} (f : A -> M B) l ys :
  outcome (mapM f l) = Ok ys ->
  Forall2 (fun x y => outcome (f x) = Ok y) l ys.
Proof.
  revert ys. induction l as [|x l IH]; intros ys; cbn [mapM].
  - intros [= <-]. constructor.
  - destruct (f x) as [t [y|e]] eqn:Hx; [|done].
    destruct (mapM f l) as [t' [ys'|e]] eqn:Hl; [|done].
    intros [= <-]. constructor; [by rewrite Hx|]. by apply IH.
Qed.

Section Stages.

Variables (self : agent) (w : world).

Lemma find_outcome :
  outcome (find_python_files self w) = Ok (walk "" (tree w)).
Proof. reflexivity. Qed.

Lemma flag_files_total python_files : total (flag_files self w python_files).
Proof.
  induction python_files as [|f fs IH]; [by eexists|]. cbn [flag_files].
  cbv zeta. apply bind_total; [apply analyze_total|]. intros b.
  apply bind_total; [done|]. intros tasks. by eexists.
Qed.

(** Every task carries the path joined to the clone directory. *)
Lemma flag_files_paths python_files tasks :
  outcome (flag_files self w python_files) = Ok tasks ->
  forall fp ap, (fp, ap) ∈ tasks -> ap = Path.join (clone_path self) fp.
Proof.
  revert tasks. induction python_files as [|f fs IH]; intros tasks.
  - intros [= <-] fp ap H. by apply elem_of_nil in H.
  - cbn [flag_files]. cbv zeta.
    destruct (analyze_total self w (Path.join (clone_path self) f)
                DEFAULT_MIN_LINES) as [b Hb].
    rewrite (bind_ok _ _ b Hb), outcome_pair.
    destruct (flag_files_total fs) as [ts Hts].
    rewrite (bind_ok _ _ ts Hts), outcome_pair.
    intros [= <-] fp ap H. destruct b.
    + apply elem_of_cons in H as [[= -> ->]|H]; [done|]. by eapply IH.
    + by eapply IH.
Qed.

Lemma loop_total net u h p fc attempts :
  total (attempts_loop net u h p fc attempts).
Proof.
  induction attempts as [|a attempts IH]; [by eexists|].
  cbn [attempts_loop]. apply bind_total; [apply step_total|].
  intros [v|]; [by eexists|done].
Qed.

Lemma refactor_total net fc : total (refactor_file_content self net fc).
Proof.
  unfold refactor_file_content. cbv zeta.
  apply bind_total; [by eexists|]. intros _. apply loop_total.
Qed.

(** [process_file] by cases on the read and on the refactored text. *)
Lemma process_file_outcome file_path absolute_path :
  outcome (process_file self w file_path absolute_path)
  = match read w absolute_path with
    | Raise _ => Ok (file_path, None)
    | Ok original_content =>
        match outcome (refactor_file_content self (http w file_path)
                         original_content) with
        | Ok refactored_content =>
            if bool_decide (refactored_content ≠ original_content)
            then Ok (file_path, Some refactored_content)
            else Ok (file_path, None)
        | Raise _ => Ok (file_path, None)
        end
    end.
Proof.
  unfold process_file.
  rewrite (bind_ok _ _ tt) by done. rewrite outcome_pair.
  rewrite (bind_ok _ _ tt) by done. rewrite outcome_pair.
  destruct (read w absolute_path) as [original|e]; [|reflexivity].
  rewrite (bind_ok (perform _ (Ok original)) _ original eq_refl).
  cbv beta.
  destruct (refactor_file_content self (http w file_path) original)
    as [t [r|e]]; [|reflexivity].
  rewrite outcome_pair, (bind_ok (t, Ok r) _ r eq_refl). cbv beta.
  by destruct (bool_decide (r ≠ original)).
Qed.

Lemma process_file_total file_path absolute_path :
  total (process_file self w file_path absolute_path).
Proof.
  unfold total. rewrite process_file_outcome.
  destruct (read w absolute_path); [|by eexists].
  destruct (outcome _); [|by eexists]. case_bool_decide; by eexists.
Qed.

Lemma gather_total tasks : total (gather self w tasks).
Proof.
  unfold gather. apply mapM_total. intros [fp ap]. apply process_file_total.
Qed.

Lemma run_body_staged :
  outcome (clone_repository self w) = Ok tt ->
  run_body self w
  = (trace (clone_repository self w)
       ++ trace (find_python_files self w)
       ++ trace (flag_files self w (walk "" (tree w)))
       ++ trace (gather self w (tasks_of self w))
       ++ trace (publish self w),
     outcome (publish self w)).
Proof.
  intros Hc. unfold run_body.
  rewrite (bind_ok _ _ tt Hc).
  rewrite (bind_ok _ _ _ find_outcome).
  rewrite (bind_ok _ _ _ (total_ok [] _ (flag_files_total _))).
  fold (tasks_of self w).
  rewrite (bind_ok _ _ _ (total_ok [] _ (gather_total _))).
  fold (results_of self w). cbv zeta. fold (batch_of self w).
  fold (publish self w).
  by rewrite !trace_pair, !outcome_pair.
Qed.

Lemma run_body_clone_fails e :
  outcome (clone_repository self w) = Raise e ->
  run_body self w = (trace (clone_repository self w), Raise e).
Proof. intros Hc. unfold run_body. by rewrite (bind_raise _ _ e Hc). Qed.

End Stages.

(** ** The workflow: cleanup and publishing *)

Lemma run_body_emits (P : event -> Prop) self w :
  (forall e, plain e = true -> P e) ->
  (forall m, m <> m_cleanup -> P (EvCall m)) ->
  (forall c, P (EvGithub c)) ->
  emits_only P (run_body self w).
Proof.
  intros Hplain Hcall Hgh. unfold run_body.
  apply only_bind; [by apply clone_emits; auto|]. intros _.
  apply only_bind; [by apply find_emits; auto|]. intros files.
  apply only_bind; [by apply flag_files_emits; auto|]. intros tasks.
  apply only_bind; [by apply gather_emits; auto|]. intros results.
  cbv zeta. destruct (Py.nonempty _); [|apply only_ret].
  by apply create_pull_request_emits; auto.
Qed.

Lemma cleanup_calls self w :
  count (is_call m_cleanup) (trace (cleanup self w)) = 1%nat.
Proof.
  unfold cleanup. rewrite (bind_ok _ _ tt) by done.
  rewrite trace_pair, count_app.
  change (count (is_call m_cleanup) (trace (emit (EvCall m_cleanup))))
    with 1%nat.
  rewrite (count_none (is_call m_cleanup)); [done|].
  change (emits_only (fun e => is_call m_cleanup e = false)
            (found ← perform (EvExists (clone_path self))
                       (Ok (exists_after w));
             if (found : bool) then
               try_except
                 (perform (EvRmtree (clone_path self)) (rmtree_after w);;
                  log INFO "Cleaned up local repository")
                 is_OSError
                 (fun e => log ERROR "Error cleaning up repository")
             else mret tt)).
  only_auto.
Qed.

Lemma run_body_no_cleanup self w :
  count (is_call m_cleanup) (trace (run_body self w)) = 0%nat.
Proof.
  apply count_none. apply (run_body_emits (fun e => is_call m_cleanup e = false)).
  - by intros [].
  - by intros [].
  - done.
Qed.

(** Neither cloning nor cleaning up enters another method or calls
    GitHub. *)
Lemma clone_then_cleanup_only self w p :
  (forall e, plain e = true -> p e = false) ->
  p (EvCall m_clone_repository) = false -> p (EvCall m_cleanup) = false ->
  count p (trace (clone_repository self w) ++ trace (cleanup self w)) = 0%nat.
Proof.
  intros Hplain Hc Hf. rewrite count_app.
  rewrite !count_none; [done| |].
  - by apply (cleanup_emits (fun e => p e = false)).
  - by apply (clone_emits (fun e => p e = false)).
Qed.

(** What [cleanup] does, event by event: it tests whether the working
    copy is there and, when it is, removes it with one [shutil.rmtree] of
    [clone_path]; the removal is logged, and so is its failure with an
    [OSError]. *)
Lemma cleanup_trace self w :
  trace (cleanup self w)
  = EvCall m_cleanup :: EvExists (clone_path self) ::
    (if exists_after w then
       EvRmtree (clone_path self) ::
       match rmtree_after w with
       | Ok _ => [EvLog INFO "Cleaned up local repository"]
       | Raise e =>
           if is_OSError e then [EvLog ERROR "Error cleaning up repository"]
           else []
       end
     else []).
Proof.
  unfold cleanup. run_m. destruct (exists_after w); [|reflexivity].
  destruct (rmtree_after w) as [[]|e]; [reflexivity|].
  by destruct e.
Qed.

(** C7. In every world, that is however the earlier steps end, [run]
    enters [cleanup] exactly once, and as its last step: the trace of the
    run is the trace of the body, which has no cleanup, followed by the
    trace of the cleanup. The cleanup is the removal of the local working
    copy: it tests whether [clone_path] exists and, when it does, calls
    [shutil.rmtree] on [clone_path], once; when the directory is not
    there it removes nothing. So every run ends with that test and that
    removal. When the clone step raises, none of [find_python_files],
    [analyze_for_code_smells], [process_file], [refactor_file_content]
    and [create_pull_request] is entered, the cleanup is still entered
    once, right after the clone step, and the run ends with an
    exception. *)
Theorem cleanup_runs_exactly_once self w :
  count (is_call m_cleanup) (trace (run self w)) = 1%nat /\
  (trace (run self w) = trace (run_body self w) ++ trace (cleanup self w) /\
   count (is_call m_cleanup) (trace (run_body self w)) = 0%nat) /\
  (trace (cleanup self w)
   = EvCall m_cleanup :: EvExists (clone_path self) ::
     (if exists_after w then
        EvRmtree (clone_path self) ::
        match rmtree_after w with
        | Ok _ => [EvLog INFO "Cleaned up local repository"]
        | Raise e =>
            if is_OSError e then [EvLog ERROR "Error cleaning up repository"]
            else []
        end
      else []) /\
   count is_rmtree (trace (cleanup self w))
   = (if exists_after w then 1 else 0)%nat) /\
  (forall e,
      outcome (clone_repository self w) = Raise e ->
      count (is_call m_find_python_files) (trace (run self w)) = 0%nat /\
      count (is_call m_analyze_for_code_smells) (trace (run self w)) = 0%nat /\
      count (is_call m_process_file) (trace (run self w)) = 0%nat /\
      count (is_call m_refactor_file_content) (trace (run self w)) = 0%nat /\
      count (is_call m_create_pull_request) (trace (run self w)) = 0%nat /\
      count (is_call m_cleanup) (trace (run self w)) = 1%nat /\
      trace (run self w)
      = trace (clone_repository self w) ++ trace (cleanup self w) /\
      exists e', outcome (run self w) = Raise e').
Proof.
  assert (Hrun : trace (run self w)
                 = trace (run_body self w) ++ trace (cleanup self w))
    by apply try_finally_trace.
  assert (Hone : count (is_call m_cleanup) (trace (run self w)) = 1%nat).
  { by rewrite Hrun, count_app, run_body_no_cleanup, cleanup_calls. }
  split_and!; [done|done|apply run_body_no_cleanup|apply cleanup_trace| |].
  { rewrite cleanup_trace. destruct (exists_after w); [|reflexivity].
    destruct (rmtree_after w) as [[]|e]; [reflexivity|].
    by destruct (is_OSError e). }
  intros e He. rewrite Hrun, (run_body_clone_fails self w e He), trace_pair.
  split_and!;
    try (apply clone_then_cleanup_only; [by intros []|done|done]).
  - by rewrite <- (trace_pair (trace (clone_repository self w)) (Raise e : result unit)),
       <- (run_body_clone_fails self w e He), <- Hrun.
  - reflexivity.
  - unfold run. rewrite (run_body_clone_fails self w e He).
    unfold try_finally. destruct (cleanup self w) as [t [[]|e']]; by eexists.
Qed.

Lemma cleanup_runs_exactly_once_witness :
  let w := Fixtures.demo_world (Fixtures.lines 51) Fixtures.unreachable
             (Raise CalledProcessError) in
  (trace (cleanup Fixtures.demo_agent w)
   = [EvCall m_cleanup; EvExists (clone_path Fixtures.demo_agent);
      EvRmtree (clone_path Fixtures.demo_agent);
      EvLog INFO "Cleaned up local repository"] /\
   count is_rmtree (trace (cleanup Fixtures.demo_agent w)) = 1%nat) /\
  count (is_call m_find_python_files) (trace (run Fixtures.demo_agent w))
    = 0%nat /\
  count (is_call m_analyze_for_code_smells)
    (trace (run Fixtures.demo_agent w)) = 0%nat /\
  count (is_call m_process_file) (trace (run Fixtures.demo_agent w))
    = 0%nat /\
  count (is_call m_refactor_file_content)
    (trace (run Fixtures.demo_agent w)) = 0%nat /\
  count (is_call m_create_pull_request) (trace (run Fixtures.demo_agent w))
    = 0%nat /\
  count (is_call m_cleanup) (trace (run Fixtures.demo_agent w)) = 1%nat /\
  trace (run Fixtures.demo_agent w)
  = trace (clone_repository Fixtures.demo_agent w)
      ++ trace (cleanup Fixtures.demo_agent w) /\
  exists e', outcome (run Fixtures.demo_agent w) = Raise e'.
Proof.
  intros w.
  destruct (cleanup_runs_exactly_once Fixtures.demo_agent w)
    as (_ & _ & Hrm & H).
  split; [exact Hrm|].
  apply (H CalledProcessError). reflexivity.
Defined.

Section Publish.

Variables (self : agent) (w : world).

(** The guard inside [create_pull_request]: with an empty dict it logs
    and returns. *)
Lemma create_pull_request_empty :
  create_pull_request self w []
  = ([EvCall m_create_pull_request;
      EvLog INFO "No files were refactored. Skipping pull request creation."],
     Ok tt).
Proof. reflexivity. Qed.

Lemma before_publish_quiet p :
  (forall e, plain e = true -> p e = false) ->
  (forall m, m <> m_create_pull_request -> p (EvCall m) = false) ->
  count p (trace (clone_repository self w)
             ++ trace (find_python_files self w)
             ++ trace (flag_files self w (walk "" (tree w)))
             ++ trace (gather self w (tasks_of self w))) = 0%nat.
Proof.
  intros Hplain Hcall. rewrite !count_app, !count_none; [done| | | |].
  - by apply (gather_emits (fun e => p e = false)); auto.
  - by apply (flag_files_emits (fun e => p e = false)); auto.
  - by apply (find_emits (fun e => p e = false)); auto.
  - by apply (clone_emits (fun e => p e = false)); auto.
Qed.

End Publish.

(** A result list without content gives an empty batch: the case in
    which every refactor call failed or returned the original text. *)
Lemma collect_all_none results :
  Forall (fun r => r.2 = None) results -> collect results = [].
Proof.
  unfold collect. generalize (@nil (string * pystr)) as acc.
  induction results as [|[fp [c|]] results IH]; intros acc H; [done| |].
  - by inversion H.
  - simpl. apply IH. by inversion H.
Qed.

(** C8. When the batch of a run is empty, the run does not enter
    [create_pull_request] and makes no GitHub call at all (no branch is
    created, no pull request opened), its body ends normally, and so does
    the run when the cleanup does. [create_pull_request] has the same
    guard of its own: on an empty dict it makes no GitHub call and
    returns. *)
Theorem empty_batch_skips_publish self w :
  outcome (clone_repository self w) = Ok tt ->
  batch_of self w = [] ->
  count (is_call m_create_pull_request) (trace (run self w)) = 0%nat /\
  count is_github (trace (run self w)) = 0%nat /\
  outcome (run_body self w) = Ok tt /\
  (outcome (cleanup self w) = Ok tt -> outcome (run self w) = Ok tt) /\
  count is_github (trace (create_pull_request self w [])) = 0%nat /\
  outcome (create_pull_request self w []) = Ok tt.
Proof.
  intros Hc Hb.
  assert (Hbody : run_body self w
                  = (trace (clone_repository self w)
                       ++ trace (find_python_files self w)
                       ++ trace (flag_files self w (walk "" (tree w)))
                       ++ trace (gather self w (tasks_of self w)),
                     Ok tt)).
  { rewrite (run_body_staged self w Hc). unfold publish. rewrite Hb.
    simpl. by rewrite !app_nil_r. }
  assert (Hrun : trace (run self w)
                 = trace (run_body self w) ++ trace (cleanup self w))
    by apply try_finally_trace.
  split_and!.
  - rewrite Hrun, Hbody, trace_pair, count_app.
    rewrite before_publish_quiet; [|by intros []|by intros []].
    rewrite count_none; [done|].
    apply (cleanup_emits
             (fun e => is_call m_create_pull_request e = false));
      [by intros []|done].
  - rewrite Hrun, Hbody, trace_pair, count_app.
    rewrite before_publish_quiet; [|by intros []|by intros []].
    rewrite count_none; [done|].
    apply (cleanup_emits (fun e => is_github e = false));
      [by intros []|done].
  - by rewrite Hbody.
  - intros Hcl. unfold run. rewrite try_finally_outcome by done.
    by rewrite Hbody.
  - reflexivity.
  - reflexivity.
Qed.

Lemma empty_batch_skips_publish_witness :
  let w := Fixtures.demo_world (Fixtures.lines 51) Fixtures.unreachable
             (Ok tt) in
  count (is_call m_create_pull_request) (trace (run Fixtures.demo_agent w))
    = 0%nat /\
  count is_github (trace (run Fixtures.demo_agent w)) = 0%nat /\
  outcome (run_body Fixtures.demo_agent w) = Ok tt /\
  (outcome (cleanup Fixtures.demo_agent w) = Ok tt ->
   outcome (run Fixtures.demo_agent w) = Ok tt) /\
  count is_github (trace (create_pull_request Fixtures.demo_agent w []))
    = 0%nat /\
  outcome (create_pull_request Fixtures.demo_agent w []) = Ok tt.
Proof.
  intros w. apply empty_batch_skips_publish.
  - reflexivity.
  - vm_compute. reflexivity.
Defined.

(** ** The batch *)

Lemma setitem_elem {V} (k : string) (v : V) d p c :
  (p, c) ∈ Py.setitem k v d -> (p, c) = (k, v) \/ (p, c) ∈ d.
Proof.
  induction d as [|[k' v'] d IH]; simpl.
  - intros H%list_elem_of_singleton. by left.
  - destruct (String.eqb k k').
    + intros [H|H]%elem_of_cons; [by left|]. right. by right.
    + intros [H|H]%elem_of_cons; [right; rewrite H; by left|].
      destruct (IH H) as [?|?]; [by left|]. right. by right.
Qed.

(** Every entry of the batch is a result with content, and the content
    is not the empty string. *)
Lemma collect_elem results p c :
  (p, c) ∈ collect results -> (p, Some c) ∈ results /\ c <> [].
Proof.
  unfold collect.
  enough (forall acc,
    (p, c) ∈ fold_left
      (fun refactored_files '(file_path, refactored_content) =>
         match refactored_content with
         | Some c =>
             if content_truthy refactored_content
             then Py.setitem file_path c refactored_files
             else refactored_files
         | None => refactored_files
         end) results acc ->
    (p, c) ∈ acc \/ ((p, Some c) ∈ results /\ c <> [])) as Hgen.
  { intros H. destruct (Hgen [] H) as [Hnil|?]; [|done].
    by apply elem_of_nil in Hnil. }
  induction results as [|[fp [x|]] results IH]; intros acc; simpl.
  - by left.
  - intros H. destruct (IH _ H) as [Hacc|[Hin Hc]].
    + destruct x as [|a x]; simpl in Hacc.
      * by left.
      * apply setitem_elem in Hacc as [[= -> ->]|Hacc]; [|by left].
        right. split; [by left|done].
    + right. split; [by right|done].
  - intros H. destruct (IH _ H) as [Hacc|[Hin Hc]]; [by left|].
    right. split; [by right|done].
Qed.

Lemma Forall2_elem_r {A B} (R : A -> B -> Prop) l k y :
  Forall2 R l k -> y ∈ k -> exists x, x ∈ l /\ R x y.
Proof.
  induction 1 as [|x y' l k HR _ IH]; [by intros ?%elem_of_nil|].
  intros [->|Hy]%elem_of_cons.
  - exists x. split; [by left|done].
  - destruct (IH Hy) as (x' & Hx' & HR'). exists x'. split; [by right|done].
Qed.

Section Batch.

Variables (self : agent) (w : world).

(** A result with content: the file was read, and the content differs
    from what was read. *)
Lemma process_file_some file_path absolute_path p c :
  outcome (process_file self w file_path absolute_path) = Ok (p, Some c) ->
  p = file_path /\
  exists original_content,
    read w absolute_path = Ok original_content /\ c <> original_content.
Proof.
  rewrite process_file_outcome.
  destruct (read w absolute_path) as [original|e]; [|done].
  destruct (outcome _) as [r|e]; [|done].
  case_bool_decide as Hne; [|done]. intros [= <- <-]. eauto.
Qed.

Lemma results_of_elem p c :
  (p, Some c) ∈ results_of self w ->
  exists original_content,
    read w (Path.join (clone_path self) p) = Ok original_content /\
    c <> original_content.
Proof.
  intros Hin.
  pose proof (total_ok [] _ (gather_total self w (tasks_of self w))) as Hg.
  fold (results_of self w) in Hg. apply mapM_ok in Hg.
  destruct (Forall2_elem_r _ _ _ _ Hg Hin) as ([fp ap] & Htask & Hp).
  apply process_file_some in Hp as (-> & original & Hr & Hne).
  pose proof (total_ok [] _ (flag_files_total self w (walk "" (tree w))))
    as Hf.
  fold (tasks_of self w) in Hf.
  rewrite (flag_files_paths self w _ _ Hf fp ap Htask) in Hr. eauto.
Qed.

End Batch.

(** C5. A per-file result with content comes from a file that was read
    and differs from what was read; and every entry of the batch, the
    dict handed to [create_pull_request], has a content that is not empty
    and differs from the original content of the file at that path. *)
Theorem batch_entries_changed self w :
  (forall file_path absolute_path p c,
      outcome (process_file self w file_path absolute_path)
        = Ok (p, Some c) ->
      exists original_content,
        read w absolute_path = Ok original_content /\
        c <> original_content) /\
  (forall p c,
      (p, c) ∈ batch_of self w ->
      c <> [] /\
      exists original_content,
        read w (Path.join (clone_path self) p) = Ok original_content /\
        c <> original_content).
Proof.
  split.
  - intros fp ap p c H. by apply process_file_some in H as (_ & H).
  - intros p c [Hin Hc]%collect_elem. split; [done|].
    by apply results_of_elem.
Qed.

Lemma batch_entries_changed_witness :
  let w := Fixtures.demo_world (Fixtures.lines 51)
             (Fixtures.answers (py "y = 2")) (Ok tt) in
  py "y = 2" <> [] /\
  exists original_content,
    read w (Path.join (clone_path Fixtures.demo_agent) "big.py")
      = Ok original_content /\
    py "y = 2" <> original_content.
Proof.
  intros w.
  destruct (batch_entries_changed Fixtures.demo_agent w) as [_ H].
  apply H. vm_compute. by left.
Defined.

(** C9. A file whose refactored text is the empty string gives the
    result [(path, "")], since the empty string differs from a non-empty
    original; the batch leaves that result out: it changes nothing,
    wherever it stands among the results, and no entry of a batch has an
    empty content. *)
Theorem empty_content_excluded self w file_path absolute_path original :
  read w absolute_path = Ok original ->
  original <> [] ->
  outcome (refactor_file_content self (http w file_path) original) = Ok [] ->
  outcome (process_file self w file_path absolute_path)
    = Ok (file_path, Some []) /\
  (forall before after,
      collect (before ++ (file_path, Some []) :: after)
      = collect (before ++ after)) /\
  (forall results p c, (p, c) ∈ collect results -> c <> []).
Proof.
  intros Hr Hne Hf. split_and!.
  - rewrite process_file_outcome, Hr, Hf. by rewrite bool_decide_true.
  - intros before after. unfold collect. by rewrite !fold_left_app.
  - intros results p c H. by apply collect_elem in H as [_ H].
Qed.

Lemma empty_content_excluded_witness :
  let w := Fixtures.demo_world (Fixtures.lines 51)
             (Fixtures.answers (py "```python```")) (Ok tt) in
  outcome (process_file Fixtures.demo_agent w "big.py" "/work/demo/big.py")
    = Ok ("big.py", Some []) /\
  (forall before after,
      collect (before ++ ("big.py", Some []) :: after)
      = collect (before ++ after)) /\
  (forall results p c, (p, c) ∈ collect results -> c <> []).
Proof.
  intros w. apply (empty_content_excluded _ w _ _ (Fixtures.lines 51)).
  - reflexivity.
  - vm_compute. discriminate.
  - vm_compute. reflexivity.
Defined.

(** Scenario B of the workflow: when, for every task, the refactor call
    gives back the text that was read (the model changed nothing, or
    every attempt failed), the batch is empty. *)
Lemma batch_empty_when_unchanged self w :
  (forall fp ap original,
      (fp, ap) ∈ tasks_of self w -> read w ap = Ok original ->
      outcome (refactor_file_content self (http w fp) original)
        = Ok original) ->
  batch_of self w = [].
Proof.
  intros H. unfold batch_of. apply collect_all_none.
  pose proof (total_ok [] _ (gather_total self w (tasks_of self w))) as Hg.
  fold (results_of self w) in Hg. apply mapM_ok in Hg.
  apply Forall_forall. intros y Hy.
  destruct (Forall2_elem_r _ _ _ _ Hg Hy) as ([fp ap] & Htask & Hp).
  rewrite process_file_outcome in Hp.
  destruct (read w ap) as [original|e] eqn:Hr; [|by injection Hp as <-].
  rewrite (H fp ap original Htask Hr) in Hp.
  rewrite bool_decide_false in Hp by (intros Hne; by apply Hne).
  by injection Hp as <-.
Qed.

(** ** The embedding on sample inputs *)

Example clean_fenced :
  _clean_response (py ("```python" +:+ nl +:+ "x = 1" +:+ nl +:+ "```"))
  = py "x = 1".
Proof. vm_compute. reflexivity. Qed.

Example clean_plain : _clean_response (py ("  x = 1" +:+ nl)) = py "x = 1".
Proof. vm_compute. reflexivity. Qed.

Example clean_closing_only :
  _clean_response (py ("x = 1" +:+ nl +:+ "```")) = py "x = 1".
Proof. vm_compute. reflexivity. Qed.

Example strip_unicode_blank :
  strip ([160; 8195] ++ py "x" ++ [12288; 133])%N = py "x".
Proof. vm_compute. reflexivity. Qed.

Example line_count_samples :
  line_count [] = 0 /\
  line_count (py ("a" +:+ nl)) = 1 /\
  line_count (py ("a" +:+ nl +:+ "b")) = 2 /\
  line_count (Fixtures.lines 50) = 50.
Proof. vm_compute. done. Qed.

Example walk_prunes :
  walk ""
    (Dir "demo"
       [Dir ".git" [] ["hook.py"];
        Dir "pkg" [Dir "venv" [] ["site.py"]] ["a.py"; "data.txt"]]
       ["top.py"; "README.md"])
  = ["top.py"; "pkg/a.py"].
Proof. vm_compute. reflexivity. Qed.

Example join_samples :
  Path.join "/work/demo" "pkg/a.py" = "/work/demo/pkg/a.py" /\
  Path.join "/work/demo/" "a.py" = "/work/demo/a.py" /\
  Path.basename "pkg/a.py" = "a.py".
Proof. vm_compute. done. Qed.

(** A changed file is published: the GitHub calls of the run, in order. *)
Example run_publishes :
  let w := Fixtures.demo_world (Fixtures.lines 51)
             (Fixtures.answers (py "y = 2")) (Ok tt) in
  List.filter is_github (trace (run Fixtures.demo_agent w))
  = [EvGithub (GetRepo "octo/demo");
     EvGithub GetBranch;
     EvGithub (GetGitRef "heads/ai-refactor-suggestions");
     EvGithub RefDelete;
     EvGithub (CreateGitRef "refs/heads/ai-refactor-suggestions");
     EvGithub (GetContents "big.py" "ai-refactor-suggestions");
     EvGithub (UpdateFile "big.py" "feat: AI-powered refactoring for big.py"
                 (py "y = 2") "ai-refactor-suggestions");
     EvGithub (CreatePull "ai-refactor-suggestions")] /\
  outcome (run Fixtures.demo_agent w) = Ok tt.
Proof. vm_compute. done. Qed.

(** A file of 50 lines is not dispatched: no POST at all. *)
Example run_short_file :
  let w := Fixtures.demo_world (Fixtures.lines 50)
             (Fixtures.answers (py "y = 2")) (Ok tt) in
  count is_post (trace (run Fixtures.demo_agent w)) = 0%nat /\
  batch_of Fixtures.demo_agent w = [].
Proof. vm_compute. done. Qed.

(** A body of status 200 without candidates ends the loop at the first
    attempt. *)
Example refactor_no_candidates :
  let s : session := fun _ =>
    PostResponds {| status := 200; json := Ok (PDict []); text := Ok [] |} in
  count is_post
    (trace (refactor_file_content Fixtures.demo_agent (fun _ => s)
              (py "x = 1"))) = 1%nat /\
  outcome (refactor_file_content Fixtures.demo_agent (fun _ => s)
             (py "x = 1")) = Ok (py "x = 1").
Proof. vm_compute. done. Qed.

(* ===================================================================== *)
(** * Further properties                                                  *)
(* ===================================================================== *)

(** ** The transport helper and the adapters *)

Lemma make_request_outcome s url headers payload :
  count is_post (trace (_make_request s url headers payload)) = 1%nat /\
  outcome (_make_request s url headers payload)
  = Ok match s {| req_url := url; req_headers := headers;
                  req_json := payload |} with
       | PostResponds r =>
           if status r =? 200
           then match json r with Ok v => v | Raise _ => PNone end
           else PNone
       | PostRaises _ => PNone
       end.
Proof.
  unfold _make_request, post.
  destruct (s _) as [e|r]; [done|]. run_m.
  destruct (status r =? 200).
  - by destruct (json r).
  - by destruct (text r).
Qed.

(** X1. [_make_request] never raises and posts exactly once: it returns
    the parsed body when the POST answers status 200 and the body parses,
    and [None] in every other case (another status, a body that does not
    parse, an exception of the POST). *)
Theorem make_request_result s url headers payload :
  count is_post (trace (_make_request s url headers payload)) = 1%nat /\
  outcome (_make_request s url headers payload)
  = Ok match s {| req_url := url; req_headers := headers;
                  req_json := payload |} with
       | PostResponds r =>
           if status r =? 200
           then match json r with Ok v => v | Raise _ => PNone end
           else PNone
       | PostRaises _ => PNone
       end.
Proof.
  unfold _make_request, post.
  destruct (s _) as [e|r]; [done|]. run_m.
  destruct (status r =? 200).
  - by destruct (json r).
  - by destruct (text r).
Qed.

Lemma answers_with_gives s v :
  answers_with s v -> helper_gives s (eq v).
Proof.
  intros H url headers payload. exists v. split; [|done].
  destruct (make_request_outcome s url headers payload) as [_ ->].
  destruct (H {| req_url := url; req_headers := headers;
                 req_json := payload |}) as (r & -> & Hs & Hj).
  by rewrite Hs, Hj.
Qed.

(** A body in which the path [Key k :: First :: ...] leads somewhere
    passes the guard of the adapter. *)
Lemma guard_passes k path v x :
  follow (Key k :: First :: path) v = Ok x ->
  result_and_get v k = ([], Ok true).
Proof.
  simpl. destruct v as [| | | | |l|d]; try done. simpl.
  destruct (Py.assoc k d) as [top|] eqn:Hk; [|done].
  intros H. unfold result_and_get, Py.get. rewrite Hk. simpl.
  assert (Hd : Py.nonempty d = true) by (by destruct d).
  rewrite Hd. run_m.
  by destruct top as [| | | |[|c s]|[|y l]|d']; simpl in *.
Qed.

Lemma clean_value_str t : clean_value (PStr t) = ([], Ok (_clean_response t)).
Proof. reflexivity. Qed.

Ltac adapter_success H Hp :=
  cbv zeta;
  match goal with
  | |- outcome (_make_request ?s ?u ?h ?p ≫= _) = _ =>
      destruct (answers_with_gives _ _ H u h p) as (v' & Hv & <-);
      rewrite (bind_ok _ _ _ Hv), outcome_pair; cbv beta;
      rewrite (guard_passes _ _ _ _ Hp)
  end;
  rewrite (bind_ok ([], Ok true) _ true eq_refl), outcome_pair; cbv beta;
  simpl in Hp;
  repeat match type of Hp with
         | match ?g with Ok _ => _ | Raise _ => _ end = _ =>
             let x := fresh "x" in
             destruct g as [x|] eqn:?; [|discriminate Hp];
             rewrite (bind_ok (lift (Ok x)) _ x eq_refl), outcome_pair;
             cbv beta
         end;
  injection Hp as ->; by rewrite clean_value_str.

(** X2. Each adapter, on a body of status 200 in which the vendor's path
    leads to a text, returns that text cleaned by [_clean_response]:
    candidates/content/parts/text for Gemini, choices/message/content for
    OpenAI and DeepSeek, content/text for Anthropic. *)
Theorem adapters_extract_and_clean s v t file_content api_key :
  answers_with s v ->
  (follow gemini_path v = Ok (PStr t) ->
   outcome (refactor_with_gemini s file_content api_key)
   = Ok (_clean_response t)) /\
  (follow openai_path v = Ok (PStr t) ->
   outcome (refactor_with_openai s file_content api_key)
   = Ok (_clean_response t)) /\
  (follow anthropic_path v = Ok (PStr t) ->
   outcome (refactor_with_anthropic s file_content api_key)
   = Ok (_clean_response t)) /\
  (follow openai_path v = Ok (PStr t) ->
   outcome (refactor_with_deepseek s file_content api_key)
   = Ok (_clean_response t)).
Proof.
  intros H. split_and!; intros Hp.
  - unfold refactor_with_gemini. adapter_success H Hp.
  - unfold refactor_with_openai. adapter_success H Hp.
  - unfold refactor_with_anthropic. adapter_success H Hp.
  - unfold refactor_with_deepseek. adapter_success H Hp.
Qed.

Lemma adapters_extract_and_clean_witness :
  outcome (refactor_with_gemini
             (Fixtures.answers (py ("```python" +:+ nl +:+ "y = 2")))
             (py "x = 1") (py "key"))
  = Ok (_clean_response (py ("```python" +:+ nl +:+ "y = 2"))).
Proof.
  destruct (adapters_extract_and_clean
              (Fixtures.answers (py ("```python" +:+ nl +:+ "y = 2")))
              (Fixtures.candidates (py ("```python" +:+ nl +:+ "y = 2")))
              (py ("```python" +:+ nl +:+ "y = 2")) (py "x = 1") (py "key"))
    as (Hg & _).
  - intros req. eexists. repeat split.
  - apply Hg. reflexivity.
Defined.

(** A computation whose events all satisfy [False] has an empty trace. *)
Lemma silent_trace {A} (m : M A) :
  emits_only (fun _ => False) m -> trace m = [].
Proof.
  unfold emits_only. destruct (trace m) as [|e t]; [done|].
  intros H. inversion H as [|? ? Hfalse _]. destruct Hfalse.
Qed.

Lemma clean_value_silent v : emits_only (fun _ => False) (clean_value v).
Proof. unfold clean_value. only_auto. Qed.

Lemma guard_silent v k : emits_only (fun _ => False) (result_and_get v k).
Proof. unfold result_and_get. only_auto. Qed.

Lemma trace_bind_silent {A B} (m : M A) (k : A -> M B) :
  (forall a, emits_only (fun _ => False) (k a)) ->
  trace (m ≫= k) = trace m.
Proof.
  intros Hk. destruct (outcome m) as [a|e] eqn:Hm.
  - rewrite (bind_ok _ _ a Hm), trace_pair, (silent_trace _ (Hk a)).
    apply app_nil_r.
  - by rewrite (bind_raise _ _ e Hm).
Qed.

Ltac adapter_silent :=
  cbv zeta; rewrite trace_bind_silent; [reflexivity|];
  intros result; apply only_bind; [apply guard_silent|];
  intros [|]; [|apply only_ret];
  repeat (apply only_bind; [apply only_lift|intros ?]);
  first [apply clean_value_silent | apply only_ret].

(** X3. An adapter makes exactly one POST and never sleeps, whatever the
    session answers: the trace of an adapter is the trace of its one call
    of [_make_request]. The adapters of [llmprovider.py] do not retry. *)
Theorem adapters_post_once s file_content api_key :
  let once (m : M pystr) :=
    count is_post (trace m) = 1%nat /\ sleeps (trace m) = [] in
  once (refactor_with_gemini s file_content api_key) /\
  once (refactor_with_openai s file_content api_key) /\
  once (refactor_with_anthropic s file_content api_key) /\
  once (refactor_with_deepseek s file_content api_key).
Proof.
  assert (Hreq : forall url headers payload,
    count is_post (trace (_make_request s url headers payload)) = 1%nat /\
    sleeps (trace (_make_request s url headers payload)) = []).
  { intros url headers payload. unfold _make_request, post.
    destruct (s _) as [e|r]; [done|]. run_m.
    destruct (status r =? 200).
    - by destruct (json r).
    - by destruct (text r). }
  assert (exists u h p,
    trace (refactor_with_gemini s file_content api_key)
    = trace (_make_request s u h p)) as (u1 & h1 & p1 & H1)
    by (eexists _, _, _; unfold refactor_with_gemini; adapter_silent).
  assert (exists u h p,
    trace (refactor_with_openai s file_content api_key)
    = trace (_make_request s u h p)) as (u2 & h2 & p2 & H2)
    by (eexists _, _, _; unfold refactor_with_openai; adapter_silent).
  assert (exists u h p,
    trace (refactor_with_anthropic s file_content api_key)
    = trace (_make_request s u h p)) as (u3 & h3 & p3 & H3)
    by (eexists _, _, _; unfold refactor_with_anthropic; adapter_silent).
  assert (exists u h p,
    trace (refactor_with_deepseek s file_content api_key)
    = trace (_make_request s u h p)) as (u4 & h4 & p4 & H4)
    by (eexists _, _, _; unfold refactor_with_deepseek; adapter_silent).
  cbv beta zeta. rewrite H1, H2, H3, H4. split_and!; apply Hreq.
Qed.

(** ** More on the response cleanup *)

Lemma strip_head_solid s c rest : strip s = c :: rest -> isspace c = false.
Proof.
  unfold strip. destruct (lstrip_head s) as [->|(a & t & -> & Ha)]; [done|].
  rewrite (rstrip_cons_solid a t Ha). by intros [= <- _].
Qed.

Lemma strip_last_solid s init c : strip s = init ++ [c] -> isspace c = false.
Proof.
  unfold strip, rstrip. intros H.
  apply (f_equal (@rev N)) in H. rewrite rev_involutive, rev_app_distr in H.
  simpl in H.
  destruct (lstrip_head (rev (lstrip s))) as [E|(a & t & E & Ha)];
    rewrite E in H; [done|]. by injection H as -> _.
Qed.

Lemma lstrip_rstrip s : lstrip (rstrip s) = rstrip (lstrip s).
Proof.
  induction s as [|a s IH]; [done|]. simpl lstrip at 2.
  destruct (isspace a) eqn:Ha.
  - rewrite <- IH. change (a :: s) with ([a] ++ s).
    destruct (lstrip_head s) as [E|(c & t & E & Hc)].
    + assert (Hs : blank s).
      { clear -E. unfold blank.
        induction s as [|b s IHs]; simpl in *; [done|].
        destruct (isspace b); [by apply IHs|done]. }
      assert (Hall : blank ([a] ++ s)).
      { unfold blank in *. simpl. by rewrite Ha. }
      rewrite <- (app_nil_l ([a] ++ s)), <- (app_nil_l s).
      by rewrite !rstrip_app_blank.
    + assert (Hs : exists u, s = u ++ c :: t /\ blank u).
      { clear -E Hc. induction s as [|b s IHs]; simpl in *; [done|].
        destruct (isspace b) eqn:Hb.
        - destruct (IHs E) as (u & -> & Hu). exists (b :: u).
          split; [done|]. unfold blank. simpl. by rewrite Hb.
        - injection E as -> ->. by exists []. }
      destruct Hs as (u & -> & Hu).
      rewrite app_assoc, !rstrip_app_solid by done.
      rewrite <- app_assoc. simpl. rewrite Ha.
      rewrite lstrip_blank_app by done. simpl. by rewrite Hc.
  - rewrite (rstrip_cons_solid a s Ha). simpl. by rewrite Ha.
Qed.

Lemma strip_rstrip s : strip (rstrip s) = strip s.
Proof. unfold strip. by rewrite lstrip_rstrip, rstrip_idem. Qed.

(** X4. The cleaned text is never longer than the input, and it is
    trimmed: neither its first nor its last character is whitespace. *)
Theorem clean_result_trimmed x :
  (length (_clean_response x) <= length x)%nat /\
  (forall c rest, _clean_response x = c :: rest -> isspace c = false) /\
  (forall init c, _clean_response x = init ++ [c] -> isspace c = false).
Proof.
  split_and!.
  - unfold _clean_response.
    set (s1 := if startswith (strip x) FENCE_PYTHON
               then slice_from 9 (strip x) else x).
    assert (H1 : (length s1 <= length x)%nat).
    { unfold s1. destruct (startswith _ _); [|done].
      unfold slice_from. rewrite length_drop.
      pose proof (strip_length x). lia. }
    set (s2 := if endswith (strip s1) FENCE
               then slice_to_neg 3 (strip s1) else s1).
    assert (H2 : (length s2 <= length s1)%nat).
    { unfold s2. destruct (endswith _ _); [|done].
      unfold slice_to_neg. rewrite length_take.
      pose proof (strip_length s1). lia. }
    pose proof (strip_length s2). lia.
  - intros c rest. apply strip_head_solid.
  - intros init c. apply strip_last_solid.
Qed.

Lemma clean_result_trimmed_witness :
  (length (_clean_response (py (" x " +:+ nl)))
   <= length (py (" x " +:+ nl)))%nat /\
  isspace 120%N = false.
Proof.
  destruct (clean_result_trimmed (py (" x " +:+ nl)))
    as (Hlen & Hhead & _).
  split; [exact Hlen|]. apply (Hhead 120%N []). reflexivity.
Defined.

(** X5. A marker at one end only is removed alone. An opening
    [```python] with no closing marker after it: the rest comes back,
    trimmed. A closing [```] with no opening marker before it: what
    precedes comes back, trimmed. *)
Theorem clean_single_marker c :
  (endswith (strip c) FENCE = false ->
   _clean_response (FENCE_PYTHON ++ c) = strip c) /\
  (startswith (lstrip c ++ FENCE) FENCE_PYTHON = false ->
   _clean_response (c ++ FENCE) = strip c).
Proof.
  split.
  - intros Hf. unfold _clean_response.
    assert (Hs : strip (FENCE_PYTHON ++ c) = FENCE_PYTHON ++ rstrip c).
    { unfold strip.
      replace (lstrip (FENCE_PYTHON ++ c)) with (FENCE_PYTHON ++ c)
        by reflexivity.
      exact (rstrip_app_solid [96; 96; 96; 112; 121; 116; 104; 111]%N
               110%N c eq_refl). }
    rewrite Hs.
    assert (Hp : startswith (FENCE_PYTHON ++ rstrip c) FENCE_PYTHON = true).
    { apply bool_decide_eq_true. by exists (rstrip c). }
    rewrite Hp. unfold slice_from.
    change 9%nat with (length FENCE_PYTHON). rewrite drop_app_length.
    by rewrite strip_rstrip, Hf, strip_rstrip.
  - intros Hp. unfold _clean_response.
    rewrite strip_before_fence, Hp, strip_before_fence.
    assert (Hf : endswith (lstrip c ++ FENCE) FENCE = true).
    { apply bool_decide_eq_true. by exists (lstrip c). }
    rewrite Hf. unfold slice_to_neg.
    rewrite take_app_length' by (rewrite length_app; simpl; lia).
    apply strip_lstrip.
Qed.

Lemma clean_single_marker_witness :
  _clean_response (FENCE_PYTHON ++ py (nl +:+ "x = 1" +:+ nl))
    = strip (py (nl +:+ "x = 1" +:+ nl)) /\
  _clean_response (py ("x = 1" +:+ nl) ++ FENCE)
    = strip (py ("x = 1" +:+ nl)).
Proof.
  split.
  - destruct (clean_single_marker (py (nl +:+ "x = 1" +:+ nl))) as [H _].
    apply H. vm_compute. reflexivity.
  - destruct (clean_single_marker (py ("x = 1" +:+ nl))) as [_ H].
    apply H. vm_compute. reflexivity.
Defined.

(** ** More on the retry loop *)

Section RetryMore.

Variables (api_url : pystr) (headers : list (string * pystr))
  (payload : pyval) (file_content : pystr).

Let req : request :=
  {| req_url := api_url; req_headers := headers; req_json := payload |}.

Abbreviation step' s attempt :=
  (try_attempt s api_url headers payload file_content attempt).
Abbreviation loop' net attempts :=
  (attempts_loop net api_url headers payload file_content attempts).

(** A body in which the Gemini path leads to a text ends the loop with
    the text cleaned as [_clean_response] cleans it. *)
Lemma step_success s attempt r v t :
  s req = PostResponds r -> status r = 200 -> json r = Ok v ->
  follow gemini_path v = Ok (PStr t) ->
  step' s attempt = ([EvPost req], Ok (Return (_clean_response t))).
Proof.
  intros Hs Hst Hj Hp. unfold try_attempt, attempt_body, post. fold req.
  rewrite Hs. run_m. rewrite Hst, Hj. simpl Z.eqb. cbv iota.
  pose proof (guard_passes _ _ _ _ Hp) as Hg.
  unfold result_and_get in Hg.
  destruct (Py.truthy v); [|done].
  destruct (Py.get v "candidates") as [c|e]; [|done].
  assert (Hc : Py.truthy c = true) by (by injection Hg). rewrite Hc.
  simpl in Hp. cbv iota beta.
  repeat match type of Hp with
         | match ?g with Ok _ => _ | Raise _ => _ end = _ =>
             destruct g; [|discriminate Hp]
         end.
  injection Hp as ->. reflexivity.
Qed.

(** A body of status 200 whose [candidates] is missing or empty ends
    the loop with the original content. *)
Lemma step_no_candidates s attempt r v c :
  s req = PostResponds r -> status r = 200 -> json r = Ok v ->
  Py.get v "candidates" = Ok c -> Py.truthy c = false ->
  step' s attempt
  = ([EvPost req; EvLog WARNING "Gemini API returned no candidates."],
     Ok (Return file_content)).
Proof.
  intros Hs Hst Hj Hg Hc. unfold try_attempt, attempt_body, post. fold req.
  rewrite Hs. run_m. by rewrite Hst, Hj, Hg, Hc.
Qed.

(** The sleeps of one attempt: none, or the one of [2^attempt]. *)
Lemma step_sleeps s attempt :
  sleeps (trace (step' s attempt)) = []
  \/ sleeps (trace (step' s attempt)) = [2 ^ Z.of_nat attempt].
Proof.
  unfold try_attempt, attempt_body, post. fold req.
  destruct (s req) as [e|r]; [by right|]. run_m.
  destruct (status r =? 200); [|destruct (text r); [by left|by right]].
  destruct (json r) as [v|e]; [|by right]. simpl.
  destruct (Py.get v "candidates") as [c|e]; [|by right]. simpl.
  destruct (negb (Py.truthy c)); [by left|].
  repeat match goal with
         | |- context [match ?x with Ok _ => _ | Raise _ => _ end] =>
             destruct x; simpl; try (by right)
         end.
  by left.
Qed.

Lemma loop_cons net a attempts :
  loop' net (a :: attempts)
  = match outcome (step' (net a) a) with
    | Ok (Return v) => (trace (step' (net a) a), Ok v)
    | Ok Fallthrough =>
        (trace (step' (net a) a) ++ trace (loop' net attempts),
         outcome (loop' net attempts))
    | Raise e => (trace (step' (net a) a), Raise e)
    end.
Proof.
  cbn [attempts_loop].
  destruct (step' (net a) a) as [t [[v|]|e]] eqn:Hstep.
  - rewrite outcome_pair, trace_pair.
    rewrite (bind_ok (t, Ok (Return v)) _ (Return v) eq_refl).
    rewrite trace_pair. simpl. by rewrite app_nil_r.
  - rewrite outcome_pair, trace_pair.
    by rewrite (bind_ok (t, Ok Fallthrough) _ Fallthrough eq_refl).
  - done.
Qed.

(** However the transport behaves: at most one POST per attempt, at
    least one when there is an attempt, and only sleeps of
    [2^attempt], in the order of the attempts. *)
Lemma loop_bounds net attempts :
  (count is_post (trace (loop' net attempts)) <= length attempts)%nat /\
  (attempts <> [] ->
   (1 <= count is_post (trace (loop' net attempts)))%nat) /\
  sleeps (trace (loop' net attempts))
    `sublist_of` List.map (fun a => 2 ^ Z.of_nat a) attempts.
Proof.
  induction attempts as [|a attempts (IH1 & IH2 & IH3)].
  - split_and!; [reflexivity|done|reflexivity].
  - rewrite loop_cons.
    pose proof (step_posts_once api_url headers payload file_content
                  (net a) a) as Hp.
    pose proof (step_sleeps (net a) a) as Hsl.
    destruct (outcome (step' (net a) a)) as [[v|]|e];
      rewrite ?trace_pair, ?count_app, ?sleeps_app, Hp;
      (split_and!; [simpl; lia|intros _; lia|]).
    + destruct Hsl as [->| ->]; cbn [List.map].
      * apply sublist_nil_l.
      * apply sublist_skip, sublist_nil_l.
    + destruct Hsl as [->| ->]; cbn [List.map app].
      * by apply sublist_cons.
      * by apply sublist_skip.
    + destruct Hsl as [->| ->]; cbn [List.map].
      * apply sublist_nil_l.
      * apply sublist_skip, sublist_nil_l.
Qed.

End RetryMore.

Section RefactorMore.

Variables (self : agent) (net : nat -> session) (file_content : pystr).

Abbreviation call := (refactor_file_content self net file_content).

Ltac enter_loop :=
  unfold refactor_file_content; cbv zeta;
  rewrite (bind_ok _ _ tt) by done;
  change (seq 0 max_retries) with [0; 1; 2]%nat.

Ltac success_step H Hp :=
  rewrite loop_cons;
  match goal with
  | |- context [try_attempt (net ?a) ?u ?h ?p ?c ?a] =>
      let r := fresh "r" in
      destruct (H {| req_url := u; req_headers := h; req_json := p |})
        as (r & Hs & Hst & Hj);
      rewrite (step_success u h p c (net a) a r _ _ Hs Hst Hj Hp)
  end;
  rewrite outcome_pair, trace_pair; cbv iota beta.

(** X6. When the first [k] attempts raise and attempt [k] (with
    [k < 3]) answers a well-formed body, the call makes [k + 1] POSTs;
    each POST that raised is followed by its sleep, of [2^attempt], before
    the next POST, and nothing is slept after the POST that succeeds:
    POST, sleep 1, POST, sleep 2, POST when [k = 2]. The call returns the
    text cleaned exactly as [_clean_response] cleans it. *)
Theorem retry_recovers k v t :
  (k < 3)%nat ->
  (forall a req, (a < k)%nat -> exists e, net a req = PostRaises e) ->
  answers_with (net k) v ->
  follow gemini_path v = Ok (PStr t) ->
  schedule (trace call)
  = flat_map (fun a => [Posted; Slept (2 ^ Z.of_nat a)]) (seq 0 k)
      ++ [Posted] /\
  count is_post (trace call) = S k /\
  sleeps (trace call) = List.map (fun a => 2 ^ Z.of_nat a) (seq 0 k) /\
  outcome call = Ok (_clean_response t).
Proof.
  intros Hk H Hans Hp.
  destruct k as [|[|[|k]]]; [| | |lia]; enter_loop.
  - success_step Hans Hp. by rewrite trace_pair, outcome_pair.
  - rewrite loop_cons.
    match goal with
    | |- context [try_attempt (net ?a) ?u ?h ?p ?c ?a] =>
        destruct (H a {| req_url := u; req_headers := h; req_json := p |})
          as [e He]; [lia|];
        rewrite (step_raising u h p c (net a) a e He)
    end.
    rewrite outcome_pair, trace_pair. cbv iota beta.
    success_step Hans Hp. by rewrite trace_pair, outcome_pair.
  - rewrite loop_cons.
    match goal with
    | |- context [try_attempt (net 0%nat) ?u ?h ?p ?c 0%nat] =>
        destruct (H 0%nat
                    {| req_url := u; req_headers := h; req_json := p |})
          as [e0 He0]; [lia|];
        rewrite (step_raising u h p c (net 0%nat) 0%nat e0 He0)
    end.
    rewrite outcome_pair, trace_pair. cbv iota beta.
    rewrite loop_cons.
    match goal with
    | |- context [try_attempt (net 1%nat) ?u ?h ?p ?c 1%nat] =>
        destruct (H 1%nat
                    {| req_url := u; req_headers := h; req_json := p |})
          as [e1 He1]; [lia|];
        rewrite (step_raising u h p c (net 1%nat) 1%nat e1 He1)
    end.
    rewrite outcome_pair, trace_pair. cbv iota beta.
    success_step Hans Hp. by rewrite trace_pair, outcome_pair.
Qed.

(** X7. Whatever the transport does, the call does not raise, makes at
    least one POST and at most three, and sleeps only the delays 1, 2, 4
    in that order, each at most once. *)
Theorem refactor_bounded :
  (exists content, outcome call = Ok content) /\
  (1 <= count is_post (trace call) <= 3)%nat /\
  sleeps (trace call) `sublist_of` [1; 2; 4].
Proof.
  split; [apply refactor_total|].
  unfold refactor_file_content. cbv zeta.
  rewrite (bind_ok _ _ tt) by done. rewrite trace_pair.
  rewrite count_app, sleeps_app.
  match goal with
  | |- context [attempts_loop net ?u ?h ?p ?c ?l] =>
      destruct (loop_bounds u h p c net l) as (Hle & Hge & Hsub)
  end.
  change (length (seq 0 max_retries)) with 3%nat in Hle.
  specialize (Hge ltac:(done)).
  change (count is_post (trace (emit (EvCall m_refactor_file_content))))
    with 0%nat.
  change (sleeps (trace (emit (EvCall m_refactor_file_content))))
    with (@nil Z).
  split; [lia|]. exact Hsub.
Qed.

(** X8. When every transport interaction fails (the POST raises, the
    status is not 200, the body of a 200 does not parse or is null),
    the call makes exactly three POSTs, logs the final warning as its
    last event and returns the original content. *)
Theorem retries_exhausted :
  (forall attempt req, transport_fails (net attempt req)) ->
  count is_post (trace call) = 3%nat /\
  (exists before, trace call = before ++ [exhausted_warning]) /\
  outcome call = Ok file_content.
Proof.
  intros H. destruct (refactor_all_fail self net file_content H) as [Hp Ho].
  split_and!; [done| |done].
  unfold refactor_file_content. cbv zeta.
  rewrite (bind_ok _ _ tt) by done.
  rewrite loop_all_fall by (intros; by apply step_fails).
  rewrite !trace_pair. eexists. by rewrite app_assoc.
Qed.

(** X9. When every POST raises, the POSTs and the sleeps alternate:
    POST, sleep 1, POST, sleep 2, POST, sleep 4, each delay right after
    the attempt that raised and the last one after the third and final
    attempt; then the final warning is logged and the original content
    returned. *)
Theorem backoff_when_raising :
  (forall attempt req, exists e, net attempt req = PostRaises e) ->
  schedule (trace call)
  = [Posted; Slept 1; Posted; Slept 2; Posted; Slept 4] /\
  (exists before,
      trace call = before ++ [EvSleep 4; exhausted_warning]) /\
  sleeps (trace call) = [1; 2; 4] /\
  count is_post (trace call) = 3%nat /\
  outcome call = Ok file_content.
Proof.
  intros H.
  assert (Hf : forall attempt req, transport_fails (net attempt req)).
  { intros a r. destruct (H a r) as [e ->]. constructor. }
  enter_loop.
  rewrite loop_all_fall by (intros; by apply step_fails).
  rewrite !trace_pair, outcome_pair. cbn [concat List.map].
  repeat match goal with
         | |- context [try_attempt (net ?a) ?u ?h ?p ?c ?a] =>
             destruct (H a {| req_url := u; req_headers := h;
                              req_json := p |}) as [? He];
             rewrite (step_raising u h p c (net a) a _ He); clear He
         end.
  split_and!; try reflexivity.
  eexists ([_; _; _; _; _; _; _; _; _]). reflexivity.
Qed.

(** X10. A body of status 200 whose [candidates] is missing, null or
    empty ends the call at once: one POST, no sleep, no retry, and the
    original content is returned. *)
Theorem no_candidates_no_retry v c :
  answers_with (net 0%nat) v ->
  Py.get v "candidates" = Ok c -> Py.truthy c = false ->
  count is_post (trace call) = 1%nat /\
  sleeps (trace call) = [] /\
  outcome call = Ok file_content.
Proof.
  intros Hans Hg Hc. enter_loop. rewrite loop_cons.
  match goal with
  | |- context [try_attempt (net ?a) ?u ?h ?p ?c' ?a] =>
      destruct (Hans {| req_url := u; req_headers := h; req_json := p |})
        as (r & Hs & Hst & Hj);
      rewrite (step_no_candidates u h p c' (net a) a r _ _ Hs Hst Hj Hg Hc)
  end.
  by rewrite !outcome_pair, !trace_pair.
Qed.

End RefactorMore.

Lemma retry_recovers_witness :
  let net : nat -> session := fun a =>
    if (a =? 0)%nat then Fixtures.unreachable
    else Fixtures.answers (py "y = 2") in
  schedule
    (trace (refactor_file_content Fixtures.demo_agent net (py "x = 1")))
    = [Posted; Slept 1; Posted] /\
  count is_post
    (trace (refactor_file_content Fixtures.demo_agent net (py "x = 1")))
    = 2%nat /\
  sleeps (trace (refactor_file_content Fixtures.demo_agent net (py "x = 1")))
    = List.map (fun a => 2 ^ Z.of_nat a) (seq 0 1) /\
  outcome (refactor_file_content Fixtures.demo_agent net (py "x = 1"))
    = Ok (_clean_response (py "y = 2")).
Proof.
  intros net.
  apply (retry_recovers Fixtures.demo_agent net (py "x = 1") 1
           (Fixtures.candidates (py "y = 2")) (py "y = 2")).
  - lia.
  - intros a req Ha. exists ClientError.
    destruct a as [|a]; [reflexivity|lia].
  - intros req. eexists. repeat split.
  - reflexivity.
Defined.

Lemma retries_exhausted_witness :
  count is_post
    (trace (refactor_file_content Fixtures.demo_agent
              (fun _ => Fixtures.status_500) (py "x = 1"))) = 3%nat /\
  (exists before,
      trace (refactor_file_content Fixtures.demo_agent
               (fun _ => Fixtures.status_500) (py "x = 1"))
      = before ++ [exhausted_warning]) /\
  outcome (refactor_file_content Fixtures.demo_agent
             (fun _ => Fixtures.status_500) (py "x = 1")) = Ok (py "x = 1").
Proof.
  apply retries_exhausted. intros attempt req. apply fails_status.
  simpl. lia.
Defined.

Lemma backoff_when_raising_witness :
  schedule (trace (refactor_file_content Fixtures.demo_agent
                     (fun _ => Fixtures.unreachable) (py "x = 1")))
    = [Posted; Slept 1; Posted; Slept 2; Posted; Slept 4] /\
  (exists before,
      trace (refactor_file_content Fixtures.demo_agent
               (fun _ => Fixtures.unreachable) (py "x = 1"))
      = before ++ [EvSleep 4; exhausted_warning]) /\
  sleeps (trace (refactor_file_content Fixtures.demo_agent
                   (fun _ => Fixtures.unreachable) (py "x = 1")))
    = [1; 2; 4] /\
  count is_post
    (trace (refactor_file_content Fixtures.demo_agent
              (fun _ => Fixtures.unreachable) (py "x = 1"))) = 3%nat /\
  outcome (refactor_file_content Fixtures.demo_agent
             (fun _ => Fixtures.unreachable) (py "x = 1")) = Ok (py "x = 1").
Proof.
  apply backoff_when_raising. intros attempt req. by exists ClientError.
Defined.

Lemma no_candidates_no_retry_witness :
  let net : nat -> session := fun _ _ =>
    PostResponds {| status := 200;
                    json := Ok (PDict [("candidates", PList [])]);
                    text := Ok [] |} in
  count is_post
    (trace (refactor_file_content Fixtures.demo_agent net (py "x = 1")))
    = 1%nat /\
  sleeps (trace (refactor_file_content Fixtures.demo_agent net (py "x = 1")))
    = [] /\
  outcome (refactor_file_content Fixtures.demo_agent net (py "x = 1"))
    = Ok (py "x = 1").
Proof.
  intros net.
  apply (no_candidates_no_retry Fixtures.demo_agent net (py "x = 1")
           (PDict [("candidates", PList [])]) (PList [])).
  - intros req. eexists. repeat split.
  - reflexivity.
  - reflexivity.
Defined.

(** ** The filter stage and the directory walk *)

Lemma flag_files_outcome self w python_files :
  outcome (flag_files self w python_files)
  = Ok (List.map
          (fun file_path =>
             (file_path, Path.join (clone_path self) file_path))
          (List.filter (flagged self w) python_files)).
Proof.
  induction python_files as [|f fs IH]; [done|].
  cbn [flag_files]. cbv zeta.
  destruct (analyze_total self w (Path.join (clone_path self) f)
              DEFAULT_MIN_LINES) as [b Hb].
  rewrite (bind_ok _ _ b Hb), outcome_pair.
  rewrite (bind_ok _ _ _ IH), outcome_pair. cbn [List.filter].
  assert (Hflag : flagged self w f = b).
  { unfold flagged.
    destruct (read w (Path.join (clone_path self) f)) as [content|e] eqn:Hr.
    - rewrite (analyze_readable self w _ DEFAULT_MIN_LINES _ Hr) in Hb.
      injection Hb as <-. destruct (Z.gtb_spec (line_count content)
                                      DEFAULT_MIN_LINES).
      + by rewrite bool_decide_true by lia.
      + by rewrite bool_decide_false by lia.
    - rewrite (analyze_unreadable self w _ DEFAULT_MIN_LINES _ Hr) in Hb.
      by injection Hb as <-. }
  rewrite Hflag. by destruct b.
Qed.

(** X11. The filter stage of [run] keeps, in discovery order, exactly
    the files that can be read and have more than 50 lines, each paired
    with its path under the clone directory; an unreadable file is left
    out and does not stop the stage. *)
Theorem flag_files_filters self w python_files :
  outcome (flag_files self w python_files)
  = Ok (List.map
          (fun file_path =>
             (file_path, Path.join (clone_path self) file_path))
          (List.filter (flagged self w) python_files)).
Proof.
  induction python_files as [|f fs IH]; [done|].
  cbn [flag_files]. cbv zeta.
  destruct (analyze_total self w (Path.join (clone_path self) f)
              DEFAULT_MIN_LINES) as [b Hb].
  rewrite (bind_ok _ _ b Hb), outcome_pair.
  rewrite (bind_ok _ _ _ IH), outcome_pair. cbn [List.filter].
  assert (Hflag : flagged self w f = b).
  { unfold flagged.
    destruct (read w (Path.join (clone_path self) f)) as [content|e] eqn:Hr.
    - rewrite (analyze_readable self w _ DEFAULT_MIN_LINES _ Hr) in Hb.
      injection Hb as <-. destruct (Z.gtb_spec (line_count content)
                                      DEFAULT_MIN_LINES).
      + by rewrite bool_decide_true by lia.
      + by rewrite bool_decide_false by lia.
    - rewrite (analyze_unreadable self w _ DEFAULT_MIN_LINES _ Hr) in Hb.
      by injection Hb as <-. }
  rewrite Hflag. by destruct b.
Qed.

Lemma dirent_forall_ind (P : dirent -> Prop) :
  (forall name dirs files, Forall P dirs -> P (Dir name dirs files)) ->
  forall d, P d.
Proof.
  intros H. fix IH 1. intros [name dirs files]. apply H.
  induction dirs as [|d ds IHds]; constructor; [apply IH|exact IHds].
Qed.

Lemma walk_unfold rel name dirs files :
  walk rel (Dir name dirs files)
  = List.map (rel_join rel)
      (List.filter (fun file => Path.str_endswith file ".py") files)
    ++ below rel dirs.
Proof.
  cbn [walk]. f_equal. unfold below.
  induction dirs as [|[n ds fs] dirs IH]; [done|].
  cbn [flat_map dir_name]. by rewrite <- IH.
Qed.

Lemma chars_app a b : Path.chars (a +:+ b) = Path.chars a ++ Path.chars b.
Proof.
  unfold Path.chars. induction a as [|c a IH]; [done|].
  simpl. by rewrite IH.
Qed.

Lemma rel_join_endswith rel file suffix :
  Path.str_endswith file suffix = true ->
  Path.str_endswith (rel_join rel file) suffix = true.
Proof.
  unfold Path.str_endswith, rel_join. intros H%bool_decide_eq_true.
  apply bool_decide_eq_true. destruct (String.eqb rel ""); [done|].
  rewrite !chars_app. by do 2 apply suffix_app_r.
Qed.

(** X12. Every path [find_python_files] returns ends in [.py], at
    whatever depth the file was found. *)
Theorem walk_only_python d :
  forall rel p, p ∈ walk rel d -> Path.str_endswith p ".py" = true.
Proof.
  induction d as [name dirs files IH] using dirent_forall_ind.
  intros rel p. rewrite walk_unfold. intros [Hp|Hp]%elem_of_app.
  - apply list_elem_of_In, in_map_iff in Hp as (file & <- & Hfile).
    apply filter_In in Hfile as [_ Hpy]. by apply rel_join_endswith.
  - unfold below in Hp. apply list_elem_of_In, in_flat_map in Hp
      as (sub & Hsub & Hp).
    destruct (excluded_dir (dir_name sub)); [done|].
    rewrite Forall_forall in IH.
    apply list_elem_of_In in Hsub, Hp.
    exact (IH sub Hsub (rel_join rel (dir_name sub)) p Hp).
Qed.

Lemma walk_only_python_witness :
  Path.str_endswith "pkg/a.py" ".py" = true.
Proof.
  apply (walk_only_python
           (Dir "demo" [Dir "pkg" [] ["a.py"; "data.txt"]] ["README.md"])
           "" "pkg/a.py").
  vm_compute. by left.
Defined.

Lemma prune_unfold name dirs files :
  prune (Dir name dirs files)
  = Dir name
      (flat_map (fun sub => if excluded_dir (dir_name sub) then []
                            else [prune sub]) dirs)
      files.
Proof.
  cbn [prune]. f_equal.
  induction dirs as [|[n ds fs] dirs IH]; [done|].
  cbn [flat_map dir_name]. rewrite <- IH. by destruct (excluded_dir n).
Qed.

Lemma prune_name d : dir_name (prune d) = dir_name d.
Proof. by destruct d. Qed.

(** X13. The directories named [venv], [.venv], [env] and [.git] are
    never entered, at any depth: the walk of a tree finds exactly what
    the walk of the tree without those directories finds. *)
Theorem walk_skips_excluded d :
  forall rel, walk rel (prune d) = walk rel d.
Proof.
  induction d as [name dirs files IH] using dirent_forall_ind.
  intros rel. rewrite prune_unfold, !walk_unfold. f_equal.
  unfold below. induction IH as [|sub dirs Hsub _ IHdirs]; [done|].
  cbn [flat_map]. destruct (excluded_dir (dir_name sub)) eqn:Hex.
  - cbn [app]. exact IHdirs.
  - cbn [app flat_map]. rewrite prune_name, Hex, Hsub. by rewrite IHdirs.
Qed.

Lemma walk_skips_excluded_example :
  walk "" (Dir "demo" [Dir ".git" [Dir "hooks" [] ["pre.py"]] ["x.py"];
                       Dir "src" [Dir "venv" [] ["site.py"]] ["a.py"]]
             ["top.py"])
  = ["top.py"; "src/a.py"].
Proof. vm_compute. reflexivity. Qed.

(** ** Processing one file *)

(** X14. [process_file] never raises and always answers for the path it
    was given; when the file cannot be read, the answer is "no content"
    and no POST is made. *)
Theorem process_file_read_failure self w file_path absolute_path :
  (exists content,
      outcome (process_file self w file_path absolute_path)
      = Ok (file_path, content)) /\
  (forall e,
      read w absolute_path = Raise e ->
      outcome (process_file self w file_path absolute_path)
        = Ok (file_path, None) /\
      count is_post (trace (process_file self w file_path absolute_path))
        = 0%nat).
Proof.
  split.
  - rewrite process_file_outcome.
    destruct (read w absolute_path); [|by eexists].
    destruct (outcome _); [|by eexists]. case_bool_decide; by eexists.
  - intros e Hr. unfold process_file. run_m. by rewrite Hr.
Qed.

Lemma process_file_read_failure_witness :
  let w := Fixtures.demo_world (Fixtures.lines 51) Fixtures.unreachable
             (Ok tt) in
  outcome (process_file Fixtures.demo_agent w "gone.py" "/work/demo/gone.py")
    = Ok ("gone.py", None) /\
  count is_post
    (trace (process_file Fixtures.demo_agent w "gone.py"
              "/work/demo/gone.py")) = 0%nat.
Proof.
  intros w.
  destruct (process_file_read_failure Fixtures.demo_agent w "gone.py"
              "/work/demo/gone.py") as [_ H].
  apply (H OSError). reflexivity.
Defined.

(** ** Publishing *)

Lemma github_calls_app t1 t2 :
  github_calls (t1 ++ t2) = github_calls t1 ++ github_calls t2.
Proof.
  induction t1 as [|e t1 IH]; simpl; [done|]. destruct e; simpl; congruence.
Qed.

Lemma try_except_unit_ok (body : M unit) handler :
  (forall e, outcome (handler e) = Ok tt) ->
  outcome (try_except body Exception handler) = Ok tt.
Proof.
  intros H. destruct body as [t [[]|e]]; [done|]. simpl.
  specialize (H e). by destruct (handler e) as [t' r].
Qed.

Lemma create_pull_request_ok self w refactored_files :
  outcome (create_pull_request self w refactored_files) = Ok tt.
Proof.
  unfold create_pull_request.
  rewrite (bind_ok _ _ tt) by done. rewrite outcome_pair.
  destruct (negb (Py.nonempty refactored_files)); [done|].
  by apply try_except_unit_ok.
Qed.

Section Verdict.

(** A computation has reported how it ended: one message, the success
    message or an error, when it returned, and none yet while an
    exception is on its way to a handler. *)
Abbreviation reported m :=
  (Nat.add (count is_error_log (trace m))
     (count is_pull_created_log (trace m))
   = match outcome m with Ok _ => 1%nat | Raise _ => 0%nat end).

Abbreviation silent :=
  (fun e => is_error_log e = false /\ is_pull_created_log e = false).

Lemma silent_count {A} (m : M A) :
  emits_only silent m ->
  count is_error_log (trace m) = 0%nat /\
  count is_pull_created_log (trace m) = 0%nat.
Proof.
  unfold emits_only. intros H.
  split; apply count_none; eapply Forall_impl; try exact H; by intros e [].
Qed.

Lemma reported_bind {A} (m : M A) (k : A -> M unit) :
  emits_only silent m -> (forall a, reported (k a)) -> reported (m ≫= k).
Proof.
  intros Hm Hk. destruct (silent_count m Hm) as [He Hc].
  destruct (outcome m) as [a|e] eqn:Ho.
  - rewrite (bind_ok _ _ a Ho), trace_pair, outcome_pair, !count_app, He, Hc.
    apply Hk.
  - by rewrite (bind_raise _ _ e Ho), trace_pair, outcome_pair, He, Hc.
Qed.

Lemma reported_try_except (body : M unit) handles msg :
  reported body ->
  reported (try_except body handles (fun e => log ERROR msg)).
Proof.
  destruct body as [t [[]|e]]; [done|]. cbn [try_except trace outcome fst snd].
  intros H. destruct (handles e); [|done]. cbn [log emit trace outcome fst snd].
  rewrite !count_app. change (count is_error_log [EvLog ERROR msg]) with 1%nat.
  change (count is_pull_created_log [EvLog ERROR msg]) with 0%nat. lia.
Qed.

Lemma update_files_silent w items : emits_only silent (update_files w items).
Proof.
  induction items as [|[fp c] items IH]; [apply only_ret|].
  cbn [update_files]. unfold gh. only_auto.
Qed.

Lemma publishing_reported self w refactored_files :
  reported
    (try_except
       (try_except
          (gh w (GetRepo (repo_owner self +:+ "/" +:+ repo_name self));;
           gh w GetBranch;;
           try_except
             (gh w (GetGitRef ("heads/" +:+ NEW_BRANCH));;
              gh w RefDelete;;
              log INFO "Deleted existing branch")
             is_GithubException
             (fun e =>
                match e with
                | GithubException st => if st =? 404 then mret tt else raise e
                | _ => raise e
                end);;
           gh w (CreateGitRef ("refs/heads/" +:+ NEW_BRANCH));;
           log INFO "Created new branch";;
           update_files w refactored_files;;
           gh w (CreatePull NEW_BRANCH);;
           log INFO "Successfully created pull request")
          is_GithubException
          (fun e => log ERROR "GitHub API Error"))
       Exception
       (fun e =>
          log ERROR
            "An unexpected error occurred during pull request creation")).
Proof.
  do 2 apply reported_try_except.
  apply reported_bind; [unfold gh; only_auto|]. intros _.
  apply reported_bind; [unfold gh; only_auto|]. intros _.
  apply reported_bind; [unfold gh; only_auto|]. intros _.
  apply reported_bind; [unfold gh; only_auto|]. intros _.
  apply reported_bind; [only_auto|]. intros _.
  apply reported_bind; [apply update_files_silent|]. intros _.
  apply reported_bind; [unfold gh; only_auto|]. intros _.
  reflexivity.
Qed.

End Verdict.

(** X15. [create_pull_request] never raises, whatever the GitHub calls
    do: it always returns normally. With a batch that is not empty it
    reports the end of publishing with exactly one message: either the
    success message [Successfully created pull request], or one message
    of level ERROR, never both and never neither. With an empty batch it
    logs neither. *)
Theorem create_pull_request_never_raises self w refactored_files :
  outcome (create_pull_request self w refactored_files) = Ok tt /\
  (count is_error_log (trace (create_pull_request self w refactored_files))
   + count is_pull_created_log
       (trace (create_pull_request self w refactored_files)))%nat
  = (if Py.nonempty refactored_files then 1 else 0)%nat.
Proof.
  split.
  - unfold create_pull_request.
    rewrite (bind_ok _ _ tt) by done. rewrite outcome_pair.
    destruct (negb (Py.nonempty refactored_files)); [done|].
    by apply try_except_unit_ok.
  - unfold create_pull_request.
    rewrite (bind_ok _ _ tt) by done. rewrite trace_pair, !count_app.
    destruct (Py.nonempty refactored_files); cbn [negb]; [|reflexivity].
    change (count is_error_log (trace (emit (EvCall m_create_pull_request))))
      with 0%nat.
    change (count is_pull_created_log
              (trace (emit (EvCall m_create_pull_request)))) with 0%nat.
    cbn [Nat.add].
    rewrite (publishing_reported self w refactored_files).
    by rewrite try_except_unit_ok.
Qed.

Lemma update_files_ok w items :
  (forall p r, github w (GetContents p r) = Ok tt) ->
  (forall p m c b, github w (UpdateFile p m c b) = Ok tt) ->
  outcome (update_files w items) = Ok tt /\
  github_calls (trace (update_files w items)) = update_calls items.
Proof.
  intros Hg Hu. induction items as [|[fp c] items [IHo IHc]]; [done|].
  cbn [update_files]. unfold gh. rewrite Hg, Hu.
  rewrite (bind_ok (perform _ (Ok tt)) _ tt eq_refl).
  rewrite (bind_ok (perform _ (Ok tt)) _ tt eq_refl).
  rewrite (bind_ok (log _ _) _ tt eq_refl).
  rewrite !outcome_pair, !trace_pair. split; [done|].
  rewrite !github_calls_app, IHc. reflexivity.
Qed.

Lemma update_files_no_pull w items :
  emits_only (fun e => is_create_pull e = false) (update_files w items).
Proof.
  induction items as [|[fp c] items IH]; [apply only_ret|].
  cbn [update_files]. unfold gh. only_auto.
Qed.

Lemma update_files_fails w items file_path content e :
  (file_path, content) ∈ items ->
  github w (GetContents file_path NEW_BRANCH) = Raise e \/
  github w (UpdateFile file_path
              ("feat: AI-powered refactoring for "
               +:+ Path.basename file_path)
              content NEW_BRANCH) = Raise e ->
  exists e', outcome (update_files w items) = Raise e'.
Proof.
  intros Hin Hg. induction items as [|[fp c] items IH].
  - by apply elem_of_nil in Hin.
  - cbn [update_files]. unfold gh.
    destruct (github w (GetContents fp NEW_BRANCH)) as [[]|e1] eqn:H1;
      [|by eexists].
    rewrite (bind_ok (perform _ (Ok tt)) _ tt eq_refl), outcome_pair.
    destruct (github w (UpdateFile fp _ c NEW_BRANCH)) as [[]|e2] eqn:H2;
      [|by eexists].
    rewrite (bind_ok (perform _ (Ok tt)) _ tt eq_refl), outcome_pair.
    rewrite (bind_ok (log _ _) _ tt eq_refl), outcome_pair.
    apply elem_of_cons in Hin as [[= <- <-]|Hin]; [|by apply IH].
    destruct Hg; congruence.
Qed.

Lemma only_bind_raise (P : event -> Prop) {A B} (m : M A) (k : A -> M B) e :
  emits_only P m -> outcome m = Raise e -> emits_only P (m ≫= k).
Proof. intros Hm He. by rewrite (bind_raise _ _ e He). Qed.

(** X16. When every GitHub call succeeds and the batch is not empty,
    [create_pull_request] calls, in this order: the repository, its
    default branch, the lookup and the deletion of the old
    [ai-refactor-suggestions] ref, the creation of the new ref, then for
    each batch entry in batch order the blob lookup and the file update,
    and last the pull request. *)
Theorem publish_calls_in_order self w refactored_files :
  refactored_files <> [] ->
  (forall c, github w c = Ok tt) ->
  github_calls (trace (create_pull_request self w refactored_files))
  = [GetRepo (repo_owner self +:+ "/" +:+ repo_name self);
     GetBranch;
     GetGitRef ("heads/" +:+ NEW_BRANCH);
     RefDelete;
     CreateGitRef ("refs/heads/" +:+ NEW_BRANCH)]
    ++ update_calls refactored_files
    ++ [CreatePull NEW_BRANCH].
Proof.
  intros Hne Hall. unfold create_pull_request, gh.
  destruct refactored_files as [|item items]; [done|].
  destruct (update_files_ok w (item :: items)) as [Ho Hc]; [done|done|].
  rewrite !Hall.
  destruct (update_files w (item :: items)) as [t r].
  rewrite outcome_pair in Ho. rewrite trace_pair in Hc. subst r.
  run_m. cbn [negb Py.nonempty is_GithubException]. cbv iota beta.
  cbn [app github_calls]. rewrite github_calls_app, Hc. reflexivity.
Qed.

Lemma publish_calls_in_order_witness :
  let w := Fixtures.demo_world (Fixtures.lines 51) Fixtures.unreachable
             (Ok tt) in
  github_calls
    (trace (create_pull_request Fixtures.demo_agent w
              [("a.py", py "x"); ("b.py", py "y")]))
  = [GetRepo (repo_owner Fixtures.demo_agent +:+ "/"
              +:+ repo_name Fixtures.demo_agent);
     GetBranch;
     GetGitRef ("heads/" +:+ NEW_BRANCH);
     RefDelete;
     CreateGitRef ("refs/heads/" +:+ NEW_BRANCH)]
    ++ update_calls [("a.py", py "x"); ("b.py", py "y")]
    ++ [CreatePull NEW_BRANCH].
Proof.
  intros w. apply publish_calls_in_order; [discriminate|reflexivity].
Defined.

(** X17. A missing old branch is not an error: when the ref lookup
    raises a GitHub exception of status 404 and every other call
    succeeds, nothing is deleted, and the new ref, the file updates and
    the pull request follow as usual. *)
Theorem publish_tolerates_missing_branch self w refactored_files :
  refactored_files <> [] ->
  github w (GetGitRef ("heads/" +:+ NEW_BRANCH))
    = Raise (GithubException 404) ->
  (forall c, c <> GetGitRef ("heads/" +:+ NEW_BRANCH) ->
             github w c = Ok tt) ->
  github_calls (trace (create_pull_request self w refactored_files))
  = [GetRepo (repo_owner self +:+ "/" +:+ repo_name self);
     GetBranch;
     GetGitRef ("heads/" +:+ NEW_BRANCH);
     CreateGitRef ("refs/heads/" +:+ NEW_BRANCH)]
    ++ update_calls refactored_files
    ++ [CreatePull NEW_BRANCH].
Proof.
  intros Hne H404 Hall. unfold create_pull_request, gh.
  destruct refactored_files as [|item items]; [done|].
  destruct (update_files_ok w (item :: items)) as [Ho Hc];
    [intros; by apply Hall|intros; by apply Hall|].
  rewrite H404.
  rewrite (Hall (GetRepo _)), (Hall GetBranch), (Hall (CreateGitRef _)),
    (Hall (CreatePull _)) by done.
  destruct (update_files w (item :: items)) as [t r].
  rewrite outcome_pair in Ho. rewrite trace_pair in Hc. subst r.
  run_m. cbn [negb Py.nonempty is_GithubException Z.eqb Pos.eqb].
  cbv iota beta.
  cbn [app github_calls]. rewrite github_calls_app, Hc. reflexivity.
Qed.

(** X18. Any other failure of the ref lookup stops the publishing: when
    the repository and the branch are read and the lookup raises
    anything but a GitHub exception of status 404, no ref is created, no
    file is updated, no pull request is opened, and the method returns
    normally. *)
Theorem publish_stops_on_lookup_failure self w refactored_files e :
  refactored_files <> [] ->
  github w (GetRepo (repo_owner self +:+ "/" +:+ repo_name self)) = Ok tt ->
  github w GetBranch = Ok tt ->
  github w (GetGitRef ("heads/" +:+ NEW_BRANCH)) = Raise e ->
  e <> GithubException 404 ->
  github_calls (trace (create_pull_request self w refactored_files))
  = [GetRepo (repo_owner self +:+ "/" +:+ repo_name self);
     GetBranch;
     GetGitRef ("heads/" +:+ NEW_BRANCH)] /\
  outcome (create_pull_request self w refactored_files) = Ok tt.
Proof.
  intros Hne Hrepo Hbranch Href He.
  split; [|apply create_pull_request_ok].
  unfold create_pull_request, gh.
  destruct refactored_files as [|item items]; [done|].
  rewrite Hrepo, Hbranch, Href. run_m.
  cbn [negb Py.nonempty]. cbv iota beta.
  destruct e as [| | | | | | | | |st|]; try reflexivity.
  cbn [is_GithubException]. cbv iota.
  destruct (Z.eqb_spec st 404) as [->|Hst]; [done|reflexivity].
Qed.

(** X19. The pull request is opened only after every file was updated:
    when the blob lookup or the update of some batch entry raises,
    [create_pull] is never called. *)
Theorem no_pull_request_after_failed_update
    self w refactored_files file_path content e :
  (file_path, content) ∈ refactored_files ->
  github w (GetContents file_path NEW_BRANCH) = Raise e \/
  github w (UpdateFile file_path
              ("feat: AI-powered refactoring for "
               +:+ Path.basename file_path)
              content NEW_BRANCH) = Raise e ->
  count is_create_pull
    (trace (create_pull_request self w refactored_files)) = 0%nat.
Proof.
  intros Hin Hg. apply count_none.
  change (emits_only (fun e => is_create_pull e = false)
            (create_pull_request self w refactored_files)).
  destruct (update_files_fails w _ _ _ _ Hin Hg) as [e' He'].
  unfold create_pull_request, gh.
  apply only_bind; [by apply only_emit|]. intros _.
  destruct (negb _); [by apply only_emit|].
  apply only_try_except; [|intros ?; by apply only_emit].
  apply only_try_except; [|intros ?; by apply only_emit].
  apply only_bind; [by apply only_perform|]. intros _.
  apply only_bind; [by apply only_perform|]. intros _.
  apply only_bind; [only_auto|]. intros _.
  apply only_bind; [by apply only_perform|]. intros _.
  apply only_bind; [by apply only_emit|]. intros _.
  apply (only_bind_raise _ _ _ e'); [apply update_files_no_pull|done].
Qed.

Lemma publish_tolerates_missing_branch_witness :
  let w := Fixtures.with_github Fixtures.no_old_branch
             (Fixtures.demo_world [] Fixtures.unreachable (Ok tt)) in
  github_calls
    (trace (create_pull_request Fixtures.demo_agent w [("a.py", py "x")]))
  = [GetRepo (repo_owner Fixtures.demo_agent +:+ "/"
              +:+ repo_name Fixtures.demo_agent);
     GetBranch;
     GetGitRef ("heads/" +:+ NEW_BRANCH);
     CreateGitRef ("refs/heads/" +:+ NEW_BRANCH)]
    ++ update_calls [("a.py", py "x")]
    ++ [CreatePull NEW_BRANCH].
Proof.
  intros w. apply publish_tolerates_missing_branch.
  - discriminate.
  - reflexivity.
  - intros c Hc. destruct c as [| |ref| | | | |]; try reflexivity.
    simpl. destruct (String.eqb_spec ref "heads/ai-refactor-suggestions")
      as [->|Hne]; [by destruct Hc|reflexivity].
Defined.

Lemma publish_stops_on_lookup_failure_witness :
  let w := Fixtures.with_github Fixtures.broken_refs
             (Fixtures.demo_world [] Fixtures.unreachable (Ok tt)) in
  github_calls
    (trace (create_pull_request Fixtures.demo_agent w [("a.py", py "x")]))
  = [GetRepo (repo_owner Fixtures.demo_agent +:+ "/"
              +:+ repo_name Fixtures.demo_agent);
     GetBranch;
     GetGitRef ("heads/" +:+ NEW_BRANCH)] /\
  outcome (create_pull_request Fixtures.demo_agent w [("a.py", py "x")])
    = Ok tt.
Proof.
  intros w.
  apply (publish_stops_on_lookup_failure Fixtures.demo_agent w
           [("a.py", py "x")] (GithubException 500));
    try reflexivity; discriminate.
Defined.

Lemma no_pull_request_after_failed_update_witness :
  let w := Fixtures.with_github Fixtures.read_only
             (Fixtures.demo_world [] Fixtures.unreachable (Ok tt)) in
  count is_create_pull
    (trace (create_pull_request Fixtures.demo_agent w
              [("a.py", py "x"); ("b.py", py "y")])) = 0%nat.
Proof.
  intros w.
  apply (no_pull_request_after_failed_update Fixtures.demo_agent w
           [("a.py", py "x"); ("b.py", py "y")] "b.py" (py "y")
           (GithubException 403)).
  - right. left.
  - right. reflexivity.
Defined.

(** ** Cloning, cleaning up, and how a run ends *)

(** X20. [cleanup] removes the working copy only when it exists, and
    swallows the [OSError] of a failed removal: it raises exactly when
    the directory exists and its removal raises something that is not an
    [OSError]. *)
Theorem cleanup_swallows_os_errors self w :
  (exists_after w = false ->
   count is_rmtree (trace (cleanup self w)) = 0%nat) /\
  (forall e,
      outcome (cleanup self w) = Raise e <->
      exists_after w = true /\ rmtree_after w = Raise e /\ e <> OSError).
Proof.
  unfold cleanup. run_m. split.
  - by intros ->.
  - intros e. destruct (exists_after w); [|by split; [|intros (? & _)]].
    destruct (rmtree_after w) as [[]|e'].
    + split; [done|by intros (_ & ? & _)].
    + destruct e'; simpl; (split; [intros [= <-]|intros (_ & [= <-] & ?)]);
        done.
Qed.

(** X21. [clone_repository] removes a working copy left by an earlier
    run before it clones, and does not clone when that removal fails;
    otherwise git is run once and the method ends as git ends (a failed
    clone is re-raised). *)
Theorem clone_removes_stale_copy_first self w :
  outcome (clone_repository self w)
  = (if exists_before w
     then match rmtree_before w with
          | Ok _ => git_clone w
          | Raise e => Raise e
          end
     else git_clone w) /\
  List.filter (fun e => is_rmtree e || is_git_clone e)
    (trace (clone_repository self w))
  = (if exists_before w
     then match rmtree_before w with
          | Ok _ => [EvRmtree (clone_path self);
                     EvGitClone (repo_url self) (clone_path self)]
          | Raise _ => [EvRmtree (clone_path self)]
          end
     else [EvGitClone (repo_url self) (clone_path self)]).
Proof.
  unfold clone_repository. run_m.
  destruct (exists_before w).
  - destruct (rmtree_before w) as [[]|e]; [|done].
    destruct (git_clone w) as [[]|e]; [done|]. by destruct e.
  - destruct (git_clone w) as [[]|e]; [done|]. by destruct e.
Qed.

(** X22. A run ends as its clone step ends, provided the cleanup does
    not raise: normally when the clone succeeds, whatever then happens to
    the files, the network and GitHub, and with the clone's exception
    when it fails. When the cleanup raises, the run raises that
    exception. *)
Theorem run_ends_as_clone_ends self w :
  outcome (run self w)
  = match outcome (cleanup self w) with
    | Ok _ => outcome (clone_repository self w)
    | Raise e => Raise e
    end.
Proof.
  assert (Hbody : outcome (run_body self w)
                  = outcome (clone_repository self w)).
  { destruct (outcome (clone_repository self w)) as [[]|e] eqn:Hc.
    - rewrite (run_body_staged self w Hc), outcome_pair. unfold publish.
      destruct (Py.nonempty _); [|done].
      apply create_pull_request_ok.
    - by rewrite (run_body_clone_fails self w e Hc). }
  rewrite <- Hbody. unfold run, try_finally.
  destruct (run_body self w) as [t r], (cleanup self w) as [t' [[]|e]];
    reflexivity.
Qed.

Lemma cleanup_swallows_os_errors_witness :
  let w := {| exists_before := false; rmtree_before := Ok tt;
              git_clone := Raise CalledProcessError;
              tree := Dir "demo" [] [];
              read := fun _ => Raise OSError;
              http := fun _ _ => Fixtures.unreachable;
              github := fun _ => Ok tt;
              exists_after := false; rmtree_after := Raise OSError |} in
  count is_rmtree (trace (cleanup Fixtures.demo_agent w)) = 0%nat.
Proof.
  intros w.
  destruct (cleanup_swallows_os_errors Fixtures.demo_agent w) as [H _].
  apply H. reflexivity.
Defined.

(** ** Counting the dispatch *)

Lemma mapM_trace {A B} (f : A -> M B) l :
  (forall a, total (f a)) ->
  trace (mapM f l) = concat (List.map (fun a => trace (f a)) l).
Proof.
  intros Hf. induction l as [|x l IH]; [done|]. cbn [mapM List.map concat].
  destruct (Hf x) as [y Hy]. rewrite (bind_ok _ _ y Hy), trace_pair.
  destruct (mapM_total f l Hf) as [ys Hys].
  rewrite (bind_ok _ _ ys Hys), trace_pair, IH.
  change (trace (mret (y :: ys))) with (@nil event). by rewrite app_nil_r.
Qed.

Lemma count_concat_const p (ts : list (list event)) n :
  Forall (fun t => count p t = n) ts ->
  count p (concat ts) = (length ts * n)%nat.
Proof.
  induction 1 as [|t ts Ht _ IH]; [done|].
  cbn [concat length]. rewrite count_app, Ht, IH. lia.
Qed.

(** After its entry event, a method body that emits nothing matching
    [p] leaves exactly the entry in the count. *)
Lemma count_entry p ev {A} (rest : M A) :
  emits_only (fun e => p e = false) rest ->
  count p (trace (emit ev;; rest)) = count p [ev].
Proof.
  intros H. rewrite (bind_ok (emit ev) _ tt eq_refl), trace_pair, count_app.
  rewrite (count_none p (trace rest)) by done.
  change (trace (emit ev)) with [ev]. lia.
Qed.

Lemma process_file_calls self w file_path absolute_path :
  count (is_call m_process_file)
    (trace (process_file self w file_path absolute_path)) = 1%nat.
Proof.
  unfold process_file. rewrite count_entry; [done|].
  apply only_bind; [by apply only_emit|]. intros _.
  apply only_try_except; [|intros e; only_auto].
  apply only_bind; [by apply only_perform|]. intros original.
  apply only_bind; [|intros r; only_auto].
  apply refactor_emits; [by intros []|done].
Qed.

Lemma analyze_calls self w file_path min_lines :
  count (is_call m_analyze_for_code_smells)
    (trace (analyze_for_code_smells self w file_path min_lines)) = 1%nat.
Proof.
  unfold analyze_for_code_smells. rewrite count_entry; [done|]. only_auto.
Qed.

Lemma flag_files_calls self w python_files :
  count (is_call m_analyze_for_code_smells)
    (trace (flag_files self w python_files)) = length python_files.
Proof.
  induction python_files as [|f fs IH]; [done|].
  cbn [flag_files]. cbv zeta.
  destruct (analyze_total self w (Path.join (clone_path self) f)
              DEFAULT_MIN_LINES) as [b Hb].
  rewrite (bind_ok _ _ b Hb), trace_pair, count_app, analyze_calls.
  destruct (flag_files_total self w fs) as [ts Hts].
  rewrite (bind_ok _ _ ts Hts), trace_pair, count_app, IH.
  cbn [length]. change (count _ (trace (mret _))) with 0%nat. lia.
Qed.

Lemma create_pull_request_calls self w refactored_files :
  count (is_call m_create_pull_request)
    (trace (create_pull_request self w refactored_files)) = 1%nat.
Proof.
  unfold create_pull_request, gh. rewrite count_entry; [done|].
  destruct (negb _); [by apply only_emit|].
  apply only_try_except; [|intros ?; by apply only_emit].
  apply only_try_except; [|intros ?; by apply only_emit].
  repeat (apply only_bind; [|intros ?]); try (by only_auto).
  apply update_files_emits; [by intros []|done].
Qed.

(** X23. With a successful clone, the smell test is entered once for
    every discovered file and [process_file] once for every flagged
    file, no more and no less. *)
Theorem run_dispatches_each_flagged_file_once self w :
  outcome (clone_repository self w) = Ok tt ->
  count (is_call m_analyze_for_code_smells) (trace (run self w))
    = length (walk "" (tree w)) /\
  count (is_call m_process_file) (trace (run self w))
    = length (List.filter (flagged self w) (walk "" (tree w))).
Proof.
  intros Hc. unfold run. rewrite try_finally_trace.
  rewrite (run_body_staged self w Hc), trace_pair, !count_app.
  assert (Htasks : tasks_of self w
                   = List.map
                       (fun fp => (fp, Path.join (clone_path self) fp))
                       (List.filter (flagged self w) (walk "" (tree w)))).
  { unfold tasks_of. by rewrite flag_files_outcome. }
  split.
  - rewrite flag_files_calls.
    rewrite !(count_none (is_call m_analyze_for_code_smells)); [lia| | | | |].
    + apply (cleanup_emits (fun e => _ e = false)); [by intros []|done].
    + unfold publish. destruct (Py.nonempty _); [|apply only_ret].
      apply (create_pull_request_emits (fun e => _ e = false));
        [by intros []|done|done].
    + apply (gather_emits (fun e => _ e = false)); [by intros []|done|done].
    + apply (find_emits (fun e => _ e = false)); [by intros []|done].
    + apply (clone_emits (fun e => _ e = false)); [by intros []|done].
  - unfold gather at 1.
    rewrite mapM_trace by (intros [fp ap]; apply process_file_total).
    rewrite (count_concat_const _ _ 1).
    2:{ apply Forall_forall. intros t [[fp ap] [<- _]]%list_elem_of_In%in_map_iff.
        apply process_file_calls. }
    rewrite length_map, Htasks, length_map.
    rewrite !(count_none (is_call m_process_file)); [lia| | | | |].
    + apply (cleanup_emits (fun e => _ e = false)); [by intros []|done].
    + unfold publish. destruct (Py.nonempty _); [|apply only_ret].
      apply (create_pull_request_emits (fun e => _ e = false));
        [by intros []|done|done].
    + apply (flag_files_emits (fun e => _ e = false)); [by intros []|done].
    + apply (find_emits (fun e => _ e = false)); [by intros []|done].
    + apply (clone_emits (fun e => _ e = false)); [by intros []|done].
Qed.

Lemma run_dispatches_each_flagged_file_once_witness :
  let w := Fixtures.demo_world (Fixtures.lines 51) Fixtures.unreachable
             (Ok tt) in
  count (is_call m_analyze_for_code_smells)
    (trace (run Fixtures.demo_agent w)) = length (walk "" (tree w)) /\
  count (is_call m_process_file) (trace (run Fixtures.demo_agent w))
    = length (List.filter (flagged Fixtures.demo_agent w)
                (walk "" (tree w))).
Proof.
  intros w. apply run_dispatches_each_flagged_file_once. reflexivity.
Defined.

(** ** The batch as a dict *)

Lemma setitem_keys {V} (k : string) (v : V) d :
  List.map fst (Py.setitem k v d) = List.map fst d \/
  ((k ∉ List.map fst d) /\
   List.map fst (Py.setitem k v d) = List.map fst d ++ [k]).
Proof.
  induction d as [|[k' v'] d IH].
  - right. split; [apply not_elem_of_nil|done].
  - cbn [Py.setitem]. destruct (String.eqb_spec k k') as [->|Hne];
      [by left|].
    cbn [List.map fst].
    destruct IH as [->|[Hk ->]]; [by left|]. right. split; [|done].
    by intros [?|?]%elem_of_cons.
Qed.

Lemma setitem_nodup {V} (k : string) (v : V) d :
  NoDup (List.map fst d) -> NoDup (List.map fst (Py.setitem k v d)).
Proof.
  intros Hd. destruct (setitem_keys k v d) as [->|[Hk ->]]; [done|].
  apply NoDup_app. split_and!; [done| |apply NoDup_singleton].
  intros x Hx ->%list_elem_of_singleton. done.
Qed.

Lemma collect_nodup results : NoDup (List.map fst (collect results)).
Proof.
  unfold collect.
  enough (forall acc, NoDup (List.map fst acc) ->
    NoDup (List.map fst (fold_left
      (fun refactored_files '(file_path, refactored_content) =>
         match refactored_content with
         | Some c =>
             if content_truthy refactored_content
             then Py.setitem file_path c refactored_files
             else refactored_files
         | None => refactored_files
         end) results acc))) as H by (apply H; constructor).
  induction results as [|[fp [c|]] results IH]; intros acc Hacc; simpl;
    [done| |by apply IH].
  apply IH. destruct c; simpl; [done|]. by apply setitem_nodup.
Qed.

(** X24. The batch is a dict: no path occurs twice in it; and every
    path in it is a discovered file that passed the smell test. *)
Theorem batch_keys_are_flagged_files self w :
  NoDup (List.map fst (batch_of self w)) /\
  (forall p c,
      (p, c) ∈ batch_of self w ->
      p ∈ List.filter (flagged self w) (walk "" (tree w))).
Proof.
  split; [apply collect_nodup|].
  intros p c [Hin _]%collect_elem.
  pose proof (total_ok [] _ (gather_total self w (tasks_of self w))) as Hg.
  fold (results_of self w) in Hg. apply mapM_ok in Hg.
  destruct (Forall2_elem_r _ _ _ _ Hg Hin) as ([fp ap] & Htask & Hp).
  apply process_file_some in Hp as (-> & _).
  unfold tasks_of in Htask. rewrite flag_files_outcome in Htask.
  apply list_elem_of_In, in_map_iff in Htask as (f & [= <- _] & Hf).
  by apply list_elem_of_In.
Qed.

Lemma batch_keys_are_flagged_files_witness :
  let w := Fixtures.demo_world (Fixtures.lines 51)
             (Fixtures.answers (py "y = 2")) (Ok tt) in
  "big.py" ∈ List.filter (flagged Fixtures.demo_agent w) (walk "" (tree w)).
Proof.
  intros w.
  destruct (batch_keys_are_flagged_files Fixtures.demo_agent w) as [_ H].
  apply (H "big.py" (py "y = 2")). vm_compute. by left.
Defined.

Lemma head_app_some {A} (l r : list A) x :
  head l = Some x -> head (l ++ r) = Some x.
Proof. by destruct l. Qed.

Lemma head_calls_bind {A B} (m : M A) (k : A -> M B) c :
  head (github_calls (trace m)) = Some c ->
  head (github_calls (trace (m ≫= k))) = Some c.
Proof.
  destruct m as [t [a|e]]; [|done]. unfold mbind, M_bind.
  destruct (k a) as [t' r]. rewrite !trace_pair, github_calls_app.
  by destruct (github_calls t).
Qed.

Lemma head_calls_try {A} (body : M A) handles handler c :
  head (github_calls (trace body)) = Some c ->
  head (github_calls (trace (try_except body handles handler))) = Some c.
Proof.
  destruct body as [t [a|e]]; [done|]. simpl.
  destruct (handles e); [|done]. destruct (handler e) as [t' r].
  rewrite !trace_pair, github_calls_app. by destruct (github_calls t).
Qed.

(** X25. With a successful clone and a batch that is not empty,
    [create_pull_request] is entered exactly once, and the repository is
    the first thing asked of GitHub. *)
Theorem nonempty_batch_is_published self w :
  outcome (clone_repository self w) = Ok tt ->
  batch_of self w <> [] ->
  count (is_call m_create_pull_request) (trace (run self w)) = 1%nat /\
  head (github_calls (trace (run self w)))
    = Some (GetRepo (repo_owner self +:+ "/" +:+ repo_name self)).
Proof.
  intros Hc Hb. unfold run. rewrite try_finally_trace.
  rewrite (run_body_staged self w Hc), trace_pair.
  assert (Hpub : publish self w
                 = create_pull_request self w (batch_of self w)).
  { unfold publish. by destruct (batch_of self w). }
  rewrite Hpub. split.
  - rewrite !count_app, create_pull_request_calls.
    rewrite !(count_none (is_call m_create_pull_request)); [lia| | | | |].
    + apply (cleanup_emits (fun e => _ e = false)); [by intros []|done].
    + apply (gather_emits (fun e => _ e = false)); [by intros []|done|done].
    + apply (flag_files_emits (fun e => _ e = false)); [by intros []|done].
    + apply (find_emits (fun e => _ e = false)); [by intros []|done].
    + apply (clone_emits (fun e => _ e = false)); [by intros []|done].
  - assert (Hquiet : forall {A} (m : M A),
              emits_only (fun e => is_github e = false) m ->
              github_calls (trace m) = []).
    { intros A m. unfold emits_only.
      induction 1 as [|e t He _ IH]; [done|]. by destruct e. }
    rewrite !github_calls_app.
    rewrite (Hquiet _ (clone_repository self w)),
      (Hquiet _ (find_python_files self w)),
      (Hquiet _ (flag_files self w _)), (Hquiet _ (gather self w _)).
    + unfold create_pull_request, gh.
      destruct (batch_of self w) as [|item items]; [done|].
      rewrite (bind_ok (emit _) _ tt eq_refl), trace_pair.
      rewrite github_calls_app. cbn [negb Py.nonempty app]. cbv iota.
      change (github_calls (trace (emit (EvCall m_create_pull_request))))
        with (@nil gh_call). cbn [app].
      apply head_app_some.
      by apply head_calls_try, head_calls_try, head_calls_bind.
    + apply (gather_emits (fun e => _ e = false)); [by intros []|done|done].
    + apply (flag_files_emits (fun e => _ e = false)); [by intros []|done].
    + apply (find_emits (fun e => _ e = false)); [by intros []|done].
    + apply (clone_emits (fun e => _ e = false)); [by intros []|done].
Qed.

Lemma nonempty_batch_is_published_witness :
  let w := Fixtures.demo_world (Fixtures.lines 51)
             (Fixtures.answers (py "y = 2")) (Ok tt) in
  count (is_call m_create_pull_request) (trace (run Fixtures.demo_agent w))
    = 1%nat /\
  head (github_calls (trace (run Fixtures.demo_agent w)))
    = Some (GetRepo (repo_owner Fixtures.demo_agent +:+ "/"
                     +:+ repo_name Fixtures.demo_agent)).
Proof.
  intros w. apply nonempty_batch_is_published.
  - reflexivity.
  - vm_compute. discriminate.
Defined.

(** ** The constructor *)

Lemma split_slash_length s :
  length (Str.split_slash s) = S (slashes s).
Proof.
  induction s as [|c s IH]; [done|]. simpl.
  destruct (Ascii.eqb c "/"); simpl; [by rewrite IH|].
  destruct (Str.split_slash s); simpl in *; [done|lia].
Qed.

Lemma split_slash_app a b :
  Str.split_slash (a +:+ "/" +:+ b) = Str.split_slash a ++ Str.split_slash b.
Proof.
  induction a as [|c a IH]; [done|].
  change (String c a +:+ "/" +:+ b) with (String c (a +:+ "/" +:+ b)).
  cbn [Str.split_slash]. rewrite IH.
  destruct (Ascii.eqb c "/"); [done|].
  pose proof (split_slash_length a) as Hlen.
  by destruct (Str.split_slash a).
Qed.

Lemma split_slash_whole s : slashes s = 0%nat -> Str.split_slash s = [s].
Proof.
  induction s as [|c s IH]; [done|]. simpl.
  destruct (Ascii.eqb c "/"); [done|]. intros H. by rewrite IH.
Qed.

Lemma from_end_last {A} (l : list A) x y :
  Str.from_end 1 (l ++ [x; y]) = Some y /\
  Str.from_end 2 (l ++ [x; y]) = Some x.
Proof.
  unfold Str.from_end. rewrite length_app. simpl length.
  replace (length l + 2 <? 1)%nat with false
    by (symmetry; apply Nat.ltb_ge; lia).
  replace (length l + 2 <? 2)%nat with false
    by (symmetry; apply Nat.ltb_ge; lia).
  split.
  - rewrite lookup_app_r by lia.
    by replace (length l + 2 - 1 - length l)%nat with 1%nat by lia.
  - rewrite lookup_app_r by lia.
    by replace (length l + 2 - 2 - length l)%nat with 0%nat by lia.
Qed.

(** X26. The constructor raises [ValueError] exactly when one of its
    three arguments is empty; otherwise it raises [IndexError] exactly
    when the URL has no slash, and in every other case it builds the
    agent. *)
Theorem init_validates cwd repo_url github_token gemini_api_key :
  (__init__ cwd repo_url github_token gemini_api_key = RaisesValueError <->
   repo_url = "" \/ github_token = "" \/ gemini_api_key = []) /\
  (__init__ cwd repo_url github_token gemini_api_key = RaisesIndexError <->
   repo_url <> "" /\ github_token <> "" /\ gemini_api_key <> [] /\
   slashes repo_url = 0%nat).
Proof.
  unfold __init__, Str.from_end.
  pose proof (split_slash_length repo_url) as Hlen.
  assert (Hkey : gemini_api_key = [] \/ gemini_api_key <> [])
    by (destruct gemini_api_key; [by left|by right]).
  destruct repo_url as [|c url]; [split; split; [by left|done|done|tauto]|].
  destruct github_token as [|c' token];
    [split; split; [by right; left|done|done|tauto]|].
  destruct gemini_api_key as [|n key];
    [split; split; [by right; right|done|done|tauto]|].
  cbn [Str.nonempty_str Py.nonempty andb negb]. cbv iota.
  rewrite Hlen.
  replace (S (slashes (String c url)) <? 1)%nat with false
    by (symmetry; apply Nat.ltb_ge; lia).
  destruct (lookup_lt_is_Some_2 (Str.split_slash (String c url))
              (S (slashes (String c url)) - 1)%nat) as [piece Hpiece];
    [lia|].
  rewrite Hpiece.
  destruct (slashes (String c url)) as [|k] eqn:Hs.
  - split; split; intros H; try done;
      first [by destruct H as [?|[?|?]] | by repeat split].
  - replace (S (S k) <? 2)%nat with false
      by (symmetry; apply Nat.ltb_ge; lia).
    destruct (lookup_lt_is_Some_2 (Str.split_slash (String c url))
                (S (S k) - 2)%nat) as [owner Howner]; [lia|].
    rewrite Howner. split; split; intros H; try done;
      first [by destruct H as [?|[?|?]] | by destruct H as (_ & _ & _ & ?)].
Qed.

Lemma init_validates_witness :
  __init__ "/work" "" "token" (py "key") = RaisesValueError /\
  __init__ "/work" "demo" "token" (py "key") = RaisesIndexError.
Proof.
  split.
  - apply init_validates. by left.
  - apply init_validates. repeat split; discriminate.
Defined.

Lemma slashes_app a b : slashes (a +:+ b) = (slashes a + slashes b)%nat.
Proof.
  induction a as [|c a IH]; [done|]. simpl.
  destruct (Ascii.eqb c "/"); simpl; by rewrite IH.
Qed.

Lemma is_dot_git_spec c1 c2 c3 c4 :
  Str.is_dot_git c1 c2 c3 c4 = true ->
  c1 = "."%char /\ c2 = "g"%char /\ c3 = "i"%char /\ c4 = "t"%char.
Proof.
  unfold Str.is_dot_git.
  intros [[[H1 H2]%andb_prop H3]%andb_prop H4]%andb_prop.
  by apply Ascii.eqb_eq in H1, H2, H3, H4.
Qed.

(** [replace] removes an occurrence of [.git] wherever it stands; what
    precedes the first occurrence is kept as it is. *)
Lemma remove_dot_git_first a b :
  has_dot_git a = false ->
  Str.remove_dot_git (a +:+ ".git" +:+ b) = a +:+ Str.remove_dot_git b.
Proof.
  induction a as [|c1 a IH]; [done|]. intros H.
  cbn [has_dot_git] in H. apply orb_false_elim in H as [Hhere Hrest].
  change (String c1 a +:+ ".git" +:+ b)
    with (String c1 (a +:+ ".git" +:+ b)).
  change (String c1 a +:+ Str.remove_dot_git b)
    with (String c1 (a +:+ Str.remove_dot_git b)).
  rewrite <- (IH Hrest). cbn [Str.remove_dot_git].
  destruct a as [|c2 [|c3 [|c4 a]]].
  - change ("" +:+ ".git" +:+ b) with (String "." (String "g" (String "i"
      (String "t" b)))).
    cbv iota. unfold Str.is_dot_git.
    by rewrite !andb_false_r.
  - change (String c2 "" +:+ ".git" +:+ b)
      with (String c2 (String "." (String "g" (String "i" (String "t" b))))).
    cbv iota. unfold Str.is_dot_git at 1.
    replace (Ascii.eqb "." "i") with false by reflexivity.
    by rewrite andb_false_r.
  - change (String c2 (String c3 "") +:+ ".git" +:+ b)
      with (String c2 (String c3 (String "." (String "g" (String "i"
              (String "t" b)))))).
    cbv iota. unfold Str.is_dot_git at 1.
    replace (Ascii.eqb "." "t") with false by reflexivity.
    by rewrite andb_false_r.
  - change (String c2 (String c3 (String c4 a)) +:+ ".git" +:+ b)
      with (String c2 (String c3 (String c4 (a +:+ ".git" +:+ b)))).
    cbv iota. by rewrite Hhere.
Qed.

(** A name in which [.git] does not occur is left as it is. *)
Lemma remove_dot_git_none s :
  has_dot_git s = false -> Str.remove_dot_git s = s.
Proof.
  induction s as [|c1 s IH]; [done|]. intros H.
  cbn [has_dot_git] in H. apply orb_false_elim in H as [Hhere Hrest].
  cbn [Str.remove_dot_git]. rewrite (IH Hrest).
  destruct s as [|c2 [|c3 [|c4 s]]]; try done.
  by rewrite Hhere.
Qed.

(** X27. For every URL [base/owner/name] in which [owner] and [name]
    contain no slash, whatever else [name] is, the constructor takes
    [owner] as the repository owner, derives the repository name from
    [name] by removing [.git] as [str.replace] does, and puts the clone
    path at that name under the working directory. What the removal
    gives: a [name] in which [.git] does not occur is the repository name
    as it is; a [name] of the shape [a ++ ".git" ++ b], with no [.git] in
    [a], gives [a] followed by what the removal leaves of [b], so the
    usual [name.git] gives [name], and a [.git] in the middle of a name
    goes as well. *)
Theorem init_derives_names cwd base owner name github_token gemini_api_key :
  slashes owner = 0%nat ->
  slashes name = 0%nat ->
  github_token <> "" -> gemini_api_key <> [] ->
  __init__ cwd (base +:+ "/" +:+ owner +:+ "/" +:+ name)
    github_token gemini_api_key
  = Constructed {|
      repo_url := base +:+ "/" +:+ owner +:+ "/" +:+ name;
      github_token := github_token;
      gemini_api_key := gemini_api_key;
      repo_name := Str.remove_dot_git name;
      repo_owner := owner;
      clone_path := Path.join cwd (Str.remove_dot_git name)
    |} /\
  (has_dot_git name = false -> Str.remove_dot_git name = name) /\
  (forall a b,
      name = a +:+ ".git" +:+ b -> has_dot_git a = false ->
      Str.remove_dot_git name = a +:+ Str.remove_dot_git b).
Proof.
  intros Ho Hn Ht Hk. split_and!.
  - unfold __init__.
    assert (Hurl : Str.nonempty_str
              (base +:+ "/" +:+ owner +:+ "/" +:+ name) = true)
      by (by destruct base).
    rewrite Hurl.
    destruct github_token as [|c t]; [done|].
    destruct gemini_api_key as [|n k]; [done|].
    cbn [Str.nonempty_str Py.nonempty andb negb]. cbv iota.
    rewrite !split_slash_app.
    rewrite (split_slash_whole owner Ho), (split_slash_whole _ Hn).
    cbn [app].
    by destruct (from_end_last (Str.split_slash base) owner name)
      as [-> ->].
  - apply remove_dot_git_none.
  - intros a b -> Ha. by apply remove_dot_git_first.
Qed.

Lemma init_derives_names_witness :
  (__init__ "/work" ("https://github.com" +:+ "/" +:+ "octo" +:+ "/"
                     +:+ "demo")
     "token" (py "key")
   = Constructed {|
       repo_url := "https://github.com" +:+ "/" +:+ "octo" +:+ "/"
                   +:+ "demo";
       github_token := "token";
       gemini_api_key := py "key";
       repo_name := "demo";
       repo_owner := "octo";
       clone_path := Path.join "/work" "demo"
     |}) /\
  (__init__ "/work" ("https://github.com" +:+ "/" +:+ "octo" +:+ "/"
                     +:+ "octo.github.io")
     "token" (py "key")
   = Constructed {|
       repo_url := "https://github.com" +:+ "/" +:+ "octo" +:+ "/"
                   +:+ "octo.github.io";
       github_token := "token";
       gemini_api_key := py "key";
       repo_name := Str.remove_dot_git "octo.github.io";
       repo_owner := "octo";
       clone_path := Path.join "/work" (Str.remove_dot_git "octo.github.io")
     |} /\
   Str.remove_dot_git "octo.github.io" = "octo" +:+ Str.remove_dot_git "hub.io").
Proof.
  split.
  - destruct (init_derives_names "/work" "https://github.com" "octo" "demo"
                "token" (py "key")) as (H & _ & _);
      [reflexivity|reflexivity|discriminate|discriminate|].
    exact H.
  - destruct (init_derives_names "/work" "https://github.com" "octo"
                "octo.github.io" "token" (py "key")) as (H & _ & Hshape);
      [reflexivity|reflexivity|discriminate|discriminate|].
    split; [exact H|]. apply (Hshape "octo" "hub.io"); reflexivity.
Defined.

Example init_usual_url :
  __init__ "/work" "https://github.com/octo/demo.git" "token" (py "key")
  = Constructed Fixtures.demo_agent.
Proof. vm_compute. reflexivity. Qed.

Example init_dot_git_inside :
  match __init__ "/work" "https://github.com/octo/octo.github.io"
          "token" (py "key") with
  | Constructed self => repo_name self = "octohub.io"
  | _ => False
  end.
Proof. vm_compute. reflexivity. Qed.

(** ** The HTTP trigger *)

Section Trigger.

Import Flask.

Variables (environ : string -> option pystr) (thread_start : result unit).

(** X28. Whenever [trigger_refactor] returns, the status is 202, 400 or
    500; a background thread is started exactly when the status is 202,
    and only then does the body announce the start. *)
Theorem trigger_status_and_thread data response_body status_code started :
  outcome (trigger_refactor data environ thread_start)
    = Ok (response_body, status_code, started) ->
  (status_code = 202 \/ status_code = 400 \/ status_code = 500) /\
  (is_Some started <-> status_code = 202) /\
  (status_code = 202 <-> exists repo_url, response_body = StartedFor repo_url).
Proof.
  unfold trigger_refactor. destruct data as [v|e]; [|done]. run_m.
  assert (Hgoal : forall (b : body) (st : Z) (j : option job),
    (b, st, j) = (ErrorBody "repo_url is required in JSON payload", 400, None)
    \/ (b, st, j)
       = (ErrorBody "API keys are not configured on the server", 500, None)
    \/ (exists e, (b, st, j) = (ErrorOccurred e, 500, None))
    \/ (exists u job, (b, st, j) = (StartedFor u, 202, Some job)) ->
    (st = 202 \/ st = 400 \/ st = 500) /\
    (is_Some j <-> st = 202) /\
    (st = 202 <-> exists repo_url, b = StartedFor repo_url)).
  { intros b st j [[= -> -> ->]|[[= -> -> ->]|[[e [= -> -> ->]]
      |(u & job & [= -> -> ->])]]]; split_and!; try tauto;
      split; try done; try (by intros [? ?]); try (by eexists). }
  intros H. apply Hgoal. clear Hgoal. revert H.
  destruct (Py.truthy v); simpl; [|intros [= <- <- <-]; by left].
  destruct (contains "repo_url" v) as [[|]|e]; simpl;
    [|intros [= <- <- <-]; by left|done].
  destruct (Py.getitem v "repo_url") as [u|e]; simpl; [|done].
  destruct (environ "GITHUB_TOKEN") as [token|];
    [|intros [= <- <- <-]; right; by left].
  destruct (environ "GEMINI_API_KEY") as [key|];
    [|intros [= <- <- <-]; right; by left].
  destruct (negb (Py.nonempty token) || negb (Py.nonempty key));
    [intros [= <- <- <-]; right; by left|].
  destruct thread_start as [[]|e]; simpl; intros [= <- <- <-].
  - right; right; right. by eexists _, _.
  - right; right; left. by eexists.
Qed.

(** X29. A body that is missing, empty or falsy, and a JSON object
    without the key [repo_url], are answered with status 400 whatever the
    environment holds; no thread is started. *)
Theorem trigger_requires_repo_url v :
  Py.truthy v = false \/
  (exists d, v = PDict d /\ Py.assoc "repo_url" d = None) ->
  trigger_refactor (Ok v) environ thread_start
  = ([], Ok (ErrorBody "repo_url is required in JSON payload", 400, None)).
Proof.
  intros [H|(d & -> & Hd)]; unfold trigger_refactor; run_m.
  - by rewrite H.
  - simpl. destruct d as [|item d]; [done|]. simpl Py.nonempty. cbv iota.
    by rewrite Hd.
Qed.

(** X30. For a JSON object that has the key [repo_url], whatever its
    value (it is not looked at, so an empty string passes): without both
    credentials in the environment, each non-empty, the answer is 500 and
    nothing is started; with them, the thread is started and the answer
    is 202, or 500 when starting the thread raises. *)
Theorem trigger_decides_on_credentials d repo_url :
  Py.assoc "repo_url" d = Some repo_url ->
  outcome (trigger_refactor (Ok (PDict d)) environ thread_start)
  = Ok match credentials environ with
       | None =>
           (ErrorBody "API keys are not configured on the server", 500, None)
       | Some (token, key) =>
           match thread_start with
           | Ok _ =>
               (StartedFor repo_url, 202,
                Some {| job_repo_url := repo_url;
                        job_github_token := token;
                        job_gemini_api_key := key |})
           | Raise e => (ErrorOccurred e, 500, None)
           end
       end.
Proof.
  intros Hd. unfold trigger_refactor, credentials. run_m. simpl.
  destruct d as [|item d]; [done|]. simpl Py.nonempty. cbv iota.
  rewrite Hd. simpl.
  destruct (environ "GITHUB_TOKEN") as [token|]; [|done].
  destruct (environ "GEMINI_API_KEY") as [key|]; [|done].
  destruct (Py.nonempty token), (Py.nonempty key); simpl; try done.
  by destruct thread_start as [[]|e].
Qed.

End Trigger.

Lemma trigger_status_and_thread_witness :
  (202 = 202 \/ 202 = 400 \/ 202 = 500) /\
  (is_Some (Some {| Flask.job_repo_url := PStr (py "https://github.com/octo/demo");
                    Flask.job_github_token := py "token";
                    Flask.job_gemini_api_key := py "key" |})
   <-> 202 = 202) /\
  (202 = 202 <->
   exists repo_url,
     Flask.StartedFor (PStr (py "https://github.com/octo/demo"))
     = Flask.StartedFor repo_url).
Proof.
  apply (trigger_status_and_thread Fixtures.configured (Ok tt)
           (Ok (PDict [("repo_url",
                        PStr (py "https://github.com/octo/demo"))]))).
  vm_compute. reflexivity.
Defined.

Lemma trigger_requires_repo_url_witness :
  Flask.trigger_refactor (Ok (PDict [("url", PStr (py "x"))]))
    Fixtures.configured (Ok tt)
  = ([], Ok (Flask.ErrorBody "repo_url is required in JSON payload",
             400, None)).
Proof.
  apply trigger_requires_repo_url. right. eexists. split; reflexivity.
Defined.

Lemma trigger_decides_on_credentials_witness :
  outcome (Flask.trigger_refactor (Ok (PDict [("repo_url", PStr [])]))
             Fixtures.configured (Ok tt))
  = Ok match credentials Fixtures.configured with
       | None =>
           (Flask.ErrorBody "API keys are not configured on the server",
            500, None)
       | Some (token, key) =>
           (Flask.StartedFor (PStr []), 202,
            Some {| Flask.job_repo_url := PStr [];
                    Flask.job_github_token := token;
                    Flask.job_gemini_api_key := key |})
       end.
Proof.
  apply (trigger_decides_on_credentials Fixtures.configured (Ok tt)
           [("repo_url", PStr [])] (PStr [])).
  reflexivity.
Defined.

Example trigger_accepts_empty_repo_url :
  outcome (Flask.trigger_refactor (Ok (PDict [("repo_url", PStr [])]))
             Fixtures.configured (Ok tt))
  = Ok (Flask.StartedFor (PStr []), 202,
        Some {| Flask.job_repo_url := PStr [];
                Flask.job_github_token := py "token";
                Flask.job_gemini_api_key := py "key" |}) /\
  __init__ "/work" "" "token" (py "key") = RaisesValueError.
Proof. vm_compute. done. Qed.
